(** * Smart Scan Face: face matching and the attendance session tracker

    A shallow embedding of the attendance core of the Smart Scan Face
    application (FastAPI + SQLite):

    - [face_recognition_service.py]: [detect_face], [get_face_encoding],
      [save_face_encoding], [load_face_encoding], [compare_faces],
      [find_matching_student], [process_image_from_base64];
    - [database/models.py]: [get_thai_time], [get_thai_date], the students
      table ([add_student], [update_student], [get_all_students],
      [get_student_by_id], [delete_student]) and the log table
      ([add_attendance_log], [update_checkout_time], [get_active_checkin],
      [get_attendance_logs], [get_today_attendance]);
    - [discord_service.py]: [send_attendance_log];
    - [main.py]: [save_face_capture] and the handlers of the API.

    The two SQL tables are lists of rows in insertion order.  Every handler is
    a computation over a [World] (database, encoding files, log of effects)
    that either returns a value or raises an [HTTPException]; whatever was
    committed before the raise stays committed, as with SQLite.  A Python
    exception of another kind, raised while decoding a picture or unpickling
    an encoding file, is caught by no handler: the request is answered with
    status 500. *)

From Stdlib Require Import ZArith QArith Qabs Bool List String Lia Lqa.
From Stdlib Require Import Ascii DecimalString.
From Stdlib Require Import Sorted Permutation.
Import ListNotations.

Local Open Scope Z_scope.

(** ** Floating-point values

    Distances are numpy [float64] values.  The model keeps the shape of the
    IEEE order: finite values are compared as rationals, the two infinities
    sit at the ends, and every comparison with a NaN is false. *)

Inductive float : Type :=
| Finite (q : Q)
| PosInf
| NegInf
| NaN.

(** [x <= y] on floats. *)
Definition fle (x y : float) : bool :=
  match x, y with
  | NaN, _ | _, NaN => false
  | NegInf, _ => true
  | _, PosInf => true
  | Finite a, Finite b => Qle_bool a b
  | _, _ => false
  end.

(** [x < y] on floats. *)
Definition flt (x y : float) : bool :=
  match x, y with
  | NaN, _ | _, NaN => false
  | PosInf, _ => false
  | _, NegInf => false
  | Finite a, Finite b => negb (Qle_bool b a)
  | _, _ => true
  end.

(** [config.py]: [FACE_RECOGNITION_TOLERANCE = 0.6]. *)
Definition FACE_RECOGNITION_TOLERANCE : float := Finite (6 # 10).

(** A face encoding: the 128 floats the encoder returns. *)
Definition Encoding : Type := list float.

(** ** Files

    Every path the application builds is one of three f-strings; a path is
    kept as the values that fill it.  Time stamps inside file names are the
    host-local second count they print ([datetime.now()], a naive value). *)

Inductive Path : Type :=
| PathTemp
    (* "temp" *)
| PathFace (student_db_id : Z) (stamp : Z)
    (* face_data/face_{student_db_id}_{%Y%m%d_%H%M%S}.pkl *)
| PathCapture (student_id : Z) (scan_type : option string) (stamp : Z).
    (* /static/captures/capture_{student_id}_{scan_type}_{%Y%m%d_%H%M%S}.jpg *)

Definition option_string_eqb (a b : option string) : bool :=
  match a, b with
  | Some x, Some y => String.eqb x y
  | None, None => true
  | _, _ => false
  end.

Definition Path_eqb (p q : Path) : bool :=
  match p, q with
  | PathTemp, PathTemp => true
  | PathFace i s, PathFace j t => (i =? j) && (s =? t)
  | PathCapture i k s, PathCapture j l t =>
      (i =? j) && option_string_eqb k l && (s =? t)
  | _, _ => false
  end.

(** What a file under [FACE_DATA_PATH] holds: the pickle of an encoding,
    or bytes that [pickle.load] cannot read (a truncated or foreign
    file). *)
Inductive FileContent : Type :=
| Pickled (e : Encoding)
| NotAPickle.

(** The files under [FACE_DATA_PATH]: the newest write of a path comes
    first. *)
Definition FaceData : Type := list (Path * FileContent).

(** A call that returns a value or ends in a Python exception nobody
    catches ([pickle.UnpicklingError], [binascii.Error], [cv2.error]). *)
Inductive PyResult (A : Type) : Type :=
| Value (a : A)
| Exception.

Arguments Value {A} a.
Arguments Exception {A}.

(** ** Rows of the two tables *)

(** A row of [students], as the dict [get_all_students] returns. *)
Record Student : Type := mkStudent {
  id : Z;
  student_id : option string;
  first_name : option string;
  last_name : option string;
  face_encoding_path : Path;
  created_at : Z;
  updated_at : Z
}.

(** A time stamp "%Y-%m-%d %H:%M:%S" is kept as the number of seconds it
    denotes, counted from 1970-01-01 00:00:00 of the same civil clock.  The
    text order SQLite sorts by and this number order agree for four-digit
    years. *)
Definition Timestamp : Type := Z.

(** A row of [attendance_logs]. *)
Record AttendanceLog : Type := mkLog {
  log_id : Z;
  log_student_id : Z;
  class_name : option string;
  check_in_time : Timestamp;
  check_out_time : option Timestamp;
  face_image_path : option Path;
  status : string
}.

(** The database: both tables and the AUTOINCREMENT counters kept in
    [sqlite_sequence] (the largest id ever handed out). *)
Record Database : Type := mkDatabase {
  students : list Student;
  attendance_logs : list AttendanceLog;
  seq_students : Z;
  seq_attendance_logs : Z
}.

(** ** face_recognition_service.py *)

Module FaceRecognitionService.

(** What the external detector and encoder find in a decoded picture: the
    faces in the order [face_recognition.face_locations] lists them, each with
    the encoding [face_recognition.face_encodings] computes for it. *)
Record Face : Type := mkFace {
  location : Z * Z * Z * Z;
  encoding : Encoding
}.

Definition Image : Type := list Face.

(** [detect_face]: the positions of the faces. *)
Definition detect_face (image : Image) : list (Z * Z * Z * Z) :=
  map location image.

(** [get_face_encoding]: the encoding of the first face found, [None] when
    there is none. *)
Definition get_face_encoding (image : Image) : option Encoding :=
  let face_locations := map location image in
  if Nat.eqb (List.length face_locations) 0 then None
  else
    let encodings := map encoding image in
    match encodings with
    | e :: _ => Some e
    | [] => None
    end.

(** [load_face_encoding]: [None] when no file is at [filepath]; the
    encoding when the file unpickles; the exception of [pickle.load]
    otherwise. *)
Fixpoint load_face_encoding (files : FaceData) (filepath : Path)
  : PyResult (option Encoding) :=
  match files with
  | [] => Value None
  | (p, content) :: rest =>
      if Path_eqb p filepath then
        match content with
        | Pickled e => Value (Some e)
        | NotAPickle => Exception
        end
      else load_face_encoding rest filepath
  end.

(** [save_face_encoding]: writes the pickle, returns its path; [now_local] is
    the naive [datetime.now()] that names the file. *)
Definition save_face_encoding (files : FaceData) (e : Encoding)
    (student_db_id : Z) (now_local : Z) : FaceData * Path :=
  let filepath := PathFace student_db_id now_local in
  ((filepath, Pickled e) :: files, filepath).

Section Matching.

(** [face_recognition.face_distance] of the external library: the Euclidean
    distance of two encodings, as a float. *)
Variable face_distance : Encoding -> Encoding -> float.

(** [compare_faces]: the library's [compare_faces] is
    [face_distance <= tolerance]. *)
Definition compare_faces (known_encoding unknown_encoding : Encoding)
  : bool * float :=
  let distance := face_distance known_encoding unknown_encoding in
  let is_match := fle distance FACE_RECOGNITION_TOLERANCE in
  (is_match, distance).

(** One turn of the loop of [find_matching_student] over the running pair
    [(best_match, best_distance)]; the exception of a file that does not
    unpickle is not caught. *)
Definition find_step (files : FaceData) (unknown_encoding : Encoding)
    (best : option Student * float) (student : Student)
  : PyResult (option Student * float) :=
  match load_face_encoding files (face_encoding_path student) with
  | Exception => Exception
  | Value None => Value best
  | Value (Some known_encoding) =>
      let '(is_match, distance) :=
        compare_faces known_encoding unknown_encoding in
      if is_match && flt distance (snd best)
      then Value (Some student, distance)
      else Value best
  end.

(** The [for student in students] loop: it ends at the first exception. *)
Fixpoint find_loop (files : FaceData) (unknown_encoding : Encoding)
    (students : list Student) (best : option Student * float)
  : PyResult (option Student * float) :=
  match students with
  | [] => Value best
  | student :: rest =>
      match find_step files unknown_encoding best student with
      | Exception => Exception
      | Value best' => find_loop files unknown_encoding rest best'
      end
  end.

(** [find_matching_student]: the enrolled student closest to the scanned
    face among those within tolerance. *)
Definition find_matching_student (files : FaceData)
    (unknown_encoding : Encoding) (students : list Student)
  : PyResult (option Student) :=
  match find_loop files unknown_encoding students (None, PosInf) with
  | Exception => Exception
  | Value best => Value (fst best)
  end.

End Matching.

End FaceRecognitionService.

(** ** database/models.py *)

Module Models.

(** An instant is a whole number of seconds since the epoch (UTC): the
    formats in use drop the fraction. *)
Definition Instant : Type := Z.

(** [THAILAND_TZ = timezone(timedelta(hours=7))], in seconds. *)
Definition THAILAND_TZ : Z := 7 * 3600.

(** [get_thai_time]: the clock reading [now] printed in UTC+7. *)
Definition get_thai_time (now : Instant) : Timestamp := now + THAILAND_TZ.

(** SQLite's [DATE(t)] and strftime's "%Y-%m-%d": the civil day of a time
    stamp, as a day count. *)
Definition DATE (t : Timestamp) : Z := t / 86400.

(** [get_thai_date]: the civil day of [now] in UTC+7. *)
Definition get_thai_date (now : Instant) : Z := DATE (now + THAILAND_TZ).

(** SQL [column = ?] on a nullable text column: never true on NULL. *)
Definition sql_text_eq (column param : option string) : bool :=
  match column, param with
  | Some a, Some b => String.eqb a b
  | _, _ => false
  end.

(** [column IS NULL]. *)
Definition is_null {A : Type} (column : option A) : bool :=
  match column with
  | None => true
  | Some _ => false
  end.

(** [add_student]: the new row gets the next AUTOINCREMENT id;
    [created_at] and [updated_at] default to CURRENT_TIMESTAMP (UTC).  This
    is the INSERT that succeeds: the one with a student number already in
    the table (the column is UNIQUE) or with the counter at the end of the
    64-bit range raises instead, and the statements on [add_student] with a
    student number carry both conditions.  The registration handlers insert
    a NULL number, which UNIQUE never refuses. *)
Definition add_student (db : Database) (now : Instant)
    (face_encoding_path : Path)
    (student_id first_name last_name : option string) : Database * Z :=
  let new_id := seq_students db + 1 in
  (mkDatabase
     (students db ++
        [mkStudent new_id student_id first_name last_name
                   face_encoding_path now now])
     (attendance_logs db) new_id (seq_attendance_logs db),
   new_id).

(** [update_student]; [now_local] is the naive [datetime.now()].  This is
    the UPDATE that succeeds: the one that gives a student the number of
    another student (the column is UNIQUE) raises instead, and the
    statements on updates carry the condition that the number is free. *)
Definition update_student (db : Database) (now_local : Z) (id' : Z)
    (student_id' first_name' last_name' : string) : Database :=
  mkDatabase
    (map (fun s =>
            if id s =? id'
            then mkStudent (id s) (Some student_id') (Some first_name')
                           (Some last_name') (face_encoding_path s)
                           (created_at s) now_local
            else s)
         (students db))
    (attendance_logs db) (seq_students db) (seq_attendance_logs db).

(** [UPDATE students SET face_encoding_path = ? WHERE id = ?], run by the
    registration handlers. *)
Definition update_face_encoding_path (db : Database) (encoding_path : Path)
    (id' : Z) : Database :=
  mkDatabase
    (map (fun s =>
            if id s =? id'
            then mkStudent (id s) (student_id s) (first_name s) (last_name s)
                           encoding_path (created_at s) (updated_at s)
            else s)
         (students db))
    (attendance_logs db) (seq_students db) (seq_attendance_logs db).

(** Insertion of a row into a list already ordered by [created_at]
    descending; rows of equal [created_at] keep their table order. *)
Fixpoint insert_created_at_desc (s : Student) (sorted : list Student)
  : list Student :=
  match sorted with
  | [] => [s]
  | x :: rest =>
      if created_at x <? created_at s
      then s :: sorted
      else x :: insert_created_at_desc s rest
  end.

(** [get_all_students]: [SELECT * FROM students ORDER BY created_at DESC]. *)
Definition get_all_students (db : Database) : list Student :=
  fold_left (fun sorted s => insert_created_at_desc s sorted) (students db) [].

(** [get_student_by_id].  The id is one that SQLite can bind, a 64-bit
    integer; [sqlite3] raises on any other, and the statements that take an
    id from a request carry the range as a condition. *)
Definition get_student_by_id (db : Database) (id' : Z) : option Student :=
  find (fun s => id s =? id') (students db).

(** [delete_student]: removes the encoding file when it exists, then the
    logs of the student, then the student. *)
Definition delete_student (db : Database) (files : FaceData) (id' : Z)
  : Database * FaceData :=
  let files' :=
    match find (fun s => id s =? id') (students db) with
    | Some result =>
        filter (fun f => negb (Path_eqb (fst f) (face_encoding_path result)))
               files
    | None => files
    end in
  (mkDatabase
     (filter (fun s => negb (id s =? id')) (students db))
     (filter (fun r => negb (log_student_id r =? id')) (attendance_logs db))
     (seq_students db) (seq_attendance_logs db),
   files').

(** [add_attendance_log]: a new row in status 'checked_in', stamped with
    the Thai time of [now]. *)
Definition add_attendance_log (db : Database) (now : Instant)
    (student_id' : Z) (class_name' : option string)
    (face_image_path' : option Path) : Database * Z :=
  let thai_time := get_thai_time now in
  let log_id' := seq_attendance_logs db + 1 in
  (mkDatabase
     (students db)
     (attendance_logs db ++
        [mkLog log_id' student_id' class_name' thai_time None
               face_image_path' "checked_in"])
     (seq_students db) log_id',
   log_id').

(** [update_checkout_time]: stamps the rows whose id is [log_id'] with the
    Thai time of [now]; the picture replaces the stored one only when one
    is given. *)
Definition update_checkout_time (db : Database) (now : Instant)
    (log_id' : Z) (face_image_path' : option Path) : Database :=
  let thai_time := get_thai_time now in
  mkDatabase
    (students db)
    (map (fun r =>
            if log_id r =? log_id' then
              match face_image_path' with
              | Some p =>
                  mkLog (log_id r) (log_student_id r) (class_name r)
                        (check_in_time r) (Some thai_time) (Some p)
                        "checked_out"
              | None =>
                  mkLog (log_id r) (log_student_id r) (class_name r)
                        (check_in_time r) (Some thai_time)
                        (face_image_path r) "checked_out"
              end
            else r)
         (attendance_logs db))
    (seq_students db) (seq_attendance_logs db).

(** The WHERE clause of [get_active_checkin]. *)
Definition active_checkin_where (student_id' : Z)
    (class_name' : option string) (today : Z) (r : AttendanceLog) : bool :=
  (log_student_id r =? student_id')
  && sql_text_eq (class_name r) class_name'
  && (DATE (check_in_time r) =? today)
  && is_null (check_out_time r).

(** [ORDER BY check_in_time DESC LIMIT 1]: a row with the latest
    [check_in_time]; among equal ones the earliest in the table. *)
Definition order_by_check_in_time_desc_limit_1 (rows : list AttendanceLog)
  : option AttendanceLog :=
  fold_left
    (fun best r =>
       match best with
       | None => Some r
       | Some b => if check_in_time b <? check_in_time r then Some r else best
       end)
    rows None.

(** [get_active_checkin]: today's row of the student and class that has a
    check-in and no check-out; [now] is the clock reading behind
    [get_thai_date]. *)
Definition get_active_checkin (db : Database) (now : Instant)
    (student_id' : Z) (class_name' : option string) : option AttendanceLog :=
  let today := get_thai_date now in
  order_by_check_in_time_desc_limit_1
    (filter (active_checkin_where student_id' class_name' today)
            (attendance_logs db)).

(** A row of the listings: the columns selected from
    [attendance_logs al LEFT JOIN students s ON al.student_id = s.id]. *)
Record LogView : Type := mkLogView {
  view_id : Z;
  view_class_name : option string;
  view_check_in_time : Timestamp;
  view_check_out_time : option Timestamp;
  view_face_image_path : option Path;
  view_status : string;
  view_student_id : option string;
  view_first_name : option string;
  view_last_name : option string
}.

(** The LEFT JOIN for one log row: one output row per student whose id is
    the row's [student_id]; a single row with NULL student columns when
    there is none. *)
Definition left_join_students (table : list Student) (al : AttendanceLog)
  : list LogView :=
  match filter (fun s => id s =? log_student_id al) table with
  | [] =>
      [mkLogView (log_id al) (class_name al) (check_in_time al)
                 (check_out_time al) (face_image_path al) (status al)
                 None None None]
  | matches =>
      map (fun s =>
             mkLogView (log_id al) (class_name al) (check_in_time al)
                       (check_out_time al) (face_image_path al) (status al)
                       (student_id s) (first_name s) (last_name s))
          matches
  end.

(** Insertion into a list ordered by [check_in_time] descending; equal
    stamps keep their table order. *)
Fixpoint insert_check_in_time_desc (v : LogView) (sorted : list LogView)
  : list LogView :=
  match sorted with
  | [] => [v]
  | x :: rest =>
      if view_check_in_time x <? view_check_in_time v
      then v :: sorted
      else x :: insert_check_in_time_desc v rest
  end.

(** [ORDER BY al.check_in_time DESC]. *)
Definition order_by_check_in_time_desc (rows : list LogView) : list LogView :=
  fold_left (fun sorted v => insert_check_in_time_desc v sorted) rows [].

(** [LIMIT ?]: SQLite puts no bound on the result when the number is
    negative.  The number is one that SQLite can bind, a 64-bit integer. *)
Definition sql_limit {A : Type} (limit : Z) (rows : list A) : list A :=
  if limit <? 0 then rows else firstn (Z.to_nat limit) rows.

(** The text given as [date_filter]: nothing or the empty text (both
    falsy), the "%Y-%m-%d" text of a day, or a text [DATE()] never
    returns. *)
Inductive DateFilter : Type :=
| NoDateFilter
| DateOf (day : Z)
| NotADate.

(** [get_attendance_logs]. *)
Definition get_attendance_logs (db : Database) (limit : Z)
    (date_filter : DateFilter) : list LogView :=
  match date_filter with
  | NoDateFilter =>
      sql_limit limit
        (order_by_check_in_time_desc
           (flat_map (left_join_students (students db))
                     (attendance_logs db)))
  | DateOf day =>
      sql_limit limit
        (order_by_check_in_time_desc
           (flat_map (left_join_students (students db))
                     (filter (fun al => DATE (check_in_time al) =? day)
                             (attendance_logs db))))
  | NotADate => sql_limit limit []
  end.

(** Python's truth value of an optional text. *)
Definition truthy (x : option string) : bool :=
  match x with
  | Some s => negb (String.eqb s "")
  | None => false
  end.

(** [get_today_attendance]; [now] is the clock reading behind
    [get_thai_date]. *)
Definition get_today_attendance (db : Database) (now : Instant)
    (class_name' : option string) : list LogView :=
  let today := get_thai_date now in
  if truthy class_name' then
    order_by_check_in_time_desc
      (flat_map (left_join_students (students db))
                (filter (fun al =>
                           (DATE (check_in_time al) =? today)
                           && sql_text_eq (class_name al) class_name')
                        (attendance_logs db)))
  else
    order_by_check_in_time_desc
      (flat_map (left_join_students (students db))
                (filter (fun al => DATE (check_in_time al) =? today)
                        (attendance_logs db))).

End Models.

(** ** The world a request runs in *)

(** The body the Discord webhook receives: the embed of
    [send_attendance_log].  The clock fields hold the naive local
    [datetime.now()] of the host. *)
Record Payload : Type := mkPayload {
  title : string;
  color : Z;
  full_name : string;
  student_id_display : string;
  subject : option string;
  time_label : string;
  current_time : Z
}.

(** What leaves the process, in the order it happens. *)
Inductive Event : Type :=
| Imwrite (filepath : Path)
    (* cv2.imwrite of a captured face *)
| Commit
    (* conn.commit() of a statement on attendance_logs or students *)
| Post (payload : Payload).
    (* session.post(webhook_url, json=payload) *)

Record World : Type := mkWorld {
  db : Database;
  face_data : FaceData;
  events : list Event
}.

(** How the webhook call ends: a response with a status, or an exception
    (no network, time-out, bad URL). *)
Inductive PostResult : Type :=
| Responded (status_code : Z)
| PostRaised.

(** What a request reads from outside the process: the clock at each place
    the code asks for it, the UTC offset of the host's local zone, and the
    fate of the webhook call. *)
Record Env : Type := mkEnv {
  host_utc_offset : Z;
  clock_capture : Models.Instant;
    (* datetime.now() that names a file: save_face_capture,
       save_face_encoding *)
  clock_lookup : Models.Instant;
    (* get_thai_date() in get_active_checkin *)
  clock_write : Models.Instant;
    (* the clock of a statement: get_thai_time() in add_attendance_log and
       update_checkout_time, CURRENT_TIMESTAMP in add_student,
       datetime.now() in update_student *)
  clock_notify : Models.Instant;
    (* datetime.now() in send_attendance_log *)
  clock_reply : Models.Instant;
    (* datetime.now() in the returned dict *)
  webhook_url : string;
  post_result : PostResult
}.

(** The naive [datetime.now()]: the host's local wall clock at [now]. *)
Definition datetime_now (env : Env) (now : Models.Instant) : Z :=
  now + host_utc_offset env.

(** [fastapi.HTTPException]. *)
Record HTTPException : Type := mkHTTPException {
  status_code : Z;
  detail : string
}.

(** What the server answers when a handler ends in an exception that is
    no [HTTPException]. *)
Definition InternalServerError : HTTPException :=
  mkHTTPException 500 "Internal Server Error".

Inductive Outcome (A : Type) : Type :=
| Returned (a : A)
| Raised (e : HTTPException).

Arguments Returned {A} a.
Arguments Raised {A} e.

(** A handler: runs on a world, returns or raises, leaves a world. *)
Definition Handler (A : Type) : Type := World -> Outcome A * World.

Definition ret {A : Type} (a : A) : Handler A := fun w => (Returned a, w).

Definition raise {A : Type} (e : HTTPException) : Handler A :=
  fun w => (Raised e, w).

Definition bind {A B : Type} (c : Handler A) (k : A -> Handler B)
  : Handler B :=
  fun w =>
    match c w with
    | (Returned a, w') => k a w'
    | (Raised e, w') => (Raised e, w')
    end.

Notation "x <- c ;; k" := (bind c (fun x => k))
  (at level 61, c at next level, right associativity).
Notation "c ;;; k" := (bind c (fun _ => k))
  (at level 61, right associativity).

(** Reads the database, the encoding files. *)
Definition read_db : Handler Database := fun w => (Returned (db w), w).
Definition read_face_data : Handler FaceData :=
  fun w => (Returned (face_data w), w).

(** A statement followed by [conn.commit()]. *)
Definition commit_db (db' : Database) : Handler unit :=
  fun w => (Returned tt, mkWorld db' (face_data w) (events w ++ [Commit])).

Definition write_face_data (files : FaceData) : Handler unit :=
  fun w => (Returned tt, mkWorld (db w) files (events w)).

Definition emit (e : Event) : Handler unit :=
  fun w => (Returned tt, mkWorld (db w) (face_data w) (events w ++ [e])).

(** ** discord_service.py *)

Module DiscordService.

Local Open Scope string_scope.

(** Python's [x or default] on an optional string. *)
Definition or_else (x : option string) (default : string) : string :=
  match x with
  | Some s => if String.eqb s "" then default else s
  | None => default
  end.

(** [send_attendance_log]: [True] only when the webhook answers 204; any
    other status and any exception of the call end in [False]. *)
Definition send_attendance_log (env : Env)
    (student_id' first_name' last_name' : option string)
    (class_name' : option string) (scan_type : string)
    (face_image_url : option Path) : Handler bool :=
  if String.eqb (webhook_url env) ""
     || String.eqb (webhook_url env) "YOUR_DISCORD_WEBHOOK_URL_HERE"
  then ret false
  else
    let current_time := datetime_now env (clock_notify env) in
    let full_name :=
      or_else first_name' "ไม่ระบุชื่อ" ++ " " ++ or_else last_name' "" in
    let student_id_display := or_else student_id' "ไม่ระบุรหัส" in
    let '(title, color, time_label) :=
      if String.eqb scan_type "check_out"
      then ("🚪 แจ้งเตือนการออก", 16753920%Z, "เวลาออก")
      else ("✅ แจ้งเตือนการเข้าเรียน", 5763719%Z, "เวลาเข้า") in
    let payload :=
      mkPayload title color full_name student_id_display class_name'
                time_label current_time in
    emit (Post payload) ;;;
    match post_result env with
    | Responded status =>
        if (status =? 204)%Z then ret true else ret false
    | PostRaised => ret false
    end.

End DiscordService.

(** ** main.py *)

Module Main.

Import FaceRecognitionService.
Local Open Scope string_scope.

(** The picture a request carries, as a base64 text or as the bytes of an
    uploaded file, by what decoding makes of it.  [Malformed]: decoding
    raises ([base64.b64decode] on bad padding, [cv2.imdecode] on no bytes at
    all); [NotAPicture]: [cv2.imdecode] gives [None], the bytes being no
    picture; [Picture]: it gives the image. *)
Inductive ImageData : Type :=
| Malformed
| NotAPicture
| Picture (image : Image).

(** [process_image_from_base64]: nothing in it catches what
    [base64.b64decode] or [cv2.imdecode] raises. *)
Definition process_image_from_base64 (base64_string : ImageData)
  : PyResult (option Image) :=
  match base64_string with
  | Malformed => Exception
  | NotAPicture => Value None
  | Picture image => Value (Some image)
  end.


(** What an f-string prints for a value of a nullable text column. *)
Definition format_text (x : option string) : string :=
  match x with
  | Some s => s
  | None => "None"
  end.

(** What an f-string prints for an [int]. *)
Definition format_int (n : Z) : string := NilZero.string_of_int (Z.to_int n).

(** The characters [str.strip] removes, as UTF-8: the ASCII white space
    and separators, U+0085, U+00A0, U+1680, U+2000 to U+200A, U+2028,
    U+2029, U+202F, U+205F and U+3000. *)
Definition whitespace : list (list nat) :=
  [[9]; [10]; [11]; [12]; [13]; [28]; [29]; [30]; [31]; [32];
   [194; 133]; [194; 160]; [225; 154; 128];
   [226; 128; 128]; [226; 128; 129]; [226; 128; 130]; [226; 128; 131];
   [226; 128; 132]; [226; 128; 133]; [226; 128; 134]; [226; 128; 135];
   [226; 128; 136]; [226; 128; 137]; [226; 128; 138];
   [226; 128; 168]; [226; 128; 169]; [226; 128; 175]; [226; 129; 159];
   [227; 128; 128]]%nat.

(** The rest of [s] after the prefix [c], when [s] starts with it. *)
Fixpoint after_prefix (c : list nat) (s : list nat) : option (list nat) :=
  match c, s with
  | [], _ => Some s
  | x :: c', y :: s' => if Nat.eqb x y then after_prefix c' s' else None
  | _ :: _, [] => None
  end.

(** The rest of [s] after one leading character out of [chars]. *)
Fixpoint after_one_of (chars : list (list nat)) (s : list nat)
  : option (list nat) :=
  match chars with
  | [] => None
  | c :: rest =>
      match after_prefix c s with
      | Some s' => Some s'
      | None => after_one_of rest s
      end
  end.

(** [s] without its leading characters out of [chars]; [n] bounds their
    number. *)
Fixpoint lstrip_bytes (n : nat) (chars : list (list nat)) (s : list nat)
  : list nat :=
  match n with
  | O => s
  | S n' =>
      match after_one_of chars s with
      | Some s' => lstrip_bytes n' chars s'
      | None => s
      end
  end.

(** [str.strip()]: the text without leading and trailing white space. *)
Definition strip (s : string) : string :=
  let bytes := map nat_of_ascii (list_ascii_of_string s) in
  let left := lstrip_bytes (List.length bytes) whitespace bytes in
  let right :=
    lstrip_bytes (List.length left) (map (@rev nat) whitespace) (rev left) in
  string_of_list_ascii (map ascii_of_nat (rev right)).

(** The exception both registration handlers raise for a face that is
    enrolled already: the detail names the student, by id when the names
    strip to nothing. *)
Definition already_registered (existing : Student) : HTTPException :=
  let name :=
    strip (format_text (first_name existing) ++ " "
           ++ format_text (last_name existing)) in
  let name :=
    match name with
    | EmptyString => "ID: " ++ format_int (id existing)
    | _ => name
    end in
  mkHTTPException 400 ("ใบหน้านี้ลงทะเบียนแล้ว (" ++ name ++ ")").

(** [StudentUpdate]. *)
Record StudentUpdate : Type := mkStudentUpdate {
  upd_student_id : string;
  upd_first_name : string;
  upd_last_name : string
}.

(** [FaceScanRequest]. *)
Record FaceScanRequest : Type := mkFaceScanRequest {
  scan_image_base64 : ImageData
}.

(** [AttendanceRequest]; both optional fields accept a JSON null.  The
    defaults ([DEFAULT_CLASS_NAME], "check_in") are filled in by the
    framework before the handler runs. *)
Record AttendanceRequest : Type := mkAttendanceRequest {
  image_base64 : ImageData;
  req_class_name : option string;
  req_scan_type : option string
}.

Definition DEFAULT_CLASS_NAME : string := "AI ปัญญาประดิษฐ์".

(** The dict a successful [api_check_attendance] returns.  [reply_student]
    is the matched row that "student_name" and "student_id" are printed
    from; [reply_time] and [reply_date] are the "%H:%M:%S" second of the day
    and the "%d/%m/%Y" day of the naive [datetime.now()]. *)
Record AttendanceReply : Type := mkAttendanceReply {
  success : bool;
  message : string;
  reply_scan_type : string;
  reply_student : Student;
  reply_class_name : option string;
  reply_time : Z;
  reply_date : Z;
  face_image : Path
}.

(** The dict [api_register_face] returns. *)
Record RegisterReply : Type := mkRegisterReply {
  reg_success : bool;
  reg_message : string;
  student_db_id : Z
}.

(** [save_face_capture]: writes the scanned picture, returns its URL. *)
Definition save_face_capture (env : Env) (student_id' : Z)
    (scan_type : option string) : Handler Path :=
  let timestamp := datetime_now env (clock_capture env) in
  let filepath := PathCapture student_id' scan_type timestamp in
  emit (Imwrite filepath) ;;;
  ret filepath.

Section Handlers.

Variable face_distance : Encoding -> Encoding -> float.

(** POST /api/check-attendance. *)
Definition api_check_attendance (env : Env) (data : AttendanceRequest)
  : Handler AttendanceReply :=
  match process_image_from_base64 (image_base64 data) with
  | Exception => raise InternalServerError
  | Value None => raise (mkHTTPException 400 "Invalid image data")
  | Value (Some image) =>
  let face_locations := detect_face image in
  if Nat.eqb (List.length face_locations) 0
  then raise (mkHTTPException 400 "ไม่พบใบหน้าในภาพ")
  else
  match get_face_encoding image with
  | None => raise (mkHTTPException 400 "ไม่สามารถประมวลผลใบหน้าได้")
  | Some encoding =>
  db0 <- read_db ;;
  files <- read_face_data ;;
  let students := Models.get_all_students db0 in
  match find_matching_student face_distance files encoding students with
  | Exception => raise InternalServerError
  | Value None =>
      raise (mkHTTPException 404 "ไม่พบข้อมูลในระบบ กรุณาลงทะเบียนก่อน")
  | Value (Some matched_student) =>
  face_image_path <-
    save_face_capture env (id matched_student) (req_scan_type data) ;;
  if option_string_eqb (req_scan_type data) (Some "check_out") then
    db1 <- read_db ;;
    match Models.get_active_checkin db1 (clock_lookup env)
            (id matched_student) (req_class_name data) with
    | None =>
        raise (mkHTTPException 400
                 "ไม่พบการเช็คเข้าของวันนี้ กรุณาเช็คเข้าก่อน")
    | Some active_checkin =>
        db2 <- read_db ;;
        commit_db (Models.update_checkout_time db2 (clock_write env)
                     (log_id active_checkin) (Some face_image_path)) ;;;
        DiscordService.send_attendance_log env
          (student_id matched_student) (first_name matched_student)
          (last_name matched_student) (req_class_name data)
          "check_out" (Some face_image_path) ;;;
        ret (mkAttendanceReply true "เช็คออกสำเร็จ!" "check_out"
               matched_student (req_class_name data)
               (datetime_now env (clock_reply env) mod 86400)
               (datetime_now env (clock_reply env) / 86400)
               face_image_path)
    end
  else
    db1 <- read_db ;;
    match Models.get_active_checkin db1 (clock_lookup env)
            (id matched_student) (req_class_name data) with
    | Some _ =>
        raise (mkHTTPException 400 "คุณเช็คเข้าแล้ววันนี้ กรุณาเช็คออกก่อน")
    | None =>
        db2 <- read_db ;;
        commit_db (fst (Models.add_attendance_log db2 (clock_write env)
                          (id matched_student) (req_class_name data)
                          (Some face_image_path))) ;;;
        DiscordService.send_attendance_log env
          (student_id matched_student) (first_name matched_student)
          (last_name matched_student) (req_class_name data)
          "check_in" (Some face_image_path) ;;;
        ret (mkAttendanceReply true "เช็คเข้าสำเร็จ!" "check_in"
               matched_student (req_class_name data)
               (datetime_now env (clock_reply env) mod 86400)
               (datetime_now env (clock_reply env) / 86400)
               face_image_path)
    end
  end end end.

(** POST /api/register-face. *)
Definition api_register_face (env : Env) (data : FaceScanRequest)
  : Handler RegisterReply :=
  match process_image_from_base64 (scan_image_base64 data) with
  | Exception => raise InternalServerError
  | Value None => raise (mkHTTPException 400 "Invalid image data")
  | Value (Some image) =>
  let face_locations := detect_face image in
  if Nat.eqb (List.length face_locations) 0
  then raise (mkHTTPException 400 "ไม่พบใบหน้าในภาพ กรุณาลองใหม่")
  else
  if Nat.ltb 1 (List.length face_locations)
  then raise (mkHTTPException 400
                "พบใบหน้ามากกว่า 1 คน กรุณาให้มีแค่คนเดียวในภาพ")
  else
  match get_face_encoding image with
  | None => raise (mkHTTPException 400 "ไม่สามารถสร้างข้อมูลใบหน้าได้")
  | Some encoding =>
  db0 <- read_db ;;
  files <- read_face_data ;;
  let students := Models.get_all_students db0 in
  match find_matching_student face_distance files encoding students with
  | Exception => raise InternalServerError
  | Value (Some existing) =>
      raise (already_registered existing)
  | Value None =>
      db1 <- read_db ;;
      let '(db2, temp_id) :=
        Models.add_student db1 (clock_write env) PathTemp None None None in
      commit_db db2 ;;;
      files1 <- read_face_data ;;
      let '(files2, encoding_path) :=
        save_face_encoding files1 encoding temp_id
          (datetime_now env (clock_capture env)) in
      write_face_data files2 ;;;
      db3 <- read_db ;;
      commit_db (Models.update_face_encoding_path db3 encoding_path temp_id) ;;;
      ret (mkRegisterReply true
             "ลงทะเบียนใบหน้าสำเร็จ! กรุณาแจ้ง Admin เพื่อกรอกข้อมูล" temp_id)
  end end end.

End Handlers.

(** PUT /api/students/{id}. *)
Definition api_update_student (env : Env) (id' : Z) (data : StudentUpdate)
  : Handler bool :=
  db0 <- read_db ;;
  match Models.get_student_by_id db0 id' with
  | None => raise (mkHTTPException 404 "Student not found")
  | Some _ =>
      db1 <- read_db ;;
      commit_db (Models.update_student db1
                   (datetime_now env (clock_write env)) id'
                   (upd_student_id data) (upd_first_name data)
                   (upd_last_name data)) ;;;
      ret true
  end.

(** DELETE /api/students/{id}. *)
Definition api_delete_student (id' : Z) : Handler bool :=
  db0 <- read_db ;;
  match Models.get_student_by_id db0 id' with
  | None => raise (mkHTTPException 404 "Student not found")
  | Some _ =>
      db1 <- read_db ;;
      files <- read_face_data ;;
      let '(db2, files') := Models.delete_student db1 files id' in
      write_face_data files' ;;;
      commit_db db2 ;;;
      ret true
  end.


(** GET /api/students. *)
Definition api_get_students : Handler (list Student) :=
  db0 <- read_db ;;
  ret (Models.get_all_students db0).

(** GET /api/students/{student_id}. *)
Definition api_get_student (student_id' : Z) : Handler Student :=
  db0 <- read_db ;;
  match Models.get_student_by_id db0 student_id' with
  | None => raise (mkHTTPException 404 "Student not found")
  | Some student => ret student
  end.

(** GET /api/logs. *)
Definition api_get_logs (limit : Z) (date : Models.DateFilter)
  : Handler (list Models.LogView) :=
  db0 <- read_db ;;
  ret (Models.get_attendance_logs db0 limit date).

(** GET /api/logs/today. *)
Definition api_get_today_logs (env : Env) (class_name' : option string)
  : Handler (list Models.LogView) :=
  db0 <- read_db ;;
  ret (Models.get_today_attendance db0 (clock_lookup env) class_name').

End Main.

(** ** Vocabulary of the statements *)

Section MatcherSpec.

Import FaceRecognitionService.

Variable face_distance : Encoding -> Encoding -> float.

(** The distance of an enrolled student to the scanned encoding, when the
    student's encoding file loads. *)
Definition enrolled_distance (files : FaceData) (unknown : Encoding)
    (s : Student) : option float :=
  match load_face_encoding files (face_encoding_path s) with
  | Value (Some known) => Some (face_distance known unknown)
  | _ => None
  end.


(** The loop invariant of [find_matching_student] after the students in
    [seen]: nothing chosen while nobody seen is within tolerance; otherwise
    the chosen student is within tolerance and no seen student within
    tolerance is closer. *)
Definition best_so_far (files : FaceData) (unknown : Encoding)
    (seen : list Student) (best : option Student * float) : Prop :=
  match fst best with
  | None =>
      snd best = PosInf /\
      forall s d, In s seen -> enrolled_distance files unknown s = Some d ->
                  fle d FACE_RECOGNITION_TOLERANCE = false
  | Some b =>
      In b seen /\
      enrolled_distance files unknown b = Some (snd best) /\
      fle (snd best) FACE_RECOGNITION_TOLERANCE = true /\
      forall s d, In s seen -> enrolled_distance files unknown s = Some d ->
                  fle d FACE_RECOGNITION_TOLERANCE = true ->
                  fle (snd best) d = true
  end.

End MatcherSpec.

Section TrackerSpec.

Import FaceRecognitionService Main.
Local Open Scope string_scope.

Variable face_distance : Encoding -> Encoding -> float.

(** The student a scan resolves to: the outcome of the first half of
    [api_check_attendance] (decode, detect, encode, match), [None] when that
    half raises. *)
Definition recognise (w : World) (picture : ImageData) : option Student :=
  match process_image_from_base64 picture with
  | Value (Some image) =>
      if Nat.eqb (List.length (detect_face image)) 0 then None
      else
        match get_face_encoding image with
        | None => None
        | Some encoding =>
            match find_matching_student face_distance (face_data w) encoding
                    (Models.get_all_students (db w)) with
            | Value (Some matched_student) => Some matched_student
            | _ => None
            end
        end
  | _ => None
  end.

(** An open session of a key: a row of the student and class, checked in
    on [day], with no check-out. *)
Definition open_session (d : Database) (sid : Z) (cls : string) (day : Z)
    (r : AttendanceLog) : Prop :=
  In r (attendance_logs d) /\
  log_student_id r = sid /\
  class_name r = Some cls /\
  Models.DATE (check_in_time r) = day /\
  check_out_time r = None.

(** A session of the key that was checked out. *)
Definition closed_session_b (sid : Z) (cls : string) (day : Z)
    (r : AttendanceLog) : bool :=
  (log_student_id r =? sid)%Z
  && Models.sql_text_eq (class_name r) (Some cls)
  && (Models.DATE (check_in_time r) =? day)%Z
  && negb (Models.is_null (check_out_time r)).

(** The states of the tracker for a key (student, class, civil day). *)
Inductive SessionState : Type :=
| NoSession
| Entered
| Exited.

Definition session_state (d : Database) (sid : Z) (cls : string) (day : Z)
  : SessionState :=
  if existsb (Models.active_checkin_where sid (Some cls) day)
             (attendance_logs d)
  then Entered
  else if existsb (closed_session_b sid cls day) (attendance_logs d)
  then Exited
  else NoSession.

(** The rows of a key, open or not. *)
Definition sessions_of (d : Database) (sid : Z) (cls : string) (day : Z)
  : list AttendanceLog :=
  filter (fun r =>
            (log_student_id r =? sid)%Z
            && Models.sql_text_eq (class_name r) (Some cls)
            && (Models.DATE (check_in_time r) =? day)%Z)
         (attendance_logs d).

Definition at_most_one_open (d : Database) : Prop :=
  forall sid cls day r1 r2,
    open_session d sid cls day r1 -> open_session d sid cls day r2 -> r1 = r2.

(** The rejections of the tracker, by the names of the transition table. *)
Definition DuplicateEntry : HTTPException :=
  mkHTTPException 400 "คุณเช็คเข้าแล้ววันนี้ กรุณาเช็คออกก่อน".

Definition NoOpenEntry : HTTPException :=
  mkHTTPException 400 "ไม่พบการเช็คเข้าของวันนี้ กรุณาเช็คเข้าก่อน".

Definition IdentityNotFound : HTTPException :=
  mkHTTPException 404 "ไม่พบข้อมูลในระบบ กรุณาลงทะเบียนก่อน".

Definition NoFaceFound : HTTPException :=
  mkHTTPException 400 "ไม่พบใบหน้าในภาพ".

Definition empty_world : World := mkWorld (mkDatabase [] [] 0 0) [] [].

(** What [send_attendance_log] emits for a transition. *)
Definition notifier_events (env : Env) (s : Student)
    (cls : option string) (scan_type : string) (picture : Path)
  : list Event :=
  events (snd (DiscordService.send_attendance_log env
                 (student_id s) (first_name s) (last_name s) cls scan_type
                 (Some picture) empty_world)).

(** The URL [save_face_capture] returns for a request. *)
Definition capture_path (env : Env) (s : Student) (data : AttendanceRequest)
  : Path :=
  PathCapture (id s) (req_scan_type data)
              (datetime_now env (clock_capture env)).

(** The dict a successful request returns. *)
Definition reply_of (env : Env) (s : Student) (data : AttendanceRequest)
    (msg scan_type : string) : AttendanceReply :=
  mkAttendanceReply true msg scan_type s (req_class_name data)
    (datetime_now env (clock_reply env) mod 86400)
    (datetime_now env (clock_reply env) / 86400)
    (capture_path env s data).

(** The requests that reach the database. *)
Inductive Request : Type :=
| CheckAttendance (env : Env) (data : AttendanceRequest)
| RegisterFace (env : Env) (data : FaceScanRequest)
| UpdateStudent (env : Env) (id' : Z) (data : StudentUpdate)
| DeleteStudent (id' : Z).

Definition serve (r : Request) (w : World) : World :=
  match r with
  | CheckAttendance env data => snd (api_check_attendance face_distance env data w)
  | RegisterFace env data => snd (api_register_face face_distance env data w)
  | UpdateStudent env id' data => snd (api_update_student env id' data w)
  | DeleteStudent id' => snd (api_delete_student id' w)
  end.

(** The worlds the server passes through from an empty log table when its
    clock never runs backwards; the index is the latest reading behind a
    stored time stamp. *)
Inductive reachable : Models.Instant -> World -> Prop :=
| reach_fresh (T : Models.Instant) (w : World) :
    attendance_logs (db w) = [] ->
    reachable T w
| reach_check (T : Models.Instant) (w : World) (env : Env)
    (data : AttendanceRequest) :
    reachable T w ->
    T <= clock_lookup env ->
    clock_lookup env <= clock_write env ->
    reachable (clock_write env) (serve (CheckAttendance env data) w)
| reach_other (T : Models.Instant) (w : World) (r : Request) :
    reachable T w ->
    (forall env data, r <> CheckAttendance env data) ->
    reachable T (serve r w)
| reach_wait (T T' : Models.Instant) (w : World) :
    reachable T w ->
    T <= T' ->
    reachable T' w.

(** What holds of the log table of a reachable world. *)
Record log_invariant (T : Models.Instant) (d : Database) : Prop := {
  inv_past :
    forall r, In r (attendance_logs d) ->
              check_in_time r <= Models.get_thai_time T;
  inv_seq :
    forall r, In r (attendance_logs d) ->
              log_id r <= seq_attendance_logs d;
  inv_ids : NoDup (map log_id (attendance_logs d));
  inv_status :
    forall r, In r (attendance_logs d) ->
              match check_out_time r with
              | Some t => check_in_time r <= t /\ status r = "checked_out"
              | None => status r = "checked_in"
              end;
  inv_open : at_most_one_open d
}.

End TrackerSpec.

(** The same surroundings with another fate for the webhook call. *)
Definition with_post_result (env : Env) (result : PostResult) : Env :=
  mkEnv (host_utc_offset env) (clock_capture env) (clock_lookup env)
        (clock_write env) (clock_notify env) (clock_reply env)
        (webhook_url env) result.

(** The same request with another scan type. *)
Definition with_scan_type (data : Main.AttendanceRequest)
    (scan_type : option string) : Main.AttendanceRequest :=
  Main.mkAttendanceRequest (Main.image_base64 data) (Main.req_class_name data)
                           scan_type.

(** The log row an accepted check-in appends. *)
Definition checked_in_row (d : Database) (env : Env) (s : Student)
    (data : Main.AttendanceRequest) : AttendanceLog :=
  mkLog (seq_attendance_logs d + 1) (id s) (Main.req_class_name data)
        (Models.get_thai_time (clock_write env)) None
        (Some (capture_path env s data)) "checked_in".

(** The row [r] once an accepted check-out has stamped it. *)
Definition checked_out_row (r : AttendanceLog) (env : Env) (s : Student)
    (data : Main.AttendanceRequest) : AttendanceLog :=
  mkLog (log_id r) (log_student_id r) (class_name r) (check_in_time r)
        (Some (Models.get_thai_time (clock_write env)))
        (Some (capture_path env s data)) "checked_out".

(** ** Sample data *)

Module Sample.

Import FaceRecognitionService Main.
Local Open Scope string_scope.

(** The Euclidean distance in dimension one. *)
Definition distance (known unknown : Encoding) : float :=
  match known, unknown with
  | [Finite a], [Finite b] => Finite (Qabs (a - b))
  | _, _ => NaN
  end.

Definition alice : Student :=
  mkStudent 1 (Some "6501") (Some "Alice") (Some "A") (PathFace 1 100) 10 10.
Definition bob : Student :=
  mkStudent 2 None None None (PathFace 2 200) 20 20.
Definition carol : Student :=
  mkStudent 3 None None None PathTemp 30 30.

Definition files : FaceData :=
  [(PathFace 1 100, Pickled [Finite 0]); (PathFace 2 200, Pickled [Finite 1])].

Definition world : World :=
  mkWorld (mkDatabase [alice; bob; carol] [] 3 0) files [].

Definition face_of (q : Q) : Face := mkFace (0, 0, 0, 0) [Finite q].

(** 2024-01-01 09:00:00 UTC+7 is 2024-01-01 02:00:00 UTC. *)
Definition nine_am : Z := 1704074400.

Definition env_at (host_offset now : Z) (result : PostResult) : Env :=
  mkEnv host_offset now now now now now
        "https://discord.com/api/webhooks/1/x" result.

Definition scan (q : Q) (scan_type : string) : AttendanceRequest :=
  mkAttendanceRequest (Picture [face_of q]) (Some "Math") (Some scan_type).

(** A morning: Alice enters at 09:00, leaves at 10:00, comes back at
    11:00; the next morning she enters again. *)
Definition env_enter : Env := env_at 0 nine_am (Responded 204).
Definition env_exit : Env := env_at 0 (nine_am + 3600) PostRaised.
Definition env_again : Env := env_at 0 (nine_am + 7200) (Responded 500).
Definition env_next_day : Env := env_at 0 (nine_am + 86400) (Responded 204).

Definition entered : World :=
  snd (api_check_attendance distance env_enter (scan 0 "check_in") world).

Definition exited : World :=
  snd (api_check_attendance distance env_exit (scan 0 "check_out") entered).

(** 2024-01-01 18:30:00 UTC, which is 2024-01-02 01:30:00 in UTC+7, on a
    host whose local zone is UTC. *)
Definition env_evening_utc_host : Env :=
  env_at 0 (nine_am + 59400) (Responded 204).

(** A picture with two faces, Alice's first. *)
Definition two_faces : ImageData := Picture [face_of 0; face_of 1].



End Sample.

(** ** Proof steps shared by the lemmas on [api_check_attendance] *)

(** Opens the handler on a scan that [recognise] resolves. *)
Ltac enter_handler :=
  unfold recognise, Main.api_check_attendance;
  destruct (Main.process_image_from_base64 _) as [[image|]|];
    [|discriminate|discriminate];
  destruct (Nat.eqb _ 0); [discriminate|];
  destruct (FaceRecognitionService.get_face_encoding image) as [e|];
    [|discriminate];
  destruct (FaceRecognitionService.find_matching_student _ _ _ _)
    as [[matched|]|] eqn:Hfind; [|discriminate|discriminate].

(** Runs the steps of the handler monad. *)
Ltac run_handler :=
  unfold bind, read_db, read_face_data, Main.save_face_capture, emit, ret,
    raise, commit_db; simpl.

(** ** Vocabulary of the further statements *)

(** The ids of the students are distinct and none is beyond the
    AUTOINCREMENT counter. *)
Definition students_ok (d : Database) : Prop :=
  NoDup (map id (students d)) /\
  forall s, In s (students d) -> id s <= seq_students d.

(** The rows of a listing are ordered by [check_in_time], latest first. *)
Definition latest_first (rows : list Models.LogView) : Prop :=
  StronglySorted
    (fun a b => Models.view_check_in_time b <= Models.view_check_in_time a)
    rows.

(** The students are ordered by [created_at], latest first. *)
Definition newest_first (rows : list Student) : Prop :=
  StronglySorted (fun a b => created_at b <= created_at a) rows.

(** The same surroundings on a host in another time zone. *)
Definition with_host_utc_offset (env : Env) (offset : Z) : Env :=
  mkEnv offset (clock_capture env) (clock_lookup env) (clock_write env)
        (clock_notify env) (clock_reply env) (webhook_url env)
        (post_result env).

(** A log row without the name of its picture. *)
Definition without_picture (r : AttendanceLog) : AttendanceLog :=
  mkLog (log_id r) (log_student_id r) (class_name r) (check_in_time r)
        (check_out_time r) None (status r).

(** The webhook URL is set to something other than the placeholder. *)
Definition webhook_configured (env : Env) : bool :=
  negb (String.eqb (webhook_url env) ""
        || String.eqb (webhook_url env) "YOUR_DISCORD_WEBHOOK_URL_HERE").

(** The student row a registration leaves behind. *)
Definition registered_student (d : Database) (env : Env) : Student :=
  mkStudent (seq_students d + 1) None None None
            (PathFace (seq_students d + 1)
                      (datetime_now env (clock_capture env)))
            (clock_write env) (clock_write env).

(** The student row after an update of name and number. *)
Definition updated_student (env : Env) (s : Student)
    (data : Main.StudentUpdate) : Student :=
  mkStudent (id s) (Some (Main.upd_student_id data))
            (Some (Main.upd_first_name data))
            (Some (Main.upd_last_name data))
            (face_encoding_path s) (created_at s)
            (datetime_now env (clock_write env)).

(** The second half of the loop invariant of [find_matching_student]: the
    chosen student stands in the list seen so far after students that are
    all strictly farther from the scanned face, if within tolerance at
    all. *)
Definition first_of_the_nearest
    (face_distance : Encoding -> Encoding -> float) (files : FaceData)
    (unknown : Encoding) (seen : list Student)
    (best : option Student * float) : Prop :=
  match fst best with
  | None => True
  | Some b =>
      exists before after,
        seen = before ++ b :: after /\
        forall s d,
          In s before ->
          enrolled_distance face_distance files unknown s = Some d ->
          fle d FACE_RECOGNITION_TOLERANCE = true ->
          flt (snd best) d = true
  end.

(** ** Further sample data *)

Module Sample2.

Import FaceRecognitionService Main.
Local Open Scope string_scope.

(** A face half way between Alice's and Bob's. *)
Definition between : Encoding := [Finite (1 # 2)].

(** A stranger's face, far from both. *)
Definition stranger : FaceScanRequest :=
  mkFaceScanRequest (Picture [Sample.face_of 5]).

(** Alice scanned for no class at all. *)
Definition scan_null_class : AttendanceRequest :=
  mkAttendanceRequest (Picture [Sample.face_of 0]) None (Some "check_in").

Definition bobs_update : StudentUpdate := mkStudentUpdate "6502" "Bob" "B".

(** The sample world once Bob has been deleted. *)
Definition without_bob : World := snd (api_delete_student 2 Sample.world).

End Sample2.

(** * Properties *)

(** ** The float order *)

Lemma fle_trans (a b c : float) :
  fle a b = true -> fle b c = true -> fle a c = true.
Proof.
  destruct a as [x| | |], b as [y| | |], c as [z| | |];
    simpl; try congruence.
  rewrite !Qle_bool_iff. intros Hxy Hyz. lra.
Qed.

Lemma flt_fle (a b : float) : flt a b = true -> fle a b = true.
Proof.
  destruct a as [x| | |], b as [y| | |]; simpl; try congruence.
  rewrite negb_true_iff. intros Hyx.
  apply Qle_bool_iff.
  destruct (Qlt_le_dec x y) as [Hlt|Hle].
  - lra.
  - apply Qle_bool_iff in Hle. congruence.
Qed.

Lemma fle_of_not_flt (a b t : float) :
  fle a t = true -> fle b t = true -> flt a b = false -> fle b a = true.
Proof.
  destruct a as [x| | |], b as [y| | |], t as [z| | |];
    simpl; try congruence.
  all: intros _ _; now rewrite negb_false_iff.
Qed.

Lemma fle_refl_of_le (a t : float) : fle a t = true -> fle a a = true.
Proof.
  destruct a as [x| | |], t as [z| | |]; simpl; try congruence.
  all: intros _; apply Qle_bool_iff, Qle_refl.
Qed.

Lemma flt_PosInf_of_tolerance (d : float) :
  fle d FACE_RECOGNITION_TOLERANCE = true -> flt d PosInf = true.
Proof. destruct d; simpl; congruence. Qed.

(** ** The matcher *)

Section MatcherFacts.

Import FaceRecognitionService.

Variable face_distance : Encoding -> Encoding -> float.
Variable files : FaceData.
Variable unknown : Encoding.

Lemma best_so_far_nil :
  best_so_far face_distance files unknown [] (None, PosInf).
Proof. split; [reflexivity | intros s d []]. Qed.


Lemma find_step_raises (best : option Student * float) (s : Student) :
  find_step face_distance files unknown best s = Exception <->
  load_face_encoding files (face_encoding_path s) = Exception.
Proof.
  unfold find_step, compare_faces.
  destruct (load_face_encoding files (face_encoding_path s)) as [[k|]|].
  - destruct (_ && _); split; discriminate.
  - split; discriminate.
  - tauto.
Qed.

Lemma best_so_far_step (seen : list Student)
    (best best' : option Student * float) (s : Student) :
  best_so_far face_distance files unknown seen best ->
  find_step face_distance files unknown best s = Value best' ->
  best_so_far face_distance files unknown (seen ++ [s]) best'.
Proof.
  unfold best_so_far, find_step, enrolled_distance.
  destruct best as [[b|] bd]; simpl;
    destruct (load_face_encoding files (face_encoding_path s))
      as [[k|]|] eqn:Hk; try discriminate.
  - (* somebody chosen, s loads *)
    intros (Hb & Hbd & Htol & Hmin).
    destruct (fle (face_distance k unknown) FACE_RECOGNITION_TOLERANCE)
      eqn:Hs; simpl.
    + destruct (flt (face_distance k unknown) bd) eqn:Hlt; simpl;
        intros [= <-]; simpl.
      * split; [apply in_or_app; right; now left|].
        rewrite Hk. split; [reflexivity|]. split; [assumption|].
        intros s' d Hin Hd Hdt. apply in_app_or in Hin as [Hin|[<-|[]]].
        -- apply fle_trans with bd; [now apply flt_fle | eauto].
        -- rewrite Hk in Hd. injection Hd as <-.
           eapply fle_refl_of_le; eassumption.
      * split; [apply in_or_app; now left|].
        split; [assumption|]. split; [assumption|].
        intros s' d Hin Hd Hdt. apply in_app_or in Hin as [Hin|[<-|[]]].
        -- eauto.
        -- rewrite Hk in Hd. injection Hd as <-.
           eapply fle_of_not_flt; eauto.
    + intros [= <-]; simpl.
      split; [apply in_or_app; now left|].
      split; [assumption|]. split; [assumption|].
      intros s' d Hin Hd Hdt. apply in_app_or in Hin as [Hin|[<-|[]]].
      * eauto.
      * rewrite Hk in Hd. injection Hd as <-. congruence.
  - (* somebody chosen, the file of s is missing *)
    intros (Hb & Hbd & Htol & Hmin) [= <-]; simpl.
    split; [apply in_or_app; now left|].
    split; [assumption|]. split; [assumption|].
    intros s' d Hin Hd Hdt. apply in_app_or in Hin as [Hin|[<-|[]]].
    + eauto.
    + rewrite Hk in Hd. discriminate.
  - (* nobody chosen, s loads *)
    intros (-> & Hnone).
    destruct (fle (face_distance k unknown) FACE_RECOGNITION_TOLERANCE)
      eqn:Hs; simpl.
    + rewrite (flt_PosInf_of_tolerance _ Hs). simpl. intros [= <-]; simpl.
      split; [apply in_or_app; right; now left|].
      rewrite Hk. split; [reflexivity|]. split; [assumption|].
      intros s' d Hin Hd Hdt. apply in_app_or in Hin as [Hin|[<-|[]]].
      * rewrite (Hnone _ _ Hin Hd) in Hdt. discriminate.
      * rewrite Hk in Hd. injection Hd as <-.
        eapply fle_refl_of_le; eassumption.
    + intros [= <-]; simpl. split; [reflexivity|].
      intros s' d Hin Hd. apply in_app_or in Hin as [Hin|[<-|[]]].
      * eauto.
      * rewrite Hk in Hd. injection Hd as <-. assumption.
  - (* nobody chosen, the file of s is missing *)
    intros (-> & Hnone) [= <-]; simpl. split; [reflexivity|].
    intros s' d Hin Hd. apply in_app_or in Hin as [Hin|[<-|[]]].
    + eauto.
    + rewrite Hk in Hd. discriminate.
Qed.

Lemma best_so_far_loop (students seen : list Student)
    (best best' : option Student * float) :
  best_so_far face_distance files unknown seen best ->
  find_loop face_distance files unknown students best = Value best' ->
  best_so_far face_distance files unknown (seen ++ students) best'.
Proof.
  revert seen best.
  induction students as [|s rest IH]; intros seen best H; simpl.
  - intros [= <-]. now rewrite app_nil_r.
  - destruct (find_step face_distance files unknown best s) as [b1|] eqn:E;
      [|discriminate].
    intros Hloop.
    replace (seen ++ s :: rest) with ((seen ++ [s]) ++ rest)
      by now rewrite <- app_assoc.
    apply (IH _ b1); [|assumption]. now apply (best_so_far_step seen best).
Qed.

(** The loop raises exactly when the file of some student does not
    unpickle. *)
Lemma find_loop_raises (students : list Student)
    (best : option Student * float) :
  find_loop face_distance files unknown students best = Exception <->
  exists s, In s students /\
            load_face_encoding files (face_encoding_path s) = Exception.
Proof.
  revert best. induction students as [|s rest IH]; intros best; simpl.
  - split; [discriminate | now intros (s & [] & _)].
  - destruct (find_step face_distance files unknown best s) as [b1|] eqn:E.
    + rewrite IH. split.
      * intros (x & Hx & Hload). exists x. auto.
      * intros (x & [<-|Hx] & Hload); [|eauto].
        apply (proj2 (find_step_raises best s)) in Hload. congruence.
    + apply (proj1 (find_step_raises best s)) in E. split; [|reflexivity].
      intros _. exists s. auto.
Qed.


End MatcherFacts.

Import FaceRecognitionService.

Example find_matching_student_nearest :
  find_matching_student Sample.distance Sample.files [Finite (55 # 100)]
    [Sample.carol; Sample.alice; Sample.bob] = Value (Some Sample.bob).
Proof. reflexivity. Qed.

Example find_matching_student_none :
  find_matching_student Sample.distance Sample.files [Finite (5 # 1)]
    [Sample.carol; Sample.alice; Sample.bob] = Value None.
Proof. reflexivity. Qed.


(** ** Looking up the open session *)

Section LookupFacts.

Import Models.

Lemma fold_latest_some (rows : list AttendanceLog) (b : AttendanceLog) :
  exists r,
    fold_left
      (fun best r =>
         match best with
         | None => Some r
         | Some b => if check_in_time b <? check_in_time r then Some r else best
         end)
      rows (Some b) = Some r /\
    (r = b \/ In r rows) /\
    check_in_time b <= check_in_time r /\
    forall x, In x rows -> check_in_time x <= check_in_time r.
Proof.
  revert b. induction rows as [|a rows IH]; intros b; simpl.
  - exists b. repeat split; auto; try lia; try easy.
  - destruct (check_in_time b <? check_in_time a) eqn:Hlt.
    + apply Z.ltb_lt in Hlt.
      destruct (IH a) as (r & Hr & Hin & Hle & Hmax).
      exists r. repeat split; auto.
      * destruct Hin as [->|Hin]; auto.
      * lia.
      * intros x [<-|Hx]; auto.
    + apply Z.ltb_ge in Hlt.
      destruct (IH b) as (r & Hr & Hin & Hle & Hmax).
      exists r. repeat split; auto.
      * destruct Hin as [->|Hin]; auto.
      * intros x [<-|Hx]; auto. lia.
Qed.

Lemma order_by_limit_1_nil :
  order_by_check_in_time_desc_limit_1 [] = None.
Proof. reflexivity. Qed.

Lemma order_by_limit_1_some (rows : list AttendanceLog) (r : AttendanceLog) :
  order_by_check_in_time_desc_limit_1 rows = Some r ->
  In r rows /\ forall x, In x rows -> check_in_time x <= check_in_time r.
Proof.
  destruct rows as [|a rows]; [discriminate|].
  unfold order_by_check_in_time_desc_limit_1. simpl.
  destruct (fold_latest_some rows a) as (r' & Hr & Hin & Hle & Hmax).
  rewrite Hr. intros [= <-]. split.
  - destruct Hin as [->|Hin]; [now left | now right].
  - intros x [<-|Hx]; auto.
Qed.

Lemma order_by_limit_1_none (rows : list AttendanceLog) :
  order_by_check_in_time_desc_limit_1 rows = None -> rows = [].
Proof.
  destruct rows as [|a rows]; [reflexivity|].
  unfold order_by_check_in_time_desc_limit_1. simpl.
  destruct (fold_latest_some rows a) as (r' & Hr & _).
  rewrite Hr. discriminate.
Qed.

Lemma active_checkin_where_open (d : Database) (sid : Z) (cls : string)
    (day : Z) (r : AttendanceLog) :
  In r (attendance_logs d) ->
  active_checkin_where sid (Some cls) day r = true ->
  open_session d sid cls day r.
Proof.
  intros Hin. unfold active_checkin_where, open_session, sql_text_eq, is_null.
  rewrite !andb_true_iff, !Z.eqb_eq.
  intros [[[Hs Hc] Hd] Ho]. repeat split; auto.
  - destruct (class_name r) as [c|]; [|discriminate].
    apply String.eqb_eq in Hc. now subst.
  - destruct (check_out_time r); [discriminate | reflexivity].
Qed.

Lemma open_session_where (d : Database) (sid : Z) (cls : string)
    (day : Z) (r : AttendanceLog) :
  open_session d sid cls day r ->
  active_checkin_where sid (Some cls) day r = true.
Proof.
  unfold active_checkin_where, open_session, sql_text_eq, is_null.
  rewrite !andb_true_iff, !Z.eqb_eq.
  intros (_ & Hs & Hc & Hd & Ho). rewrite Hc, Ho.
  repeat split; auto. apply String.eqb_refl.
Qed.

(** [get_active_checkin] finds a row exactly when the key has an open
    session, and then returns an open session of the key with the latest
    check-in. *)
Lemma get_active_checkin_some (d : Database) (now : Instant) (sid : Z)
    (cls : string) (r : AttendanceLog) :
  get_active_checkin d now sid (Some cls) = Some r ->
  open_session d sid cls (get_thai_date now) r /\
  forall x, open_session d sid cls (get_thai_date now) x ->
            check_in_time x <= check_in_time r.
Proof.
  unfold get_active_checkin. intros H.
  apply order_by_limit_1_some in H as [Hin Hmax].
  apply filter_In in Hin as [Hin Hw]. split.
  - now apply active_checkin_where_open.
  - intros x Hx. apply Hmax. apply filter_In. split.
    + apply Hx.
    + now apply (open_session_where d).
Qed.

Lemma get_active_checkin_none (d : Database) (now : Instant) (sid : Z)
    (cls : option string) :
  get_active_checkin d now sid cls = None <->
  existsb (active_checkin_where sid cls (get_thai_date now))
          (attendance_logs d) = false.
Proof.
  unfold get_active_checkin. split.
  - intros H. apply order_by_limit_1_none in H.
    destruct (existsb _ _) eqn:He; [|reflexivity].
    apply existsb_exists in He as (x & Hx & Hw).
    assert (In x (filter (active_checkin_where sid cls (get_thai_date now))
                         (attendance_logs d))) as Hf
        by (apply filter_In; auto).
    rewrite H in Hf. destruct Hf.
  - intros He.
    destruct (filter _ _) as [|x rest] eqn:Hf; [reflexivity|].
    assert (In x (filter (active_checkin_where sid cls (get_thai_date now))
                         (attendance_logs d))) as Hx
        by (rewrite Hf; now left).
    apply filter_In in Hx as [Hx Hw].
    assert (existsb (active_checkin_where sid cls (get_thai_date now))
                    (attendance_logs d) = true) as Ht
        by (apply existsb_exists; eauto).
    congruence.
Qed.

Lemma session_state_entered (d : Database) (sid : Z) (cls : string)
    (day : Z) :
  session_state d sid cls day = Entered <->
  existsb (active_checkin_where sid (Some cls) day) (attendance_logs d) = true.
Proof.
  unfold session_state.
  destruct (existsb (active_checkin_where _ _ _) _); [tauto|].
  destruct (existsb (closed_session_b _ _ _) _); split; discriminate.
Qed.

Lemma session_state_entered_open (d : Database) (sid : Z) (cls : string)
    (day : Z) :
  session_state d sid cls day = Entered <->
  exists r, open_session d sid cls day r.
Proof.
  rewrite session_state_entered, existsb_exists. split.
  - intros (r & Hin & Hw). exists r. now apply active_checkin_where_open.
  - intros (r & Hr). exists r. split; [apply Hr|].
    now apply (open_session_where d).
Qed.

End LookupFacts.

(** ** Running the handlers *)

Section HandlerFacts.

Import Main.
Local Open Scope string_scope.

Variable face_distance : Encoding -> Encoding -> float.

Lemma send_attendance_log_run (env : Env) (a b c cls : option string)
    (st : string) (pic : option Path) (w : World) :
  exists sent,
    DiscordService.send_attendance_log env a b c cls st pic w =
    (Returned sent,
     mkWorld (db w) (face_data w)
       (events w ++
        events (snd (DiscordService.send_attendance_log env a b c cls st pic
                       empty_world)))).
Proof.
  destruct w as [d f ev].
  unfold DiscordService.send_attendance_log.
  destruct (_ || _).
  - exists false. unfold ret. simpl. now rewrite app_nil_r.
  - destruct (String.eqb st "check_out");
      destruct (post_result env) as [n|];
      try destruct (n =? 204)%Z; eexists; reflexivity.
Qed.



(** A scan that resolves to nobody is turned away with the world as it
    was. *)
Lemma api_check_attendance_unrecognised (env : Env)
    (data : AttendanceRequest) (w : World) :
  recognise face_distance w (image_base64 data) = None ->
  exists e, api_check_attendance face_distance env data w = (Raised e, w).
Proof.
  unfold recognise, api_check_attendance.
  destruct (process_image_from_base64 _) as [[image|]|];
    [|eexists; reflexivity|eexists; reflexivity].
  destruct (Nat.eqb _ 0); [eexists; reflexivity|].
  destruct (get_face_encoding image) as [e|]; [|eexists; reflexivity].
  intros H. unfold bind, read_db, read_face_data. simpl.
  destruct (FaceRecognitionService.find_matching_student _ _ _ _)
    as [[s|]|]; [discriminate| |]; eexists; reflexivity.
Qed.

(** Check-in on a key with no open session today. *)
Lemma api_check_in_accepted (env : Env) (data : AttendanceRequest)
    (w : World) (s : Student) :
  recognise face_distance w (image_base64 data) = Some s ->
  req_scan_type data <> Some "check_out" ->
  Models.get_active_checkin (db w) (clock_lookup env) (id s)
    (req_class_name data) = None ->
  api_check_attendance face_distance env data w =
  (Returned (reply_of env s data "เช็คเข้าสำเร็จ!" "check_in"),
   mkWorld
     (fst (Models.add_attendance_log (db w) (clock_write env) (id s)
             (req_class_name data) (Some (capture_path env s data))))
     (face_data w)
     (events w ++ [Imwrite (capture_path env s data); Commit] ++
      notifier_events env s (req_class_name data) "check_in"
        (capture_path env s data))).
Proof.
  enter_handler. intros Hs Hst Hnone. injection Hs as ->.
  assert (option_string_eqb (req_scan_type data) (Some "check_out") = false)
    as Hb.
  { destruct (req_scan_type data) as [t|]; simpl; [|reflexivity].
    destruct (String.eqb_spec t "check_out"); congruence. }
  unfold bind, read_db, read_face_data, save_face_capture, emit, ret,
    commit_db. simpl.
  rewrite Hfind. simpl. rewrite Hb. simpl. rewrite Hnone. simpl.
  match goal with
  | |- context [DiscordService.send_attendance_log ?e ?a ?b ?c ?k ?t ?p ?w0] =>
      destruct (send_attendance_log_run e a b c k t p w0) as [sent ->]
  end.
  simpl. unfold reply_of, capture_path, notifier_events.
  now rewrite <- !app_assoc.
Qed.

Lemma not_check_out (t : option string) :
  t <> Some "check_out" <->
  option_string_eqb t (Some "check_out") = false.
Proof.
  destruct t as [t|]; simpl.
  - destruct (String.eqb_spec t "check_out"); split; congruence.
  - split; congruence.
Qed.

(** Check-in on a key with an open session today. *)
Lemma api_check_in_rejected (env : Env) (data : AttendanceRequest)
    (w : World) (s : Student) (r : AttendanceLog) :
  recognise face_distance w (image_base64 data) = Some s ->
  req_scan_type data <> Some "check_out" ->
  Models.get_active_checkin (db w) (clock_lookup env) (id s)
    (req_class_name data) = Some r ->
  api_check_attendance face_distance env data w =
  (Raised DuplicateEntry,
   mkWorld (db w) (face_data w)
     (events w ++ [Imwrite (capture_path env s data)])).
Proof.
  enter_handler. intros Hs Hst Hsome. injection Hs as ->.
  apply not_check_out in Hst.
  run_handler. rewrite Hfind. simpl. rewrite Hst. simpl. rewrite Hsome.
  reflexivity.
Qed.

(** Check-out on a key with no open session today. *)
Lemma api_check_out_rejected (env : Env) (data : AttendanceRequest)
    (w : World) (s : Student) :
  recognise face_distance w (image_base64 data) = Some s ->
  req_scan_type data = Some "check_out" ->
  Models.get_active_checkin (db w) (clock_lookup env) (id s)
    (req_class_name data) = None ->
  api_check_attendance face_distance env data w =
  (Raised NoOpenEntry,
   mkWorld (db w) (face_data w)
     (events w ++ [Imwrite (capture_path env s data)])).
Proof.
  enter_handler. intros Hs Hst Hnone. injection Hs as ->.
  run_handler. rewrite Hfind. simpl. rewrite Hst. simpl. rewrite Hnone.
  unfold capture_path. now rewrite Hst.
Qed.

(** Check-out on a key with an open session today. *)
Lemma api_check_out_accepted (env : Env) (data : AttendanceRequest)
    (w : World) (s : Student) (r : AttendanceLog) :
  recognise face_distance w (image_base64 data) = Some s ->
  req_scan_type data = Some "check_out" ->
  Models.get_active_checkin (db w) (clock_lookup env) (id s)
    (req_class_name data) = Some r ->
  api_check_attendance face_distance env data w =
  (Returned (reply_of env s data "เช็คออกสำเร็จ!" "check_out"),
   mkWorld
     (Models.update_checkout_time (db w) (clock_write env) (log_id r)
        (Some (capture_path env s data)))
     (face_data w)
     (events w ++ [Imwrite (capture_path env s data); Commit] ++
      notifier_events env s (req_class_name data) "check_out"
        (capture_path env s data))).
Proof.
  enter_handler. intros Hs Hst Hsome. injection Hs as ->.
  run_handler. rewrite Hfind. simpl. rewrite Hst. simpl. rewrite Hsome. simpl.
  match goal with
  | |- context [DiscordService.send_attendance_log ?e ?a ?b ?c ?k ?t ?p ?w0] =>
      destruct (send_attendance_log_run e a b c k t p w0) as [sent ->]
  end.
  simpl. unfold reply_of, capture_path, notifier_events. rewrite Hst.
  now rewrite <- !app_assoc.
Qed.

(** Nothing but a check-in, a check-out or a rejection happens: the four
    cases above and the unrecognised scan cover every request. *)
Lemma api_check_attendance_cases (env : Env) (data : AttendanceRequest)
    (w : World) :
  (recognise face_distance w (image_base64 data) = None /\
   exists e, api_check_attendance face_distance env data w = (Raised e, w))
  \/
  exists s,
    recognise face_distance w (image_base64 data) = Some s /\
    match Models.get_active_checkin (db w) (clock_lookup env) (id s)
            (req_class_name data) with
    | None =>
        if option_string_eqb (req_scan_type data) (Some "check_out")
        then snd (api_check_attendance face_distance env data w) =
             mkWorld (db w) (face_data w)
               (events w ++ [Imwrite (capture_path env s data)])
        else snd (api_check_attendance face_distance env data w) =
             mkWorld
               (fst (Models.add_attendance_log (db w) (clock_write env)
                       (id s) (req_class_name data)
                       (Some (capture_path env s data))))
               (face_data w)
               (events w ++ [Imwrite (capture_path env s data); Commit] ++
                notifier_events env s (req_class_name data) "check_in"
                  (capture_path env s data))
    | Some r =>
        if option_string_eqb (req_scan_type data) (Some "check_out")
        then snd (api_check_attendance face_distance env data w) =
             mkWorld
               (Models.update_checkout_time (db w) (clock_write env)
                  (log_id r) (Some (capture_path env s data)))
               (face_data w)
               (events w ++ [Imwrite (capture_path env s data); Commit] ++
                notifier_events env s (req_class_name data) "check_out"
                  (capture_path env s data))
        else snd (api_check_attendance face_distance env data w) =
             mkWorld (db w) (face_data w)
               (events w ++ [Imwrite (capture_path env s data)])
    end.
Proof.
  destruct (recognise face_distance w (image_base64 data)) as [s|] eqn:Hs.
  - right. exists s. split; [reflexivity|].
    destruct (Models.get_active_checkin _ _ _ _) as [r|] eqn:Ha;
      destruct (option_string_eqb _ _) eqn:Hb.
    + assert (req_scan_type data = Some "check_out") as Hst.
      { destruct (req_scan_type data) as [t|]; [|discriminate].
        simpl in Hb. apply String.eqb_eq in Hb. now subst. }
      now rewrite (api_check_out_accepted env data w s r Hs Hst Ha).
    + apply not_check_out in Hb.
      now rewrite (api_check_in_rejected env data w s r Hs Hb Ha).
    + assert (req_scan_type data = Some "check_out") as Hst.
      { destruct (req_scan_type data) as [t|]; [|discriminate].
        simpl in Hb. apply String.eqb_eq in Hb. now subst. }
      now rewrite (api_check_out_rejected env data w s Hs Hst Ha).
    + apply not_check_out in Hb.
      now rewrite (api_check_in_accepted env data w s Hs Hb Ha).
  - left. split; [reflexivity|].
    now apply api_check_attendance_unrecognised.
Qed.

End HandlerFacts.

(** ** The invariant of the log table *)

Section InvariantFacts.

Import Models Main.

Lemma DATE_mono (a b : Timestamp) : a <= b -> DATE a <= DATE b.
Proof. intros H. unfold DATE. apply Z.div_le_mono; lia. Qed.

Lemma get_thai_time_mono (a b : Instant) :
  a <= b -> get_thai_time a <= get_thai_time b.
Proof. unfold get_thai_time. lia. Qed.

Lemma log_invariant_fresh (T : Instant) (d : Database) :
  attendance_logs d = [] -> log_invariant T d.
Proof.
  intros H. split; try (intros r Hin; rewrite H in Hin; destruct Hin).
  - rewrite H. constructor.
  - intros sid cls day r1 r2 [Hin _]. rewrite H in Hin. destruct Hin.
Qed.

Lemma log_invariant_ext (T : Instant) (d d' : Database) :
  attendance_logs d' = attendance_logs d ->
  seq_attendance_logs d' = seq_attendance_logs d ->
  log_invariant T d -> log_invariant T d'.
Proof.
  intros Hl Hs [H1 H2 H3 H4 H5]. split.
  - intros r Hin. rewrite Hl in Hin. now apply H1.
  - intros r Hin. rewrite Hl in Hin. rewrite Hs. now apply H2.
  - now rewrite Hl.
  - intros r Hin. rewrite Hl in Hin. now apply H4.
  - intros sid cls day r1 r2 [Hin1 Hr1] [Hin2 Hr2].
    rewrite Hl in Hin1, Hin2. apply (H5 sid cls day); now split.
Qed.

Lemma log_invariant_later (T T' : Instant) (d : Database) :
  T <= T' -> log_invariant T d -> log_invariant T' d.
Proof.
  intros Hle [H1 H2 H3 H4 H5]. split; auto.
  intros r Hin. specialize (H1 r Hin). unfold get_thai_time in *. lia.
Qed.

(** A row checked in before [lookup] and on the day of a later [write] was
    checked in on the day of [lookup]. *)
Lemma same_day_between (t : Timestamp) (lookup write : Instant) :
  t <= get_thai_time lookup ->
  lookup <= write ->
  DATE t = DATE (get_thai_time write) ->
  DATE t = get_thai_date lookup.
Proof.
  intros H1 H2 H3. unfold get_thai_date. fold (get_thai_time lookup).
  pose proof (DATE_mono _ _ H1).
  pose proof (DATE_mono _ _ (get_thai_time_mono _ _ H2)). lia.
Qed.

Lemma log_invariant_add (T lookup write : Instant) (d : Database)
    (sid : Z) (cls : option string) (pic : option Path) :
  log_invariant T d ->
  T <= lookup -> lookup <= write ->
  get_active_checkin d lookup sid cls = None ->
  log_invariant write (fst (add_attendance_log d write sid cls pic)).
Proof.
  intros [H1 H2 H3 H4 H5] HT Hlw Hnone.
  assert (forall r, In r (attendance_logs d) ->
                    check_in_time r <= get_thai_time lookup) as Hpast.
  { intros r Hin. specialize (H1 r Hin). unfold get_thai_time in *. lia. }
  set (new := mkLog (seq_attendance_logs d + 1) sid cls (get_thai_time write)
                    None pic "checked_in").
  assert (forall sid' c day r,
             open_session d sid' c day r ->
             open_session (fst (add_attendance_log d write sid cls pic))
                          sid' c day new ->
             False) as Hclash.
  { intros sid' c day r (Hin & Hs & Hc & Hd & Ho) (_ & Hs' & Hc' & Hd' & _).
    simpl in Hs', Hc', Hd'. subst sid' day.
    apply get_active_checkin_none in Hnone.
    assert (existsb (active_checkin_where sid cls (get_thai_date lookup))
                    (attendance_logs d) = true) as Ht; [|congruence].
    apply existsb_exists. exists r. split; [assumption|].
    rewrite Hc'. apply (open_session_where d). repeat split; auto.
    apply same_day_between with write; auto. }
  split; simpl.
  - intros r Hin. apply in_app_or in Hin as [Hin|[<-|[]]]; simpl.
    + specialize (Hpast r Hin). unfold get_thai_time in *. lia.
    + lia.
  - intros r Hin. apply in_app_or in Hin as [Hin|[<-|[]]]; simpl.
    + specialize (H2 r Hin). lia.
    + lia.
  - rewrite map_app. simpl. apply NoDup_app; [assumption | | ].
    + constructor; [intros [] | constructor].
    + intros x Hx [<-|[]]. apply in_map_iff in Hx as (r & Hr & Hin).
      specialize (H2 r Hin). lia.
  - intros r Hin. apply in_app_or in Hin as [Hin|[<-|[]]];
      [now apply H4 | reflexivity].
  - intros sid' c day r1 r2 Hr1 Hr2.
    pose proof Hr1 as [Hin1 Hk1]. pose proof Hr2 as [Hin2 Hk2].
    simpl in Hin1, Hin2.
    apply in_app_or in Hin1 as [Hin1|[<-|[]]];
      apply in_app_or in Hin2 as [Hin2|[<-|[]]].
    + apply (H5 sid' c day); split; assumption.
    + exfalso. apply (Hclash sid' c day r1); [split|]; assumption.
    + exfalso. apply (Hclash sid' c day r2); [split|]; assumption.
    + reflexivity.
Qed.

(** The rows of the table after [update_checkout_time]. *)
Lemma update_checkout_time_rows (d : Database) (write : Instant) (lid : Z)
    (pic : option Path) (r' : AttendanceLog) :
  In r' (attendance_logs (update_checkout_time d write lid pic)) ->
  exists r,
    In r (attendance_logs d) /\
    log_id r' = log_id r /\
    log_student_id r' = log_student_id r /\
    class_name r' = class_name r /\
    check_in_time r' = check_in_time r /\
    ((log_id r <> lid /\ r' = r) \/
     (log_id r = lid /\
      check_out_time r' = Some (get_thai_time write) /\
      status r' = "checked_out"%string /\
      face_image_path r' =
        match pic with Some p => Some p | None => face_image_path r end)).
Proof.
  simpl. intros Hin. apply in_map_iff in Hin as (r & <- & Hin).
  exists r. split; [assumption|].
  destruct (log_id r =? lid) eqn:E.
  - apply Z.eqb_eq in E. destruct pic; simpl; repeat split; auto.
  - apply Z.eqb_neq in E. repeat split; auto.
Qed.

Lemma log_invariant_checkout (T write : Instant) (d : Database) (lid : Z)
    (pic : option Path) :
  log_invariant T d ->
  T <= write ->
  log_invariant write (update_checkout_time d write lid pic).
Proof.
  intros [H1 H2 H3 H4 H5] HT.
  assert (forall r, In r (attendance_logs d) ->
                    check_in_time r <= get_thai_time write) as Hpast.
  { intros r Hin. specialize (H1 r Hin). unfold get_thai_time in *. lia. }
  split.
  - intros r' Hin.
    apply update_checkout_time_rows in Hin as (r & Hin & _ & _ & _ & -> & _).
    auto.
  - intros r' Hin.
    apply update_checkout_time_rows in Hin as (r & Hin & -> & _).
    simpl. now apply H2.
  - simpl. rewrite map_map.
    erewrite map_ext; [exact H3|].
    intros r. simpl. destruct (log_id r =? lid); [|reflexivity].
    now destruct pic.
  - intros r' Hin.
    apply update_checkout_time_rows in Hin
      as (r & Hin & _ & _ & _ & Hc & [[_ ->]|(_ & -> & -> & _)]).
    + now apply H4.
    + rewrite Hc. split; [now apply Hpast | reflexivity].
  - intros sid cls day r1 r2 (Hin1 & Hs1 & Hc1 & Hd1 & Ho1)
      (Hin2 & Hs2 & Hc2 & Hd2 & Ho2).
    apply update_checkout_time_rows in Hin1
      as (x1 & Hx1 & _ & _ & _ & _ & [[_ ->]|(_ & Hout & _)]);
      [|congruence].
    apply update_checkout_time_rows in Hin2
      as (x2 & Hx2 & _ & _ & _ & _ & [[_ ->]|(_ & Hout & _)]);
      [|congruence].
    apply (H5 sid cls day); repeat split; assumption.
Qed.

Lemma log_invariant_delete (T : Instant) (d : Database) (files : FaceData)
    (id' : Z) :
  log_invariant T d -> log_invariant T (fst (delete_student d files id')).
Proof.
  intros [H1 H2 H3 H4 H5]. split; simpl.
  - intros r Hin. apply filter_In in Hin as [Hin _]. now apply H1.
  - intros r Hin. apply filter_In in Hin as [Hin _]. now apply H2.
  - clear -H3. induction (attendance_logs d) as [|a l IH]; simpl.
    + constructor.
    + inversion H3 as [|? ? Hnot Hnd]; subst.
      destruct (negb (log_student_id a =? id')); simpl; [|now apply IH].
      constructor; [|now apply IH].
      intros Hin. apply Hnot. apply in_map_iff in Hin as (x & Hx & Hin).
      apply filter_In in Hin as [Hin _]. apply in_map_iff. eauto.
  - intros r Hin. apply filter_In in Hin as [Hin _]. now apply H4.
  - intros sid cls day r1 r2 (Hin1 & Hk1) (Hin2 & Hk2). simpl in Hin1, Hin2.
    apply filter_In in Hin1 as [Hin1 _]. apply filter_In in Hin2 as [Hin2 _].
    apply (H5 sid cls day); split; assumption.
Qed.

Section Reachability.

Variable face_distance : Encoding -> Encoding -> float.

(** Registration leaves the log table alone. *)
Lemma api_register_face_logs (env : Env) (data : FaceScanRequest)
    (w : World) :
  attendance_logs (db (snd (api_register_face face_distance env data w))) =
  attendance_logs (db w) /\
  seq_attendance_logs (db (snd (api_register_face face_distance env data w))) =
  seq_attendance_logs (db w).
Proof.
  unfold api_register_face.
  destruct (process_image_from_base64 _) as [[image|]|];
    [|now split|now split].
  destruct (Nat.eqb _ 0); [now split|].
  destruct (Nat.ltb 1 _); [now split|].
  destruct (FaceRecognitionService.get_face_encoding image) as [e|];
    [|now split].
  unfold bind, read_db, read_face_data, commit_db, write_face_data, ret, raise.
  simpl.
  destruct (FaceRecognitionService.find_matching_student _ _ _ _)
    as [[s|]|]; now split.
Qed.

(** So does the update of a student's name and number. *)
Lemma api_update_student_logs (env : Env) (id' : Z) (data : StudentUpdate)
    (w : World) :
  attendance_logs (db (snd (api_update_student env id' data w))) =
  attendance_logs (db w) /\
  seq_attendance_logs (db (snd (api_update_student env id' data w))) =
  seq_attendance_logs (db w).
Proof.
  unfold api_update_student, bind, read_db, commit_db, ret, raise. simpl.
  destruct (get_student_by_id (db w) id'); now split.
Qed.

Lemma api_delete_student_db (id' : Z) (w : World) :
  db (snd (api_delete_student id' w)) = db w \/
  db (snd (api_delete_student id' w)) =
  fst (delete_student (db w) (face_data w) id').
Proof.
  unfold api_delete_student, bind, read_db, read_face_data, commit_db,
    write_face_data, ret, raise. simpl.
  destruct (get_student_by_id (db w) id'); [right | left]; reflexivity.
Qed.

(** Every world the server reaches satisfies the invariant. *)
Lemma reachable_invariant (T : Instant) (w : World) :
  reachable face_distance T w -> log_invariant T (db w).
Proof.
  induction 1 as [T w Hfresh | T w env data Hr IH HT Hlw
                 | T w r Hr IH Hother | T T' w Hr IH Hle].
  - now apply log_invariant_fresh.
  - simpl.
    destruct (api_check_attendance_cases face_distance env data w)
      as [[_ [e ->]] | (s & Hs & Hcase)].
    + simpl. apply log_invariant_later with T; [lia | assumption].
    + destruct (get_active_checkin _ _ _ _) as [r|] eqn:Ha;
        destruct (option_string_eqb _ _); rewrite Hcase; simpl.
      * apply log_invariant_checkout with T; [assumption | lia].
      * apply log_invariant_later with T; [lia | assumption].
      * apply log_invariant_later with T; [lia | assumption].
      * now apply (log_invariant_add T (clock_lookup env)).
  - destruct r as [env data | env data | env id' data | id'].
    + exfalso. now apply (Hother env data).
    + simpl. destruct (api_register_face_logs env data w) as [Hl Hs].
      now apply log_invariant_ext with (db w).
    + simpl. destruct (api_update_student_logs env id' data w) as [Hl Hs].
      now apply log_invariant_ext with (db w).
    + simpl. destruct (api_delete_student_db id' w) as [-> | ->].
      * assumption.
      * now apply log_invariant_delete.
  - now apply log_invariant_later with T.
Qed.

End Reachability.

End InvariantFacts.

(** ** The session tracker *)

Section TrackerFacts.

Import Models Main.

Variable face_distance : Encoding -> Encoding -> float.

Lemma not_entered_no_active (d : Database) (now : Instant) (sid : Z)
    (cls : string) :
  session_state d sid cls (get_thai_date now) <> Entered ->
  get_active_checkin d now sid (Some cls) = None.
Proof.
  intros H. apply get_active_checkin_none.
  destruct (existsb _ _) eqn:E; [|reflexivity].
  exfalso. apply H. now apply session_state_entered.
Qed.

Lemma entered_active (d : Database) (now : Instant) (sid : Z) (cls : string) :
  session_state d sid cls (get_thai_date now) = Entered ->
  exists r, get_active_checkin d now sid (Some cls) = Some r.
Proof.
  intros H. apply session_state_entered in H.
  destruct (get_active_checkin d now sid (Some cls)) as [r|] eqn:E; [eauto|].
  apply get_active_checkin_none in E. congruence.
Qed.

(** C5. While a key (student, class, civil day) has an open session, a
    further enter request for it, whatever scan type other than "check_out"
    it carries, is rejected with DuplicateEntry and the database is left as
    it was: no row is added, none is changed. *)
Theorem enter_while_entered_is_rejected :
  forall (env : Env) (data : AttendanceRequest) (w : World) (s : Student)
         (cls : string),
    recognise face_distance w (image_base64 data) = Some s ->
    req_class_name data = Some cls ->
    req_scan_type data <> Some "check_out"%string ->
    session_state (db w) (id s) cls (get_thai_date (clock_lookup env))
      = Entered ->
    exists w',
      api_check_attendance face_distance env data w
        = (Raised DuplicateEntry, w') /\
      db w' = db w.
Proof.
  intros env data w s cls Hs Hc Hst Hstate.
  apply entered_active in Hstate as [r Hr]. rewrite <- Hc in Hr.
  rewrite (api_check_in_rejected face_distance env data w s r Hs Hst Hr).
  eexists. split; reflexivity.
Qed.

(** C6. When a key has no open session, because nobody entered that day or
    because the session was already exited, an exit request is rejected
    with NoOpenEntry and the database is left as it was. *)
Theorem exit_without_open_session_is_rejected :
  forall (env : Env) (data : AttendanceRequest) (w : World) (s : Student)
         (cls : string),
    recognise face_distance w (image_base64 data) = Some s ->
    req_class_name data = Some cls ->
    req_scan_type data = Some "check_out"%string ->
    session_state (db w) (id s) cls (get_thai_date (clock_lookup env))
      = NoSession \/
    session_state (db w) (id s) cls (get_thai_date (clock_lookup env))
      = Exited ->
    exists w',
      api_check_attendance face_distance env data w
        = (Raised NoOpenEntry, w') /\
      db w' = db w.
Proof.
  intros env data w s cls Hs Hc Hst Hstate.
  assert (get_active_checkin (db w) (clock_lookup env) (id s)
            (req_class_name data) = None) as Hnone.
  { rewrite Hc. apply not_entered_no_active.
    destruct Hstate as [-> | ->]; discriminate. }
  rewrite (api_check_out_rejected face_distance env data w s Hs Hst Hnone).
  eexists. split; reflexivity.
Qed.

Lemma log_id_injective (l : list AttendanceLog) (x y : AttendanceLog) :
  NoDup (map log_id l) -> In x l -> In y l -> log_id x = log_id y -> x = y.
Proof.
  induction l as [|a l IH]; simpl; [intros _ []|].
  intros Hnd Hx Hy Heq. inversion Hnd as [|? ? Hnot Hnd']; subst.
  destruct Hx as [<-|Hx], Hy as [<-|Hy]; auto.
  - exfalso. apply Hnot. rewrite Heq. now apply in_map.
  - exfalso. apply Hnot. rewrite <- Heq. now apply in_map.
Qed.

(** C7. While a key has an open session, an exit request succeeds.  The
    session stamped is an open session of the key with the latest check-in
    (the only one, in a reachable world); it receives the Thai time of the
    request as exit time and the captured picture, its status becomes
    'checked_out', every other row stays as it was, the key is in state
    Exited afterwards, and the exit time is not before the entry time. *)
Theorem exit_while_entered_stamps_open_session :
  forall (T : Instant) (env : Env) (data : AttendanceRequest) (w : World)
         (s : Student) (cls : string),
    reachable face_distance T w ->
    T <= clock_lookup env ->
    clock_lookup env <= clock_write env ->
    recognise face_distance w (image_base64 data) = Some s ->
    req_class_name data = Some cls ->
    req_scan_type data = Some "check_out"%string ->
    session_state (db w) (id s) cls (get_thai_date (clock_lookup env))
      = Entered ->
    exists r w',
      open_session (db w) (id s) cls (get_thai_date (clock_lookup env)) r /\
      (forall x,
          open_session (db w) (id s) cls (get_thai_date (clock_lookup env)) x ->
          check_in_time x <= check_in_time r) /\
      api_check_attendance face_distance env data w
        = (Returned (reply_of env s data "เช็คออกสำเร็จ!" "check_out"), w') /\
      In (checked_out_row r env s data) (attendance_logs (db w')) /\
      (forall x, In x (attendance_logs (db w)) -> x <> r ->
                 In x (attendance_logs (db w'))) /\
      List.length (attendance_logs (db w'))
        = List.length (attendance_logs (db w)) /\
      session_state (db w') (id s) cls (get_thai_date (clock_lookup env))
        = Exited /\
      check_in_time r <= get_thai_time (clock_write env).
Proof.
  intros T env data w s cls Hreach HT Hlw Hs Hc Hst Hstate.
  pose proof (reachable_invariant face_distance T w Hreach)
    as [H1 H2 H3 H4 H5].
  apply entered_active in Hstate as [r Hr].
  pose proof (get_active_checkin_some _ _ _ _ _ Hr) as [Hopen Hmax].
  rewrite <- Hc in Hr.
  exists r. eexists. split; [exact Hopen|]. split; [exact Hmax|].
  split; [exact (api_check_out_accepted face_distance env data w s r Hs Hst Hr)|].
  cbn [db update_checkout_time attendance_logs].
  pose proof Hopen as (Hin & Hsid & Hcls & Hday & Hout).
  assert (forall x, In x (attendance_logs (db w)) -> x <> r ->
                    (log_id x =? log_id r) = false) as Hother.
  { intros x Hx Hne. apply Z.eqb_neq. intros Heq. apply Hne.
    now apply (log_id_injective (attendance_logs (db w))). }
  split; [|split; [|split; [|split]]].
  - apply in_map_iff. exists r. split; [|assumption].
    now rewrite Z.eqb_refl.
  - intros x Hx Hne. apply in_map_iff. exists x. split; [|assumption].
    now rewrite (Hother x Hx Hne).
  - apply length_map.
  - unfold session_state. cbn [attendance_logs].
    match goal with
    | |- (if existsb ?f ?l then _ else _) = _ =>
        destruct (existsb f l) eqn:E
    end.
    + exfalso. apply existsb_exists in E as (x' & Hx' & Hw).
      apply in_map_iff in Hx' as (x & <- & Hx).
      destruct (log_id x =? log_id r) eqn:Eid.
      * unfold active_checkin_where in Hw. simpl in Hw.
        now rewrite andb_false_r in Hw.
      * apply Z.eqb_neq in Eid. apply Eid. f_equal.
        apply (H5 (id s) cls (get_thai_date (clock_lookup env))).
        -- now apply active_checkin_where_open.
        -- exact Hopen.
    + match goal with
      | |- (if existsb ?f ?l then _ else _) = _ =>
          assert (existsb f l = true) as ->; [|reflexivity]
      end.
      apply existsb_exists. exists (checked_out_row r env s data). split.
      * apply in_map_iff. exists r. split; [|assumption].
        now rewrite Z.eqb_refl.
      * unfold closed_session_b, checked_out_row. simpl.
        rewrite Hsid, Hcls, Hday, !Z.eqb_refl. simpl.
        now rewrite String.eqb_refl.
  - specialize (H1 r Hin). unfold get_thai_time in *. lia.
Qed.

(** A check-in or check-out leaves the students and their encoding files
    alone, so the next scan is recognised as before. *)
Lemma recognise_after_check_in (env : Env) (data : AttendanceRequest)
    (w : World) (picture : ImageData) :
  recognise face_distance
    (snd (api_check_attendance face_distance env data w)) picture
  = recognise face_distance w picture.
Proof.
  destruct (api_check_attendance_cases face_distance env data w)
    as [[_ [e ->]] | (s & Hs & Hcase)]; [reflexivity|].
  destruct (get_active_checkin _ _ _ _);
    destruct (option_string_eqb _ _); rewrite Hcase; reflexivity.
Qed.

(** C8. Two enter requests of the same student and class, the second
    looked up on another civil day (UTC+7) than the day the first session
    was stamped with, are both accepted: each appends a session of its own,
    the two have different ids, and the first, still open, does not stand in
    the way of the second. *)
Theorem enters_on_different_days_are_both_accepted :
  forall (T : Instant) (env1 env2 : Env) (data1 data2 : AttendanceRequest)
         (w : World) (s : Student) (cls : string),
    reachable face_distance T w ->
    T <= clock_lookup env1 ->
    clock_lookup env1 <= clock_write env1 ->
    clock_write env1 <= clock_lookup env2 ->
    recognise face_distance w (image_base64 data1) = Some s ->
    recognise face_distance w (image_base64 data2) = Some s ->
    req_class_name data1 = Some cls ->
    req_class_name data2 = Some cls ->
    req_scan_type data1 <> Some "check_out"%string ->
    req_scan_type data2 <> Some "check_out"%string ->
    session_state (db w) (id s) cls (get_thai_date (clock_lookup env1))
      <> Entered ->
    DATE (get_thai_time (clock_write env1))
      <> get_thai_date (clock_lookup env2) ->
    exists w1 w2,
      api_check_attendance face_distance env1 data1 w
        = (Returned (reply_of env1 s data1 "เช็คเข้าสำเร็จ!" "check_in"), w1) /\
      api_check_attendance face_distance env2 data2 w1
        = (Returned (reply_of env2 s data2 "เช็คเข้าสำเร็จ!" "check_in"), w2) /\
      attendance_logs (db w1)
        = attendance_logs (db w) ++ [checked_in_row (db w) env1 s data1] /\
      attendance_logs (db w2)
        = attendance_logs (db w)
          ++ [checked_in_row (db w) env1 s data1;
              checked_in_row (db w1) env2 s data2] /\
      log_id (checked_in_row (db w) env1 s data1)
        <> log_id (checked_in_row (db w1) env2 s data2) /\
      open_session (db w2) (id s) cls
        (DATE (get_thai_time (clock_write env1)))
        (checked_in_row (db w) env1 s data1) /\
      open_session (db w2) (id s) cls
        (DATE (get_thai_time (clock_write env2)))
        (checked_in_row (db w1) env2 s data2).
Proof.
  intros T env1 env2 data1 data2 w s cls Hreach HT Hlw1 H12 Hs1 Hs2 Hc1 Hc2
    Hst1 Hst2 Hstate Hdays.
  pose proof (reachable_invariant face_distance T w Hreach)
    as [H1 H2 H3 H4 H5].
  assert (get_active_checkin (db w) (clock_lookup env1) (id s)
            (req_class_name data1) = None) as Hnone1.
  { rewrite Hc1. now apply not_entered_no_active. }
  pose proof (api_check_in_accepted face_distance env1 data1 w s Hs1 Hst1
                Hnone1) as Hrun1.
  set (w1 := snd (api_check_attendance face_distance env1 data1 w)).
  assert (Hw1 : attendance_logs (db w1)
                = attendance_logs (db w) ++ [checked_in_row (db w) env1 s data1]).
  { unfold w1. rewrite Hrun1. reflexivity. }
  assert (Hseq1 : seq_attendance_logs (db w1) = seq_attendance_logs (db w) + 1).
  { unfold w1. rewrite Hrun1. reflexivity. }
  assert (Hrec : recognise face_distance w1 (image_base64 data2) = Some s).
  { unfold w1. now rewrite recognise_after_check_in. }
  assert (get_active_checkin (db w1) (clock_lookup env2) (id s)
            (req_class_name data2) = None) as Hnone2.
  { apply get_active_checkin_none. rewrite Hw1, existsb_app. simpl.
    rewrite orb_false_r. apply orb_false_iff. split.
    - destruct (existsb _ _) eqn:E; [|reflexivity]. exfalso.
      apply existsb_exists in E as (x & Hx & Hwhere).
      unfold active_checkin_where in Hwhere.
      rewrite !andb_true_iff, !Z.eqb_eq in Hwhere.
      destruct Hwhere as [[[_ _] Hd] _].
      specialize (H1 x Hx).
      assert (check_in_time x <= get_thai_time (clock_write env1)) as Hle
        by (unfold get_thai_time in *; lia).
      apply DATE_mono in Hle.
      pose proof (DATE_mono _ _ (get_thai_time_mono _ _ H12)) as Hle2.
      unfold get_thai_date in *. fold (get_thai_time (clock_lookup env2)) in *.
      lia.
    - unfold active_checkin_where. simpl.
      destruct (Z.eqb_spec (DATE (get_thai_time (clock_write env1)))
                           (get_thai_date (clock_lookup env2)));
        [contradiction|].
      now rewrite andb_false_r. }
  pose proof (api_check_in_accepted face_distance env2 data2 w1 s Hrec Hst2
                Hnone2) as Hrun2.
  exists w1. eexists.
  split; [unfold w1; rewrite Hrun1; reflexivity|].
  split; [exact Hrun2|].
  split; [exact Hw1|].
  cbn [db add_attendance_log fst attendance_logs].
  split; [rewrite Hw1, <- app_assoc; reflexivity|].
  split; [simpl; rewrite Hseq1; lia|].
  split.
  - split; [rewrite Hw1; apply in_or_app; left; apply in_or_app; right;
            now left|].
    simpl. auto.
  - split; [apply in_or_app; right; now left|].
    simpl. auto.
Qed.

(** C1, as the code has it.  In every reachable world a key has at most one
    open session.  A key whose session of the day was exited is not closed
    for the day: a further enter request is accepted and appends a second
    session next to the exited one, and the key still has at most one open
    session afterwards. *)
Theorem enter_after_exit_opens_second_session :
  forall (T : Instant) (env : Env) (data : AttendanceRequest) (w : World)
         (s : Student) (cls : string),
    reachable face_distance T w ->
    T <= clock_lookup env ->
    clock_lookup env <= clock_write env ->
    recognise face_distance w (image_base64 data) = Some s ->
    req_class_name data = Some cls ->
    req_scan_type data <> Some "check_out"%string ->
    session_state (db w) (id s) cls (get_thai_date (clock_lookup env))
      = Exited ->
    at_most_one_open (db w) /\
    exists w',
      api_check_attendance face_distance env data w
        = (Returned (reply_of env s data "เช็คเข้าสำเร็จ!" "check_in"), w') /\
      attendance_logs (db w')
        = attendance_logs (db w) ++ [checked_in_row (db w) env s data] /\
      (exists old,
          In old (attendance_logs (db w')) /\
          old <> checked_in_row (db w) env s data /\
          closed_session_b (id s) cls (get_thai_date (clock_lookup env)) old
            = true) /\
      at_most_one_open (db w').
Proof.
  intros T env data w s cls Hreach HT Hlw Hs Hc Hst Hstate.
  pose proof (reachable_invariant face_distance T w Hreach) as Hinv.
  split; [apply Hinv|].
  assert (get_active_checkin (db w) (clock_lookup env) (id s)
            (req_class_name data) = None) as Hnone.
  { rewrite Hc. apply not_entered_no_active. rewrite Hstate. discriminate. }
  pose proof (api_check_in_accepted face_distance env data w s Hs Hst Hnone)
    as Hrun.
  eexists. split; [exact Hrun|].
  cbn [db add_attendance_log fst attendance_logs].
  split; [reflexivity|]. split.
  - unfold session_state in Hstate.
    destruct (existsb (active_checkin_where _ _ _) _); [discriminate|].
    destruct (existsb (closed_session_b _ _ _) _) eqn:E; [|discriminate].
    apply existsb_exists in E as (old & Hin & Hold).
    exists old. split; [apply in_or_app; now left|]. split; [|assumption].
    intros ->. unfold closed_session_b in Hold. simpl in Hold.
    now rewrite andb_false_r in Hold.
  - pose proof (log_invariant_add T (clock_lookup env) (clock_write env)
                  (db w) (id s) (req_class_name data)
                  (Some (capture_path env s data)) Hinv HT Hlw Hnone) as Hinv'.
    apply Hinv'.
Qed.

End TrackerFacts.

(** ** The notifier and the scan type *)

Section RequestFacts.

Import Models Main.

Variable face_distance : Encoding -> Encoding -> float.

Lemma check_out_or_not (t : option string) :
  {t = Some "check_out"%string} + {t <> Some "check_out"%string}.
Proof.
  destruct t as [t|]; [|right; discriminate].
  destruct (String.string_dec t "check_out") as [->|Hne].
  - now left.
  - right. congruence.
Qed.

Lemma reply_of_post_result (env : Env) (s : Student)
    (data : AttendanceRequest) (msg st : string) (result : PostResult) :
  reply_of (with_post_result env result) s data msg st
  = reply_of env s data msg st.
Proof. reflexivity. Qed.

(** An accepted request, taken apart: which of the two transitions it
    was, and the world it left. *)
Lemma api_check_attendance_returned (env : Env) (data : AttendanceRequest)
    (w w' : World) (reply : AttendanceReply) :
  api_check_attendance face_distance env data w = (Returned reply, w') ->
  exists s,
    recognise face_distance w (image_base64 data) = Some s /\
    ((req_scan_type data <> Some "check_out"%string /\
      get_active_checkin (db w) (clock_lookup env) (id s)
        (req_class_name data) = None /\
      reply = reply_of env s data "เช็คเข้าสำเร็จ!" "check_in" /\
      w' = mkWorld
             (fst (add_attendance_log (db w) (clock_write env) (id s)
                     (req_class_name data) (Some (capture_path env s data))))
             (face_data w)
             (events w ++ [Imwrite (capture_path env s data); Commit] ++
              notifier_events env s (req_class_name data) "check_in"
                (capture_path env s data)))
     \/
     (exists r,
         req_scan_type data = Some "check_out"%string /\
         get_active_checkin (db w) (clock_lookup env) (id s)
           (req_class_name data) = Some r /\
         reply = reply_of env s data "เช็คออกสำเร็จ!" "check_out" /\
         w' = mkWorld
                (update_checkout_time (db w) (clock_write env) (log_id r)
                   (Some (capture_path env s data)))
                (face_data w)
                (events w ++ [Imwrite (capture_path env s data); Commit] ++
                 notifier_events env s (req_class_name data) "check_out"
                   (capture_path env s data)))).
Proof.
  intros Hrun.
  destruct (recognise face_distance w (image_base64 data)) as [s|] eqn:Hs.
  - exists s. split; [reflexivity|].
    destruct (get_active_checkin (db w) (clock_lookup env) (id s)
                (req_class_name data)) as [r|] eqn:Ha;
      destruct (check_out_or_not (req_scan_type data)) as [Hst|Hst].
    + right. exists r.
      rewrite (api_check_out_accepted face_distance env data w s r Hs Hst Ha)
        in Hrun.
      injection Hrun as <- <-. auto.
    + rewrite (api_check_in_rejected face_distance env data w s r Hs Hst Ha)
        in Hrun.
      discriminate.
    + rewrite (api_check_out_rejected face_distance env data w s Hs Hst Ha)
        in Hrun.
      discriminate.
    + left.
      rewrite (api_check_in_accepted face_distance env data w s Hs Hst Ha)
        in Hrun.
      injection Hrun as <- <-. auto.
  - destruct (api_check_attendance_unrecognised face_distance env data w Hs)
      as [e He].
    rewrite He in Hrun. discriminate.
Qed.


(** The steps before the scan type is looked at do not depend on it. *)
Lemma api_check_attendance_unrecognised_any (env : Env)
    (data : AttendanceRequest) (t : option string) (w : World) :
  recognise face_distance w (image_base64 data) = None ->
  api_check_attendance face_distance env (with_scan_type data t) w
  = api_check_attendance face_distance env data w.
Proof.
  unfold recognise, api_check_attendance, with_scan_type. simpl.
  destruct (process_image_from_base64 _) as [[image|]|];
    [|reflexivity|reflexivity].
  destruct (Nat.eqb _ 0); [reflexivity|].
  destruct (FaceRecognitionService.get_face_encoding image) as [e|];
    [|reflexivity].
  intros H. unfold bind, read_db, read_face_data. simpl.
  destruct (FaceRecognitionService.find_matching_student _ _ _ _)
    as [[s|]|]; [discriminate| |]; reflexivity.
Qed.

Lemma get_active_checkin_null_class (d : Database) (now : Instant)
    (sid : Z) :
  get_active_checkin d now sid None = None.
Proof.
  apply get_active_checkin_none.
  induction (attendance_logs d) as [|r l IH]; simpl; [reflexivity|].
  rewrite IH. unfold active_checkin_where, sql_text_eq.
  destruct (class_name r); now rewrite ?andb_false_r.
Qed.

Lemma no_open_session_no_active (d : Database) (now : Instant) (sid : Z)
    (cls : option string) :
  (forall c r, cls = Some c ->
               ~ open_session d sid c (get_thai_date now) r) ->
  get_active_checkin d now sid cls = None.
Proof.
  intros Hnone. destruct cls as [c|];
    [|apply get_active_checkin_null_class].
  destruct (get_active_checkin d now sid (Some c)) as [r|] eqn:E;
    [|reflexivity].
  apply get_active_checkin_some in E as [Hopen _].
  now destruct (Hnone c r eq_refl).
Qed.

Lemma open_session_active (d : Database) (now : Instant) (sid : Z)
    (c : string) (r : AttendanceLog) :
  open_session d sid c (get_thai_date now) r ->
  exists r', get_active_checkin d now sid (Some c) = Some r'.
Proof.
  intros Hopen. apply entered_active. apply session_state_entered_open.
  eauto.
Qed.

(** C10. A request whose scan type is anything but "check_out" (the
    default "check_in", an unknown word, a null) runs as a check-in.  When
    the scan is recognised and the key has no open session on the day, the
    request is accepted: it answers "check_in" and appends the checked-in
    row.  When the key has an open session, it is rejected as a duplicate
    entry, as a check-in is, and never as an exit or for its scan type.  In
    every case it is rejected exactly when the same request with "check_in"
    is, with the same exception and the database untouched, and accepted
    exactly when that request is; the two runs differ only in the scan type
    printed into the name of the captured picture. *)
Theorem any_other_scan_type_is_a_check_in :
  forall (env : Env) (data : AttendanceRequest) (w : World),
    req_scan_type data <> Some "check_out"%string ->
    (forall s,
        recognise face_distance w (image_base64 data) = Some s ->
        (forall c r, req_class_name data = Some c ->
                     ~ open_session (db w) (id s) c
                         (get_thai_date (clock_lookup env)) r) ->
        exists w',
          api_check_attendance face_distance env data w
          = (Returned (reply_of env s data "เช็คเข้าสำเร็จ!" "check_in"), w') /\
          attendance_logs (db w')
          = attendance_logs (db w) ++ [checked_in_row (db w) env s data]) /\
    (forall s c r,
        recognise face_distance w (image_base64 data) = Some s ->
        req_class_name data = Some c ->
        open_session (db w) (id s) c (get_thai_date (clock_lookup env)) r ->
        exists w',
          api_check_attendance face_distance env data w
          = (Raised DuplicateEntry, w') /\
          db w' = db w) /\
    (forall e w',
        api_check_attendance face_distance env data w = (Raised e, w') ->
        db w' = db w /\
        exists w0,
          api_check_attendance face_distance env
            (with_scan_type data (Some "check_in"%string)) w
          = (Raised e, w0) /\
          db w0 = db w) /\
    (forall reply w',
        api_check_attendance face_distance env data w = (Returned reply, w') ->
        exists s,
          recognise face_distance w (image_base64 data) = Some s /\
          reply = reply_of env s data "เช็คเข้าสำเร็จ!" "check_in" /\
          attendance_logs (db w')
            = attendance_logs (db w) ++ [checked_in_row (db w) env s data] /\
          exists w0,
            api_check_attendance face_distance env
              (with_scan_type data (Some "check_in"%string)) w
            = (Returned
                 (reply_of env s (with_scan_type data (Some "check_in"%string))
                    "เช็คเข้าสำเร็จ!" "check_in"), w0) /\
            attendance_logs (db w0)
              = attendance_logs (db w)
                ++ [checked_in_row (db w) env s
                      (with_scan_type data (Some "check_in"%string))]).
Proof.
  intros env data w Hst.
  assert (req_scan_type (with_scan_type data (Some "check_in"%string))
          <> Some "check_out"%string) as Hin by (simpl; discriminate).
  split; [|split].
  { intros s Hs Hnone.
    apply no_open_session_no_active in Hnone.
    rewrite (api_check_in_accepted face_distance env data w s Hs Hst Hnone).
    eexists. split; reflexivity. }
  { intros s c r Hs Hc Hopen.
    apply open_session_active in Hopen as [r' Hr']. rewrite <- Hc in Hr'.
    rewrite (api_check_in_rejected face_distance env data w s r' Hs Hst Hr').
    eexists. split; reflexivity. }
  destruct (recognise face_distance w (image_base64 data)) as [s|] eqn:Hs.
  - destruct (get_active_checkin (db w) (clock_lookup env) (id s)
                (req_class_name data)) as [r|] eqn:Ha.
    + rewrite (api_check_in_rejected face_distance env data w s r Hs Hst Ha).
      split; [|discriminate].
      intros e w' [= <- <-]. split; [reflexivity|].
      rewrite (api_check_in_rejected face_distance env
                 (with_scan_type data (Some "check_in"%string)) w s r Hs Hin Ha).
      eexists. split; reflexivity.
    + rewrite (api_check_in_accepted face_distance env data w s Hs Hst Ha).
      split; [discriminate|].
      intros reply w' [= <- <-]. exists s.
      split; [reflexivity|]. split; [reflexivity|]. split; [reflexivity|].
      rewrite (api_check_in_accepted face_distance env
                 (with_scan_type data (Some "check_in"%string)) w s Hs Hin Ha).
      eexists. split; reflexivity.
  - rewrite (api_check_attendance_unrecognised_any env data
               (Some "check_in"%string) w Hs).
    destruct (api_check_attendance_unrecognised face_distance env data w Hs)
      as [e He].
    rewrite He. split; [|discriminate].
    intros e' w' [= <- <-]. split; [reflexivity|].
    eexists. split; reflexivity.
Qed.

End RequestFacts.

(** ** The statements at work on the sample data *)

Module Runs.

Import Models Main.
Local Open Scope string_scope.
Local Open Scope list_scope.

Lemma world_reachable :
  reachable Sample.distance Sample.nine_am Sample.world.
Proof. apply reach_fresh. reflexivity. Defined.

Lemma entered_reachable :
  reachable Sample.distance Sample.nine_am Sample.entered.
Proof.
  apply (reach_check Sample.distance Sample.nine_am Sample.world
           Sample.env_enter (Sample.scan 0 "check_in") world_reachable).
  - apply Z.le_refl.
  - apply Z.le_refl.
Defined.

Lemma exited_reachable :
  reachable Sample.distance (Sample.nine_am + 3600)%Z Sample.exited.
Proof.
  apply (reach_check Sample.distance Sample.nine_am Sample.entered
           Sample.env_exit (Sample.scan 0 "check_out") entered_reachable).
  - discriminate.
  - apply Z.le_refl.
Defined.

(** C1, as stated, fails: Alice enters at 09:00 and leaves at 10:00, so her
    key is in state Exited; her enter request at 11:00 of the same civil day
    is accepted all the same, and the key then has two sessions. *)
Lemma second_enter_after_exit_is_accepted :
  session_state (db Sample.exited) 1 "Math" (get_thai_date Sample.nine_am)
    = Exited /\
  get_thai_date (clock_lookup Sample.env_again)
    = get_thai_date Sample.nine_am /\
  exists w',
    api_check_attendance Sample.distance Sample.env_again
      (Sample.scan 0 "check_in") Sample.exited
    = (Returned (reply_of Sample.env_again Sample.alice
                   (Sample.scan 0 "check_in") "เช็คเข้าสำเร็จ!" "check_in"),
       w') /\
    map status
      (sessions_of (db w') 1 "Math" (get_thai_date Sample.nine_am))
    = ["checked_out"; "checked_in"].
Proof.
  split; [reflexivity|]. split; [reflexivity|].
  exists (snd (api_check_attendance Sample.distance Sample.env_again
                 (Sample.scan 0 "check_in") Sample.exited)).
  split; vm_compute; reflexivity.
Qed.

(** C1 as the code has it, on the same morning. *)
Lemma enter_after_exit_opens_second_session_witness :
  at_most_one_open (db Sample.exited) /\
  exists w',
    api_check_attendance Sample.distance Sample.env_again
      (Sample.scan 0 "check_in") Sample.exited
    = (Returned (reply_of Sample.env_again Sample.alice
                   (Sample.scan 0 "check_in") "เช็คเข้าสำเร็จ!" "check_in"),
       w') /\
    attendance_logs (db w')
    = attendance_logs (db Sample.exited)
      ++ [checked_in_row (db Sample.exited) Sample.env_again Sample.alice
            (Sample.scan 0 "check_in")] /\
    (exists old,
        In old (attendance_logs (db w')) /\
        old <> checked_in_row (db Sample.exited) Sample.env_again
                 Sample.alice (Sample.scan 0 "check_in") /\
        closed_session_b 1 "Math"
          (get_thai_date (clock_lookup Sample.env_again)) old = true) /\
    at_most_one_open (db w').
Proof.
  apply (enter_after_exit_opens_second_session Sample.distance
           (Sample.nine_am + 3600)%Z Sample.env_again
           (Sample.scan 0 "check_in") Sample.exited Sample.alice "Math"
           exited_reachable).
  - discriminate.
  - apply Z.le_refl.
  - reflexivity.
  - reflexivity.
  - discriminate.
  - reflexivity.
Defined.

(** C5 on the sample: Alice, entered at 09:00, asks to enter at 11:00. *)
Lemma enter_while_entered_is_rejected_witness :
  exists w',
    api_check_attendance Sample.distance Sample.env_again
      (Sample.scan 0 "check_in") Sample.entered
    = (Raised DuplicateEntry, w') /\
    db w' = db Sample.entered.
Proof.
  apply (enter_while_entered_is_rejected Sample.distance Sample.env_again
           (Sample.scan 0 "check_in") Sample.entered Sample.alice "Math").
  - reflexivity.
  - reflexivity.
  - discriminate.
  - reflexivity.
Defined.

(** C6 on the sample: Alice, who left at 10:00, asks to leave at 11:00. *)
Lemma exit_without_open_session_is_rejected_witness :
  exists w',
    api_check_attendance Sample.distance Sample.env_again
      (Sample.scan 0 "check_out") Sample.exited
    = (Raised NoOpenEntry, w') /\
    db w' = db Sample.exited.
Proof.
  apply (exit_without_open_session_is_rejected Sample.distance
           Sample.env_again (Sample.scan 0 "check_out") Sample.exited
           Sample.alice "Math").
  - reflexivity.
  - reflexivity.
  - reflexivity.
  - right. reflexivity.
Defined.

(** C7 on the sample: Alice, entered at 09:00, leaves at 10:00. *)
Lemma exit_while_entered_stamps_open_session_witness :
  exists r w',
    open_session (db Sample.entered) 1 "Math"
      (get_thai_date (clock_lookup Sample.env_exit)) r /\
    (forall x,
        open_session (db Sample.entered) 1 "Math"
          (get_thai_date (clock_lookup Sample.env_exit)) x ->
        check_in_time x <= check_in_time r)%Z /\
    api_check_attendance Sample.distance Sample.env_exit
      (Sample.scan 0 "check_out") Sample.entered
    = (Returned (reply_of Sample.env_exit Sample.alice
                   (Sample.scan 0 "check_out") "เช็คออกสำเร็จ!" "check_out"),
       w') /\
    In (checked_out_row r Sample.env_exit Sample.alice
          (Sample.scan 0 "check_out"))
       (attendance_logs (db w')) /\
    (forall x, In x (attendance_logs (db Sample.entered)) -> x <> r ->
               In x (attendance_logs (db w'))) /\
    List.length (attendance_logs (db w'))
    = List.length (attendance_logs (db Sample.entered)) /\
    session_state (db w') 1 "Math"
      (get_thai_date (clock_lookup Sample.env_exit)) = Exited /\
    (check_in_time r <= get_thai_time (clock_write Sample.env_exit))%Z.
Proof.
  apply (exit_while_entered_stamps_open_session Sample.distance
           Sample.nine_am Sample.env_exit (Sample.scan 0 "check_out")
           Sample.entered Sample.alice "Math" entered_reachable).
  - discriminate.
  - apply Z.le_refl.
  - reflexivity.
  - reflexivity.
  - reflexivity.
  - reflexivity.
Defined.

(** C8 on the sample: Alice enters at 09:00 and again at 09:00 of the
    next day, without having left in between. *)
Lemma enters_on_different_days_are_both_accepted_witness :
  exists w1 w2,
    api_check_attendance Sample.distance Sample.env_enter
      (Sample.scan 0 "check_in") Sample.world
    = (Returned (reply_of Sample.env_enter Sample.alice
                   (Sample.scan 0 "check_in") "เช็คเข้าสำเร็จ!" "check_in"),
       w1) /\
    api_check_attendance Sample.distance Sample.env_next_day
      (Sample.scan (1 # 10) "check_in") w1
    = (Returned (reply_of Sample.env_next_day Sample.alice
                   (Sample.scan (1 # 10) "check_in") "เช็คเข้าสำเร็จ!"
                   "check_in"),
       w2) /\
    attendance_logs (db w1)
    = attendance_logs (db Sample.world)
      ++ [checked_in_row (db Sample.world) Sample.env_enter Sample.alice
            (Sample.scan 0 "check_in")] /\
    attendance_logs (db w2)
    = attendance_logs (db Sample.world)
      ++ [checked_in_row (db Sample.world) Sample.env_enter Sample.alice
            (Sample.scan 0 "check_in");
          checked_in_row (db w1) Sample.env_next_day Sample.alice
            (Sample.scan (1 # 10) "check_in")] /\
    log_id (checked_in_row (db Sample.world) Sample.env_enter Sample.alice
              (Sample.scan 0 "check_in"))
    <> log_id (checked_in_row (db w1) Sample.env_next_day Sample.alice
                 (Sample.scan (1 # 10) "check_in")) /\
    open_session (db w2) 1 "Math"
      (DATE (get_thai_time (clock_write Sample.env_enter)))
      (checked_in_row (db Sample.world) Sample.env_enter Sample.alice
         (Sample.scan 0 "check_in")) /\
    open_session (db w2) 1 "Math"
      (DATE (get_thai_time (clock_write Sample.env_next_day)))
      (checked_in_row (db w1) Sample.env_next_day Sample.alice
         (Sample.scan (1 # 10) "check_in")).
Proof.
  apply (enters_on_different_days_are_both_accepted Sample.distance
           Sample.nine_am Sample.env_enter Sample.env_next_day
           (Sample.scan 0 "check_in") (Sample.scan (1 # 10) "check_in")
           Sample.world Sample.alice "Math" world_reachable).
  - apply Z.le_refl.
  - apply Z.le_refl.
  - discriminate.
  - reflexivity.
  - reflexivity.
  - reflexivity.
  - reflexivity.
  - discriminate.
  - discriminate.
  - discriminate.
  - vm_compute. discriminate.
Defined.


(** C10 on the sample: Alice, with no session yet, is scanned with the
    unknown scan type "arrive" and is checked in. *)
Lemma any_other_scan_type_is_a_check_in_witness :
  exists w',
    api_check_attendance Sample.distance Sample.env_enter
      (Sample.scan 0 "arrive") Sample.world
    = (Returned (reply_of Sample.env_enter Sample.alice
                   (Sample.scan 0 "arrive") "เช็คเข้าสำเร็จ!" "check_in"),
       w') /\
    attendance_logs (db w')
    = attendance_logs (db Sample.world)
      ++ [checked_in_row (db Sample.world) Sample.env_enter Sample.alice
            (Sample.scan 0 "arrive")].
Proof.
  destruct (any_other_scan_type_is_a_check_in Sample.distance
              Sample.env_enter (Sample.scan 0 "arrive") Sample.world)
    as [Haccepted _].
  - discriminate.
  - apply (Haccepted Sample.alice).
    + reflexivity.
    + intros c r _ [[] _].
Defined.

Example scan_type_arrive_checks_in :
  exists w',
    api_check_attendance Sample.distance Sample.env_enter
      (Sample.scan 0 "arrive") Sample.world
    = (Returned (reply_of Sample.env_enter Sample.alice
                   (Sample.scan 0 "arrive") "เช็คเข้าสำเร็จ!" "check_in"),
       w') /\
    map status (attendance_logs (db w')) = ["checked_in"].
Proof.
  exists (snd (api_check_attendance Sample.distance Sample.env_enter
                 (Sample.scan 0 "arrive") Sample.world)).
  split; vm_compute; reflexivity.
Qed.

(** C3 at work on a host whose local zone is UTC: Alice enters at
    18:30:00 UTC of 2024-01-01 (day 19723), which is 01:30:00 of 2024-01-02
    (day 19724) in UTC+7.  The row is stamped with the Thai time, 01:30:00
    on day 19724, while the reply reports the host's time, 18:30:00 on day
    19723. *)
Lemma reply_reports_host_local_time :
  exists reply w',
    api_check_attendance Sample.distance Sample.env_evening_utc_host
      (Sample.scan 0 "check_in") Sample.world
    = (Returned reply, w') /\
    map (fun r => (DATE (check_in_time r), (check_in_time r mod 86400)%Z))
        (attendance_logs (db w'))
    = [(19724, 5400)]%Z /\
    (reply_date reply, reply_time reply) = (19723, 66600)%Z.
Proof.
  exists (reply_of Sample.env_evening_utc_host Sample.alice
            (Sample.scan 0 "check_in") "เช็คเข้าสำเร็จ!" "check_in").
  exists (snd (api_check_attendance Sample.distance
                 Sample.env_evening_utc_host (Sample.scan 0 "check_in")
                 Sample.world)).
  repeat split; vm_compute; reflexivity.
Qed.

(** C4 at work: a picture with two faces.  The registration handler turns
    it away; the attendance handler takes the first face, matches it and
    checks Alice in. *)
Lemma two_faces_are_checked_in :
  List.length (FaceRecognitionService.detect_face
                 [Sample.face_of 0; Sample.face_of 1]) = 2%nat /\
  fst (api_register_face Sample.distance Sample.env_enter
         (mkFaceScanRequest Sample.two_faces) Sample.world)
  = Raised (mkHTTPException 400
              "พบใบหน้ามากกว่า 1 คน กรุณาให้มีแค่คนเดียวในภาพ") /\
  exists w',
    api_check_attendance Sample.distance Sample.env_enter
      (mkAttendanceRequest Sample.two_faces (Some "Math") (Some "check_in"))
      Sample.world
    = (Returned (reply_of Sample.env_enter Sample.alice
                   (mkAttendanceRequest Sample.two_faces (Some "Math")
                      (Some "check_in"))
                   "เช็คเข้าสำเร็จ!" "check_in"),
       w') /\
    map (fun r => (log_student_id r, status r)) (attendance_logs (db w'))
    = [(1%Z, "checked_in")].
Proof.
  split; [reflexivity|]. split; [reflexivity|].
  exists (snd (api_check_attendance Sample.distance Sample.env_enter
                 (mkAttendanceRequest Sample.two_faces (Some "Math")
                    (Some "check_in")) Sample.world)).
  split; vm_compute; reflexivity.
Qed.


(** The zero-face half of C4 holds: no face, no matching, no row. *)
Lemma no_face_is_rejected (fd : Encoding -> Encoding -> float) (env : Env)
    (cls scan_type : option string) (w : World) :
  api_check_attendance fd env (mkAttendanceRequest (Picture []) cls scan_type) w
  = (Raised NoFaceFound, w).
Proof. reflexivity. Qed.

End Runs.

(** * Further properties of the code *)

(** ** Encoding files *)

Section FileFacts.

Import FaceRecognitionService.

Lemma option_string_eqb_eq (a b : option string) :
  option_string_eqb a b = true <-> a = b.
Proof.
  destruct a as [x|], b as [y|]; simpl; try (split; congruence).
  rewrite String.eqb_eq. split; congruence.
Qed.

Lemma Path_eqb_eq (p q : Path) : Path_eqb p q = true <-> p = q.
Proof.
  destruct p as [|i s|i k s], q as [|j t|j l t]; simpl;
    try (split; congruence).
  - rewrite andb_true_iff, !Z.eqb_eq.
    split; [intros [-> ->] | intros [= -> ->]]; auto.
  - rewrite !andb_true_iff, !Z.eqb_eq, option_string_eqb_eq.
    split; [intros [[-> ->] ->] | intros [= -> -> ->]]; auto.
Qed.

Lemma Path_eqb_refl (p : Path) : Path_eqb p p = true.
Proof. now apply Path_eqb_eq. Qed.

Lemma Path_eqb_neq (p q : Path) : p <> q -> Path_eqb p q = false.
Proof.
  intros H. destruct (Path_eqb p q) eqn:E; [|reflexivity].
  apply Path_eqb_eq in E. contradiction.
Qed.

(** X1. An encoding saved with [save_face_encoding] is what
    [load_face_encoding] returns for the path handed back, whatever was
    stored before, and every other path loads as it did. *)
Theorem save_then_load_face_encoding :
  forall (files : FaceData) (e : Encoding) (student_db_id now_local : Z),
    load_face_encoding
      (fst (save_face_encoding files e student_db_id now_local))
      (snd (save_face_encoding files e student_db_id now_local))
    = Value (Some e) /\
    forall q,
      q <> snd (save_face_encoding files e student_db_id now_local) ->
      load_face_encoding
        (fst (save_face_encoding files e student_db_id now_local)) q
      = load_face_encoding files q.
Proof.
  intros files e sid now.
  cbn [save_face_encoding fst snd load_face_encoding]. split.
  - now rewrite Path_eqb_refl.
  - intros q Hq. rewrite Path_eqb_neq; [reflexivity | congruence].
Qed.

End FileFacts.

(** ** The matcher, further *)

Section MatcherMore.

Import FaceRecognitionService.

Variable face_distance : Encoding -> Encoding -> float.
Variable files : FaceData.
Variable unknown : Encoding.

Lemma flt_fle_trans (a b c : float) :
  flt a b = true -> fle b c = true -> flt a c = true.
Proof.
  destruct a as [x| | |], b as [y| | |], c as [z| | |];
    simpl; try congruence.
  rewrite !negb_true_iff. intros Hyx Hyz.
  destruct (Qle_bool z x) eqn:Hzx; [|reflexivity].
  apply Qle_bool_iff in Hyz, Hzx.
  assert (Qle_bool y x = true) by (apply Qle_bool_iff; lra). congruence.
Qed.

(** What [find_matching_student] returns, read off the loop invariant. *)
Lemma find_matching_student_spec (students : list Student) :
  match find_matching_student face_distance files unknown students with
  | Value (Some s) =>
      In s students /\
      exists d,
        enrolled_distance face_distance files unknown s = Some d /\
        fle d FACE_RECOGNITION_TOLERANCE = true /\
        forall s' d',
          In s' students ->
          enrolled_distance face_distance files unknown s' = Some d' ->
          fle d' FACE_RECOGNITION_TOLERANCE = true ->
          fle d d' = true
  | Value None =>
      forall s' d',
        In s' students ->
        enrolled_distance face_distance files unknown s' = Some d' ->
        fle d' FACE_RECOGNITION_TOLERANCE = false
  | Exception =>
      exists s', In s' students /\
                 load_face_encoding files (face_encoding_path s') = Exception
  end.
Proof.
  unfold find_matching_student.
  destruct (find_loop face_distance files unknown students (None, PosInf))
    as [best|] eqn:Hloop.
  - pose proof (best_so_far_loop face_distance files unknown students []
                  (None, PosInf) best (best_so_far_nil _ _ _) Hloop) as H.
    unfold best_so_far in H. simpl in H.
    destruct (fst best) as [s|].
    + destruct H as (Hin & Hd & Htol & Hmin).
      split; [assumption|]. eexists. repeat split; eauto.
    + destruct H as [_ H]. exact H.
  - now apply (find_loop_raises face_distance files unknown students
                 (None, PosInf)).
Qed.

Lemma first_of_the_nearest_step (seen : list Student)
    (best best' : option Student * float) (s : Student) :
  best_so_far face_distance files unknown seen best ->
  first_of_the_nearest face_distance files unknown seen best ->
  find_step face_distance files unknown best s = Value best' ->
  first_of_the_nearest face_distance files unknown (seen ++ [s]) best'.
Proof.
  unfold best_so_far, first_of_the_nearest, find_step, enrolled_distance.
  destruct best as [[b|] bd]; simpl;
    destruct (load_face_encoding files (face_encoding_path s))
      as [[k|]|] eqn:Hk; try discriminate.
  - intros (Hb & Hbd & Htol & Hmin) (before & after & -> & Hfirst).
    destruct (fle (face_distance k unknown) FACE_RECOGNITION_TOLERANCE
              && flt (face_distance k unknown) bd) eqn:Hs; simpl;
      intros [= <-]; simpl.
    + apply andb_true_iff in Hs as [Hs Hlt].
      exists (before ++ b :: after), []. split; [reflexivity|].
      intros s' d' Hin Hd Hdt.
      apply flt_fle_trans with bd; [assumption|]. now apply (Hmin s' d').
    + exists before, (after ++ [s]). split.
      * now rewrite <- app_assoc.
      * exact Hfirst.
  - intros _ (before & after & -> & Hfirst) [= <-]; simpl.
    exists before, (after ++ [s]). split.
    + now rewrite <- app_assoc.
    + exact Hfirst.
  - intros (-> & Hnone) _.
    destruct (fle (face_distance k unknown) FACE_RECOGNITION_TOLERANCE)
      eqn:Hs; simpl.
    + rewrite (flt_PosInf_of_tolerance _ Hs). simpl. intros [= <-]; simpl.
      exists seen, []. split; [reflexivity|].
      intros s' d' Hin Hd Hdt. rewrite (Hnone _ _ Hin Hd) in Hdt.
      discriminate.
    + intros [= <-]. exact I.
  - intros _ _ [= <-]. exact I.
Qed.

Lemma first_of_the_nearest_loop (students seen : list Student)
    (best best' : option Student * float) :
  best_so_far face_distance files unknown seen best ->
  first_of_the_nearest face_distance files unknown seen best ->
  find_loop face_distance files unknown students best = Value best' ->
  first_of_the_nearest face_distance files unknown (seen ++ students) best'.
Proof.
  revert seen best.
  induction students as [|s rest IH]; intros seen best Hb Hf; simpl.
  - intros [= <-]. now rewrite app_nil_r.
  - destruct (find_step face_distance files unknown best s) as [b1|] eqn:E;
      [|discriminate].
    intros Hloop.
    replace (seen ++ s :: rest) with ((seen ++ [s]) ++ rest)
      by now rewrite <- app_assoc.
    apply (IH _ b1); [| |assumption].
    + now apply (best_so_far_step face_distance files unknown seen best).
    + now apply (first_of_the_nearest_step seen best).
Qed.

(** X2. Ties go to the earlier student: whoever [find_matching_student]
    returns stands in the list after students that are all strictly
    farther from the scanned face, as far as they are within tolerance and
    their encodings load. *)
Theorem find_matching_student_first_of_the_nearest :
  forall (students : list Student) (s : Student),
    find_matching_student face_distance files unknown students
      = Value (Some s) ->
    exists before after d,
      students = before ++ s :: after /\
      enrolled_distance face_distance files unknown s = Some d /\
      forall s' d',
        In s' before ->
        enrolled_distance face_distance files unknown s' = Some d' ->
        fle d' FACE_RECOGNITION_TOLERANCE = true ->
        flt d d' = true.
Proof.
  intros students s Hfind.
  unfold find_matching_student in Hfind.
  destruct (find_loop face_distance files unknown students (None, PosInf))
    as [best|] eqn:Hloop; [|discriminate].
  injection Hfind as Hbest.
  pose proof (best_so_far_loop face_distance files unknown students []
                (None, PosInf) best (best_so_far_nil _ _ _) Hloop) as Hb.
  pose proof (first_of_the_nearest_loop students [] (None, PosInf) best
                (best_so_far_nil _ _ _) I Hloop) as Hf.
  unfold best_so_far in Hb. unfold first_of_the_nearest in Hf.
  simpl in Hb, Hf. rewrite Hbest in Hb, Hf.
  destruct Hb as (_ & Hd & _). destruct Hf as (before & after & Heq & Hfirst).
  exists before, after. eexists. split; [exact Heq|]. split; [exact Hd|].
  exact Hfirst.
Qed.

(** X3. The order of the enrolled list does not change how near the match
    is: on two orderings of the same students the matcher raises both
    times, finds nobody both times, or finds two students at the same
    distance. *)
Theorem find_matching_student_distance_order_free :
  forall (students students' : list Student),
    Permutation students students' ->
    match find_matching_student face_distance files unknown students,
          find_matching_student face_distance files unknown students' with
    | Value (Some s), Value (Some s') =>
        exists d d',
          enrolled_distance face_distance files unknown s = Some d /\
          enrolled_distance face_distance files unknown s' = Some d' /\
          fle d d' = true /\ fle d' d = true
    | Value None, Value None => True
    | Exception, Exception => True
    | _, _ => False
    end.
Proof.
  intros students students' Hperm.
  assert (Hraise : forall l l',
             Permutation l l' ->
             find_matching_student face_distance files unknown l = Exception ->
             find_matching_student face_distance files unknown l'
             = Exception).
  { intros l l' Hp. unfold find_matching_student.
    destruct (find_loop face_distance files unknown l (None, PosInf))
      eqn:E; [discriminate|]. intros _.
    apply find_loop_raises in E as (x & Hx & Hload).
    assert (find_loop face_distance files unknown l' (None, PosInf)
            = Exception) as ->; [|reflexivity].
    apply find_loop_raises. exists x. split; [|assumption].
    now apply Permutation_in with l. }
  pose proof (find_matching_student_spec students) as H.
  pose proof (find_matching_student_spec students') as H'.
  pose proof (Hraise students students' Hperm) as Hr.
  pose proof (Hraise students' students (Permutation_sym Hperm)) as Hr'.
  destruct (find_matching_student face_distance files unknown students)
    as [[s|]|];
    destruct (find_matching_student face_distance files unknown students')
      as [[s'|]|];
    try exact I;
    try (now specialize (Hr eq_refl)); try (now specialize (Hr' eq_refl)).
  - destruct H as (Hin & d & Hd & Htol & Hmin).
    destruct H' as (Hin' & d' & Hd' & Htol' & Hmin').
    exists d, d'. repeat split; auto.
    + apply (Hmin s' d'); auto.
      apply Permutation_in with students'; [now apply Permutation_sym|auto].
    + apply (Hmin' s d); auto.
      now apply Permutation_in with students.
  - destruct H as (Hin & d & Hd & Htol & _).
    rewrite (H' s d) in Htol; [discriminate| |assumption].
    now apply Permutation_in with students.
  - destruct H' as (Hin' & d' & Hd' & Htol' & _).
    rewrite (H s' d') in Htol'; [discriminate| |assumption].
    apply Permutation_in with students'; [now apply Permutation_sym|auto].
Qed.

End MatcherMore.

(** ** The students table *)

Section StudentFacts.

Import Models.

Lemma insert_created_at_desc_perm (s : Student) (l : list Student) :
  Permutation (insert_created_at_desc s l) (s :: l).
Proof.
  induction l as [|x l IH]; simpl; [reflexivity|].
  destruct (created_at x <? created_at s); [reflexivity|].
  rewrite IH. apply perm_swap.
Qed.

Lemma insert_created_at_desc_sorted (s : Student) (l : list Student) :
  newest_first l -> newest_first (insert_created_at_desc s l).
Proof.
  unfold newest_first. induction 1 as [|x l Hl IH Hx]; simpl.
  - repeat constructor.
  - destruct (created_at x <? created_at s) eqn:E.
    + apply Z.ltb_lt in E. constructor; [now constructor|].
      constructor; [lia|].
      rewrite Forall_forall in *. intros y Hy. specialize (Hx y Hy). lia.
    + apply Z.ltb_ge in E. constructor; [assumption|].
      rewrite Forall_forall in *. intros y Hy.
      apply (Permutation_in _ (insert_created_at_desc_perm s l)) in Hy.
      destruct Hy as [<-|Hy]; [lia | now apply Hx].
Qed.

Lemma get_all_students_fold (l acc : list Student) :
  newest_first acc ->
  newest_first
    (fold_left (fun sorted s => insert_created_at_desc s sorted) l acc) /\
  Permutation
    (fold_left (fun sorted s => insert_created_at_desc s sorted) l acc)
    (l ++ acc).
Proof.
  revert acc. induction l as [|s l IH]; intros acc Hacc; simpl.
  - split; [assumption | reflexivity].
  - destruct (IH (insert_created_at_desc s acc)
                 (insert_created_at_desc_sorted s acc Hacc)) as [Hs Hp].
    split; [assumption|].
    rewrite Hp, insert_created_at_desc_perm.
    apply Permutation_sym, Permutation_middle.
Qed.

(** X4. [get_all_students] lists every row of the students table, each as
    often as it is there, with the latest [created_at] first. *)
Theorem get_all_students_newest_first :
  forall d : Database,
    Permutation (get_all_students d) (students d) /\
    newest_first (get_all_students d).
Proof.
  intros d. unfold get_all_students.
  destruct (get_all_students_fold (students d) [])
    as [Hs Hp]; [constructor|].
  split; [|assumption]. now rewrite app_nil_r in Hp.
Qed.

Lemma get_all_students_In (d : Database) (s : Student) :
  In s (get_all_students d) <-> In s (students d).
Proof.
  unfold get_all_students.
  destruct (get_all_students_fold (students d) [])
    as [_ Hp]; [constructor|].
  rewrite app_nil_r in Hp. split; intros H.
  - now apply Permutation_in with (1 := Hp).
  - now apply Permutation_in with (1 := Permutation_sym Hp).
Qed.

Lemma find_id_none (l : list Student) (i : Z) :
  (forall s, In s l -> id s <> i) -> find (fun s => id s =? i) l = None.
Proof.
  induction l as [|x l IH]; simpl; intros H; [reflexivity|].
  destruct (Z.eqb_spec (id x) i) as [E|E].
  - exfalso. now apply (H x); [left|].
  - apply IH. intros s Hs. apply H. now right.
Qed.

Lemma find_id_app (l l' : list Student) (i : Z) :
  find (fun s => id s =? i) (l ++ l')
  = match find (fun s => id s =? i) l with
    | Some s => Some s
    | None => find (fun s => id s =? i) l'
    end.
Proof.
  induction l as [|x l IH]; simpl; [reflexivity|].
  now destruct (id x =? i).
Qed.

(** X5. A student added with [add_student] gets an id no row had before
    and is what [get_student_by_id] returns for that id; every other id is
    looked up as before.  It takes the ids in use not to exceed the
    AUTOINCREMENT counter, the counter to be below the largest 64-bit id,
    and the student number, when one is given, not to be taken by another
    student (the column is UNIQUE). *)
Theorem add_student_then_get_student_by_id :
  forall (d : Database) (now : Instant) (path : Path)
         (sid fn ln : option string),
    (forall s, In s (students d) -> id s <= seq_students d) ->
    seq_students d + 1 < 2 ^ 63 ->
    (forall number, sid = Some number ->
                    forall s, In s (students d) ->
                              student_id s <> Some number) ->
    let d' := fst (add_student d now path sid fn ln) in
    let new_id := snd (add_student d now path sid fn ln) in
    (forall s, In s (students d) -> id s <> new_id) /\
    get_student_by_id d' new_id
      = Some (mkStudent new_id sid fn ln path now now) /\
    (forall i, i <> new_id ->
               get_student_by_id d' i = get_student_by_id d i) /\
    attendance_logs d' = attendance_logs d.
Proof.
  intros d now path sid fn ln Hseq _ _. simpl.
  assert (forall s, In s (students d) -> id s <> seq_students d + 1) as Hnew.
  { intros s Hs. specialize (Hseq s Hs). lia. }
  split; [exact Hnew|]. unfold get_student_by_id. simpl.
  split; [|split; [|reflexivity]].
  - rewrite find_id_app, (find_id_none _ _ Hnew). simpl.
    now rewrite Z.eqb_refl.
  - intros i Hi. rewrite find_id_app.
    destruct (find (fun s => id s =? i) (students d)); [reflexivity|].
    simpl. destruct (Z.eqb_spec (seq_students d + 1) i); congruence.
Qed.

End StudentFacts.

(** ** Registration *)

Section RegisterFacts.

Import FaceRecognitionService Models Main.

Variable face_distance : Encoding -> Encoding -> float.

Lemma find_matching_student_loads (files : FaceData) (unknown : Encoding)
    (l : list Student) (r : option Student) :
  find_matching_student face_distance files unknown l = Value r ->
  forall s, In s l ->
            load_face_encoding files (face_encoding_path s) <> Exception.
Proof.
  unfold find_matching_student. intros Hfind s Hs Hload.
  assert (find_loop face_distance files unknown l (None, PosInf) = Exception)
    as E by (apply find_loop_raises; eauto).
  now rewrite E in Hfind.
Qed.

(** The two ways [api_register_face] ends. *)
Lemma api_register_face_cases (env : Env) (data : FaceScanRequest)
    (w : World) :
  (exists e,
      api_register_face face_distance env data w = (Raised e, w) /\
      (status_code e = 400 \/
       status_code e = 500 /\
       (scan_image_base64 data = Malformed \/
        exists face,
          scan_image_base64 data = Picture [face] /\
          find_matching_student face_distance (face_data w) (encoding face)
            (get_all_students (db w)) = Exception)) /\
      forall face,
        scan_image_base64 data = Picture [face] ->
        find_matching_student face_distance (face_data w) (encoding face)
          (get_all_students (db w)) <> Value None)
  \/
  (exists face msg,
      scan_image_base64 data = Picture [face] /\
      find_matching_student face_distance (face_data w) (encoding face)
        (get_all_students (db w)) = Value None /\
      api_register_face face_distance env data w
      = (Returned (mkRegisterReply true msg (seq_students (db w) + 1)),
         mkWorld
           (update_face_encoding_path
              (fst (add_student (db w) (clock_write env) PathTemp
                      None None None))
              (PathFace (seq_students (db w) + 1)
                        (datetime_now env (clock_capture env)))
              (seq_students (db w) + 1))
           ((PathFace (seq_students (db w) + 1)
                      (datetime_now env (clock_capture env)),
             Pickled (encoding face)) :: face_data w)
           ((events w ++ [Commit]) ++ [Commit]))).
Proof.
  unfold api_register_face.
  destruct (scan_image_base64 data) as [| |image]; simpl.
  - left. eexists. split; [reflexivity|]. split; [|discriminate].
    right. split; [reflexivity | now left].
  - left. eexists. split; [reflexivity|]. split; [now left | discriminate].
  - destruct image as [|face [|face2 rest]]; simpl.
    + left. eexists. split; [reflexivity|]. split; [now left|discriminate].
    + unfold bind, read_db, read_face_data, commit_db, write_face_data,
        ret, raise. simpl.
      destruct (find_matching_student face_distance (face_data w)
                  (encoding face) (get_all_students (db w)))
        as [[existing|]|] eqn:Hfind.
      * left. eexists. split; [reflexivity|]. split; [now left|].
        intros f [= <-]. congruence.
      * right. exists face. eexists. repeat split. assumption.
      * left. eexists. split; [reflexivity|]. split.
        -- right. split; [reflexivity|]. right. exists face. now split.
        -- intros f [= <-]. congruence.
    + left. eexists. split; [reflexivity|]. split; [now left|discriminate].
Qed.


Lemma update_face_encoding_path_new (d : Database) (now : Instant)
    (path : Path) :
  (forall s, In s (students d) -> id s <= seq_students d) ->
  students
    (update_face_encoding_path
       (fst (add_student d now PathTemp None None None)) path
       (seq_students d + 1))
  = students d
    ++ [mkStudent (seq_students d + 1) None None None path now now].
Proof.
  intros Hseq. simpl. rewrite map_app. simpl. rewrite Z.eqb_refl. f_equal.
  rewrite <- (map_id (students d)) at 2. apply map_ext_in.
  intros s Hs. specialize (Hseq s Hs).
  destruct (Z.eqb_spec (id s) (seq_students d + 1)); [lia | reflexivity].
Qed.

(** X7. A face that was just registered is recognised at the next scan as
    the student the registration created, and the encoding file of that
    student holds the registered encoding.  It takes the scanned encoding
    to be within tolerance of itself, the ids in use not to exceed the
    AUTOINCREMENT counter, and no enrolled student to point at the file the
    registration writes. *)
Theorem registered_face_is_recognised :
  forall (env : Env) (data : FaceScanRequest) (w : World) (face : Face),
    scan_image_base64 data = Picture [face] ->
    find_matching_student face_distance (face_data w) (encoding face)
      (get_all_students (db w)) = Value None ->
    fle (face_distance (encoding face) (encoding face))
        FACE_RECOGNITION_TOLERANCE = true ->
    (forall s, In s (students (db w)) -> id s <= seq_students (db w)) ->
    (forall s, In s (students (db w)) ->
               face_encoding_path s
               <> face_encoding_path (registered_student (db w) env)) ->
    exists reply w',
      api_register_face face_distance env data w = (Returned reply, w') /\
      student_db_id reply = id (registered_student (db w) env) /\
      students (db w')
        = students (db w) ++ [registered_student (db w) env] /\
      load_face_encoding (face_data w')
        (face_encoding_path (registered_student (db w) env))
        = Value (Some (encoding face)) /\
      recognise face_distance w' (Picture [face])
        = Some (registered_student (db w) env).
Proof.
  intros env data w face Hpic Hfind Hself Hseq Hfresh.
  destruct (api_register_face_cases env data w)
    as [(e & _ & _ & Hmatch) | (face' & msg & Hpic' & _ & Hrun)].
  { now destruct (Hmatch face Hpic). }
  rewrite Hpic in Hpic'. injection Hpic' as <-.
  rewrite Hrun. do 2 eexists. split; [reflexivity|].
  split; [reflexivity|].
  cbn [db face_data].
  rewrite (update_face_encoding_path_new _ _ _ Hseq).
  split; [reflexivity|].
  set (new := registered_student (db w) env).
  set (files' := (_, Pickled (encoding face)) :: face_data w).
  assert (Hload : load_face_encoding files' (face_encoding_path new)
                  = Value (Some (encoding face))).
  { unfold files', new. cbn [load_face_encoding registered_student
                             face_encoding_path].
    now rewrite Path_eqb_refl. }
  split; [exact Hload|].
  assert (Holdload : forall s, In s (students (db w)) ->
                               load_face_encoding files' (face_encoding_path s)
                               = load_face_encoding (face_data w)
                                   (face_encoding_path s)).
  { intros s Hs. unfold files'.
    cbn [load_face_encoding]. rewrite Path_eqb_neq; [reflexivity|].
    intros Heq. apply (Hfresh s Hs). now rewrite <- Heq. }
  assert (Hold : forall s, In s (students (db w)) ->
                           enrolled_distance face_distance files'
                             (encoding face) s
                           = enrolled_distance face_distance (face_data w)
                               (encoding face) s).
  { intros s Hs. unfold enrolled_distance. now rewrite (Holdload s Hs). }
  pose proof (find_matching_student_spec face_distance (face_data w)
                (encoding face) (get_all_students (db w))) as Hnone.
  rewrite Hfind in Hnone.
  pose proof (find_matching_student_loads _ _ _ _ Hfind) as Hloads.
  unfold recognise. cbn [process_image_from_base64 detect_face map
                          List.length Nat.eqb get_face_encoding face_data db].
  match goal with
  | |- match find_matching_student _ _ _ (get_all_students ?d) with
       | _ => _ end = _ =>
      set (d' := d);
      assert (Hd' : students d' = students (db w) ++ [new])
        by (unfold d'; now rewrite (update_face_encoding_path_new _ _ _ Hseq))
  end.
  pose proof (find_matching_student_spec face_distance files'
                (encoding face) (get_all_students d')) as Hspec.
  destruct (find_matching_student face_distance files' (encoding face)
              (get_all_students d')) as [[s|]|].
  - destruct Hspec as (Hin & d & Hd & Htol & _).
    apply get_all_students_In in Hin. rewrite Hd' in Hin.
    apply in_app_or in Hin as [Hin|[<-|[]]]; [|reflexivity].
    exfalso. rewrite (Hold s Hin) in Hd.
    rewrite (Hnone s d) in Htol; [discriminate| |assumption].
    now apply get_all_students_In.
  - exfalso.
    assert (In new (get_all_students d')) as Hin.
    { apply get_all_students_In. rewrite Hd'. apply in_or_app.
      right. now left. }
    specialize (Hspec new (face_distance (encoding face) (encoding face))
                  Hin).
    unfold enrolled_distance in Hspec. rewrite Hload in Hspec.
    rewrite Hspec in Hself; [discriminate | reflexivity].
  - exfalso. destruct Hspec as (s & Hin & Hexn).
    apply get_all_students_In in Hin. rewrite Hd' in Hin.
    apply in_app_or in Hin as [Hin|[<-|[]]].
    + rewrite (Holdload s Hin) in Hexn.
      apply (Hloads s); [now apply get_all_students_In | assumption].
    + rewrite Hload in Hexn. discriminate.
Qed.


End RegisterFacts.

(** ** Deleting and updating a student *)

Section DeleteFacts.

Import FaceRecognitionService Models Main.

Variable face_distance : Encoding -> Encoding -> float.

Lemma load_face_encoding_removed (files : FaceData) (p q : Path) :
  load_face_encoding
    (filter (fun f => negb (Path_eqb (fst f) p)) files) q
  = if Path_eqb p q then Value None else load_face_encoding files q.
Proof.
  induction files as [|[p' e] files IH]; simpl.
  - now destruct (Path_eqb p q).
  - destruct (Path_eqb p' p) eqn:E; simpl.
    + apply Path_eqb_eq in E. subst p'. rewrite IH.
      now destruct (Path_eqb p q).
    + rewrite IH. destruct (Path_eqb p' q) eqn:E'; [|reflexivity].
      apply Path_eqb_eq in E'. subst p'.
      destruct (Path_eqb p q) eqn:E''; [|reflexivity].
      apply Path_eqb_eq in E''. subst p.
      now rewrite Path_eqb_refl in E.
Qed.

Lemma api_delete_student_run (i : Z) (w : World) :
  match get_student_by_id (db w) i with
  | None =>
      api_delete_student i w
      = (Raised (mkHTTPException 404 "Student not found"), w)
  | Some s =>
      api_delete_student i w
      = (Returned true,
         mkWorld
           (mkDatabase
              (filter (fun x => negb (id x =? i)) (students (db w)))
              (filter (fun r => negb (log_student_id r =? i))
                      (attendance_logs (db w)))
              (seq_students (db w)) (seq_attendance_logs (db w)))
           (filter (fun f => negb (Path_eqb (fst f) (face_encoding_path s)))
                   (face_data w))
           (events w ++ [Commit]))
  end.
Proof.
  unfold api_delete_student, bind, read_db, read_face_data, commit_db,
    write_face_data, ret, raise, delete_student, get_student_by_id. simpl.
  destruct (find (fun s => id s =? i) (students (db w))) eqn:E;
    [|reflexivity].
  simpl. unfold get_student_by_id in *. now rewrite ?E.
Qed.

(** X9. Deleting a student cascades.  For an id in the 64-bit range,
    [api_delete_student] answers 404 and changes nothing when no student
    has the id; otherwise the student is gone, so are all attendance logs
    of the student and the encoding file, while the other students, their
    logs and the other files are what they were. *)
Theorem api_delete_student_cascades :
  forall (i : Z) (w : World),
    - 2 ^ 63 <= i < 2 ^ 63 ->
    match get_student_by_id (db w) i with
    | None =>
        api_delete_student i w
        = (Raised (mkHTTPException 404 "Student not found"), w)
    | Some s =>
        exists w',
          api_delete_student i w = (Returned true, w') /\
          get_student_by_id (db w') i = None /\
          (forall x, In x (students (db w'))
                     <-> In x (students (db w)) /\ id x <> i) /\
          (forall r, In r (attendance_logs (db w'))
                     <-> In r (attendance_logs (db w))
                         /\ log_student_id r <> i) /\
          load_face_encoding (face_data w') (face_encoding_path s)
            = Value None /\
          (forall q, q <> face_encoding_path s ->
                     load_face_encoding (face_data w') q
                     = load_face_encoding (face_data w) q)
    end.
Proof.
  intros i w _. pose proof (api_delete_student_run i w) as Hrun.
  destruct (get_student_by_id (db w) i) as [s|]; [|exact Hrun].
  eexists. split; [exact Hrun|]. cbn [db face_data students attendance_logs].
  split; [|split; [|split; [|split]]].
  - apply find_id_none. intros x Hx. apply filter_In in Hx as [_ Hx].
    apply negb_true_iff, Z.eqb_neq in Hx. exact Hx.
  - intros x. rewrite filter_In, negb_true_iff, Z.eqb_neq. tauto.
  - intros r. rewrite filter_In, negb_true_iff, Z.eqb_neq. tauto.
  - rewrite load_face_encoding_removed. now rewrite Path_eqb_refl.
  - intros q Hq. rewrite load_face_encoding_removed.
    rewrite Path_eqb_neq; [reflexivity | congruence].
Qed.

(** X10. Once [api_delete_student] has deleted a student, no scan is
    recognised as that student any more. *)
Theorem deleted_student_is_not_recognised :
  forall (i : Z) (w w' : World) (picture : ImageData) (s : Student),
    api_delete_student i w = (Returned true, w') ->
    recognise face_distance w' picture = Some s ->
    id s <> i.
Proof.
  intros i w w' picture s Hdel Hrec.
  pose proof (api_delete_student_run i w) as Hrun.
  destruct (get_student_by_id (db w) i) as [deleted|];
    rewrite Hrun in Hdel; [|discriminate].
  injection Hdel as <-.
  unfold recognise in Hrec.
  destruct (process_image_from_base64 picture) as [[image|]|];
    try discriminate.
  destruct (Nat.eqb _ 0); [discriminate|].
  destruct (get_face_encoding image) as [e|]; [|discriminate].
  match type of Hrec with
  | match find_matching_student ?fd ?files ?u ?l with | _ => _ end = _ =>
      pose proof (find_matching_student_spec fd files u l) as Hspec;
      destruct (find_matching_student fd files u l) as [[s0|]|];
      try discriminate
  end.
  injection Hrec as ->. destruct Hspec as [Hin _].
  apply get_all_students_In in Hin. cbn [db students] in Hin.
  apply filter_In in Hin as [_ Hin].
  now apply negb_true_iff, Z.eqb_neq in Hin.
Qed.

Lemma find_id_map (f : Student -> Student) (l : list Student) (j : Z) :
  (forall x, id (f x) = id x) ->
  find (fun s => id s =? j) (map f l)
  = option_map f (find (fun s => id s =? j) l).
Proof.
  intros Hid. induction l as [|x l IH]; simpl; [reflexivity|].
  rewrite Hid. now destruct (id x =? j).
Qed.

(** X11. Updating a student.  For an id in the 64-bit range,
    [api_update_student] answers 404 and changes nothing when no student
    has the id.  Otherwise, the new student number not being taken by
    another student (the column is UNIQUE), the student is afterwards
    looked up with the new number and names, the same id, encoding file and
    creation time; every other id is looked up as before and the attendance
    logs are untouched. *)
Theorem api_update_student_then_get :
  forall (env : Env) (i : Z) (data : StudentUpdate) (w : World),
    - 2 ^ 63 <= i < 2 ^ 63 ->
    (forall x, In x (students (db w)) -> id x <> i ->
               student_id x <> Some (upd_student_id data)) ->
    match get_student_by_id (db w) i with
    | None =>
        api_update_student env i data w
        = (Raised (mkHTTPException 404 "Student not found"), w)
    | Some s =>
        exists w',
          api_update_student env i data w = (Returned true, w') /\
          get_student_by_id (db w') i = Some (updated_student env s data) /\
          (forall j, j <> i ->
                     get_student_by_id (db w') j
                     = get_student_by_id (db w) j) /\
          attendance_logs (db w') = attendance_logs (db w) /\
          face_data w' = face_data w
    end.
Proof.
  intros env i data w _ _.
  unfold api_update_student, bind, read_db, commit_db, ret, raise. simpl.
  destruct (get_student_by_id (db w) i) as [s|] eqn:Hget; [|reflexivity].
  eexists. split; [reflexivity|]. cbn [db face_data attendance_logs].
  unfold get_student_by_id in *. cbn [update_student students].
  split; [|split; [|split; reflexivity]].
  - rewrite find_id_map.
    + rewrite Hget. simpl.
      apply find_some in Hget as [_ Hid]. now rewrite Hid.
    + intros x. now destruct (id x =? i).
  - intros j Hj. rewrite find_id_map.
    + destruct (find (fun s0 => id s0 =? j) (students (db w))) as [x|] eqn:Hx;
        [|reflexivity].
      simpl. apply find_some in Hx as [_ Hid]. apply Z.eqb_eq in Hid.
      destruct (Z.eqb_spec (id x) i); [congruence | reflexivity].
    + intros x. now destruct (id x =? i).
Qed.

Lemma api_check_attendance_students (env : Env) (data : AttendanceRequest)
    (w : World) :
  students (db (snd (api_check_attendance face_distance env data w)))
  = students (db w) /\
  seq_students (db (snd (api_check_attendance face_distance env data w)))
  = seq_students (db w) /\
  face_data (snd (api_check_attendance face_distance env data w))
  = face_data w.
Proof.
  destruct (api_check_attendance_cases face_distance env data w)
    as [[_ [e ->]] | (s & Hs & Hcase)]; [now repeat split|].
  destruct (get_active_checkin _ _ _ _);
    destruct (option_string_eqb _ _); rewrite Hcase; now repeat split.
Qed.

Lemma NoDup_map_filter (l : list Student) (p : Student -> bool) :
  NoDup (map id l) -> NoDup (map id (filter p l)).
Proof.
  induction l as [|x l IH]; simpl; [constructor|].
  intros Hnd. inversion Hnd as [|? ? Hnot Hnd']; subst.
  destruct (p x); simpl; [|now apply IH].
  constructor; [|now apply IH].
  intros Hin. apply Hnot. apply in_map_iff in Hin as (y & Hy & Hin).
  apply filter_In in Hin as [Hin _]. apply in_map_iff. eauto.
Qed.

(** X12. Student ids stay distinct and within the AUTOINCREMENT counter
    under every request: a check-in or check-out, a registration, an
    update, a deletion. *)
Theorem students_ok_preserved :
  forall (r : Request) (w : World),
    students_ok (db w) ->
    students_ok (db (serve face_distance r w)).
Proof.
  intros r w [Hnd Hseq]. destruct r as [env data|env data|env i data|i];
    cbn [serve].
  - destruct (api_check_attendance_students env data w) as (Hs & Hq & _).
    unfold students_ok. rewrite Hs, Hq. now split.
  - destruct (api_register_face_cases face_distance env data w)
      as [(e & -> & _) | (face & msg & _ & _ & ->)]; [now split|].
    unfold students_ok. cbn [snd db].
    rewrite (update_face_encoding_path_new _ _ _ Hseq).
    cbn [seq_students update_face_encoding_path add_student fst]. split.
    + rewrite map_app. simpl. apply NoDup_app; [assumption| |].
      * constructor; [intros []|constructor].
      * intros x Hx [<-|[]]. apply in_map_iff in Hx as (s & Hs & Hin).
        specialize (Hseq s Hin). lia.
    + intros s Hin. apply in_app_or in Hin as [Hin|[<-|[]]]; simpl.
      * specialize (Hseq s Hin). lia.
      * lia.
  - unfold api_update_student, bind, read_db, commit_db, ret, raise. simpl.
    destruct (get_student_by_id (db w) i); [|now split].
    unfold students_ok. cbn [snd db update_student students seq_students].
    split.
    + rewrite map_map. erewrite map_ext; [exact Hnd|].
      intros x. simpl. now destruct (id x =? i).
    + intros y Hin. apply in_map_iff in Hin as (x & <- & Hin).
      specialize (Hseq x Hin). now destruct (id x =? i).
  - pose proof (api_delete_student_run i w) as Hrun.
    destruct (get_student_by_id (db w) i); rewrite Hrun; [|now split].
    unfold students_ok. cbn [snd db students seq_students]. split.
    + now apply NoDup_map_filter.
    + intros y Hin. apply filter_In in Hin as [Hin _]. now apply Hseq.
Qed.

End DeleteFacts.

(** ** The session tracker, further *)

Section TrackerMore.

Import FaceRecognitionService Models Main.

Variable face_distance : Encoding -> Encoding -> float.

Lemma session_state_after_check_in (d : Database) (write : Instant)
    (sid : Z) (cls : string) (pic : option Path) :
  session_state (fst (add_attendance_log d write sid (Some cls) pic))
    sid cls (DATE (get_thai_time write)) = Entered.
Proof.
  apply session_state_entered. cbn [fst add_attendance_log attendance_logs].
  rewrite existsb_app. apply orb_true_iff. right. simpl.
  unfold active_checkin_where. simpl.
  now rewrite !Z.eqb_refl, String.eqb_refl.
Qed.

(** X13. The first row of the transition table.  A key with no session on
    the day of the request accepts an enter request: one row is appended,
    for the student and class, stamped with the Thai time of the request,
    open and in status 'checked_in'; the key is in state Entered on the day
    of the stamp; students and encoding files are untouched. *)
Theorem enter_without_session_opens_one :
  forall (env : Env) (data : AttendanceRequest) (w : World) (s : Student)
         (cls : string),
    recognise face_distance w (image_base64 data) = Some s ->
    req_class_name data = Some cls ->
    req_scan_type data <> Some "check_out"%string ->
    session_state (db w) (id s) cls (get_thai_date (clock_lookup env))
      = NoSession ->
    exists w',
      api_check_attendance face_distance env data w
        = (Returned (reply_of env s data "เช็คเข้าสำเร็จ!" "check_in"), w') /\
      attendance_logs (db w')
        = attendance_logs (db w)
          ++ [mkLog (seq_attendance_logs (db w) + 1) (id s) (Some cls)
                    (get_thai_time (clock_write env)) None
                    (Some (capture_path env s data)) "checked_in"] /\
      session_state (db w') (id s) cls
        (DATE (get_thai_time (clock_write env))) = Entered /\
      students (db w') = students (db w) /\
      face_data w' = face_data w.
Proof.
  intros env data w s cls Hs Hc Hst Hstate.
  assert (get_active_checkin (db w) (clock_lookup env) (id s)
            (req_class_name data) = None) as Hnone.
  { rewrite Hc. apply not_entered_no_active. rewrite Hstate. discriminate. }
  rewrite (api_check_in_accepted face_distance env data w s Hs Hst Hnone).
  eexists. split; [reflexivity|]. cbn [db face_data]. rewrite Hc.
  split; [reflexivity|].
  split; [apply session_state_after_check_in|]. now split.
Qed.

(** X14. A request whose class name is a JSON null never finds an open
    session, since no stored class equals NULL in SQL: its exit is always
    rejected, and its enter is always accepted and appends a row, however
    many open rows with a null class the student already has. *)
Theorem null_class_never_finds_a_session :
  forall (env : Env) (data : AttendanceRequest) (w : World) (s : Student),
    recognise face_distance w (image_base64 data) = Some s ->
    req_class_name data = None ->
    (req_scan_type data = Some "check_out"%string ->
     exists w',
       api_check_attendance face_distance env data w
         = (Raised NoOpenEntry, w') /\
       db w' = db w) /\
    (req_scan_type data <> Some "check_out"%string ->
     exists w',
       api_check_attendance face_distance env data w
         = (Returned (reply_of env s data "เช็คเข้าสำเร็จ!" "check_in"), w') /\
       attendance_logs (db w')
         = attendance_logs (db w) ++ [checked_in_row (db w) env s data]).
Proof.
  intros env data w s Hs Hc.
  pose proof (get_active_checkin_null_class (db w) (clock_lookup env) (id s))
    as Hnone.
  rewrite <- Hc in Hnone. split; intros Hst.
  - rewrite (api_check_out_rejected face_distance env data w s Hs Hst Hnone).
    eexists. split; reflexivity.
  - rewrite (api_check_in_accepted face_distance env data w s Hs Hst Hnone).
    eexists. split; reflexivity.
Qed.

(** X15. The picture of a recognised scan is written before the session
    is looked at: when the request is then rejected, for a duplicate entry
    or for an exit with nothing open, the capture file is the one thing it
    leaves behind; the database and the encoding files are as they
    were. *)
Theorem rejected_scan_leaves_only_its_picture :
  forall (env : Env) (data : AttendanceRequest) (w w' : World) (s : Student)
         (e : HTTPException),
    recognise face_distance w (image_base64 data) = Some s ->
    api_check_attendance face_distance env data w = (Raised e, w') ->
    (e = DuplicateEntry \/ e = NoOpenEntry) /\
    w' = mkWorld (db w) (face_data w)
           (events w ++ [Imwrite (capture_path env s data)]).
Proof.
  intros env data w w' s e Hs Hrun.
  destruct (get_active_checkin (db w) (clock_lookup env) (id s)
              (req_class_name data)) as [r|] eqn:Ha;
    destruct (check_out_or_not (req_scan_type data)) as [Hst|Hst].
  - rewrite (api_check_out_accepted face_distance env data w s r Hs Hst Ha)
      in Hrun. discriminate.
  - rewrite (api_check_in_rejected face_distance env data w s r Hs Hst Ha)
      in Hrun. injection Hrun as <- <-. auto.
  - rewrite (api_check_out_rejected face_distance env data w s Hs Hst Ha)
      in Hrun. injection Hrun as <- <-. auto.
  - rewrite (api_check_in_accepted face_distance env data w s Hs Hst Ha)
      in Hrun. discriminate.
Qed.

(** X16. A scan that resolves to nobody changes nothing, not even a
    capture file.  The request is answered 500 when decoding the data
    raises, 400 when the data is no picture, 400 when the picture shows no
    face, and, for the first face of the picture, 500 when the matcher
    meets an encoding file that does not unpickle and 404 when no enrolled
    student is within tolerance. *)
Theorem unrecognised_scan_changes_nothing :
  forall (env : Env) (data : AttendanceRequest) (w : World),
    recognise face_distance w (image_base64 data) = None ->
    exists e,
      api_check_attendance face_distance env data w = (Raised e, w) /\
      match image_base64 data with
      | Malformed => e = InternalServerError
      | NotAPicture => e = mkHTTPException 400 "Invalid image data"
      | Picture [] => e = NoFaceFound
      | Picture (face :: _) =>
          match find_matching_student face_distance (face_data w)
                  (encoding face) (get_all_students (db w)) with
          | Exception => e = InternalServerError
          | _ => e = IdentityNotFound
          end
      end.
Proof.
  intros env data w. unfold recognise, api_check_attendance.
  destruct (image_base64 data) as [| |[|face others]]; simpl;
    try (intros _; eexists; split; reflexivity).
  unfold bind, read_db, read_face_data. simpl.
  destruct (find_matching_student face_distance (face_data w)
              (encoding face) (get_all_students (db w))) as [[s|]|];
    [discriminate| |]; intros _; eexists; split; reflexivity.
Qed.

Lemma filter_nil_of_false {A : Type} (p : A -> bool) (l : list A) :
  (forall x, In x l -> p x = false) -> filter p l = [].
Proof.
  induction l as [|a l IH]; simpl; intros H; [reflexivity|].
  rewrite (H a) by now left. apply IH. intros x Hx. apply H. now right.
Qed.

(** In state NoSession no row of the table belongs to the key. *)
Lemma no_session_no_rows (d : Database) (sid : Z) (cls : string) (day : Z)
    (r : AttendanceLog) :
  session_state d sid cls day = NoSession ->
  In r (attendance_logs d) ->
  (log_student_id r =? sid)
  && sql_text_eq (class_name r) (Some cls)
  && (DATE (check_in_time r) =? day) = false.
Proof.
  unfold session_state. intros Hstate Hin.
  destruct (existsb (active_checkin_where sid (Some cls) day)
                    (attendance_logs d)) eqn:Ea; [discriminate|].
  destruct (existsb (closed_session_b sid cls day) (attendance_logs d))
    eqn:Ec; [discriminate|].
  destruct (_ && _ && _) eqn:Ek; [|reflexivity]. exfalso.
  destruct (check_out_time r) as [t|] eqn:Eo.
  - assert (existsb (closed_session_b sid cls day) (attendance_logs d)
            = true); [|congruence].
    apply existsb_exists. exists r. split; [assumption|].
    unfold closed_session_b. now rewrite Ek, Eo.
  - assert (existsb (active_checkin_where sid (Some cls) day)
                    (attendance_logs d) = true); [|congruence].
    apply existsb_exists. exists r. split; [assumption|].
    unfold active_checkin_where. now rewrite Ek, Eo.
Qed.

(** X17. Enter, then exit.  From a key with no session on the day, an
    enter request and a later exit request of the same student and class
    on that civil day are both accepted, and the day then holds exactly one
    session of the key: the row the enter created, now checked out, with
    the exit time not before the entry time; the key is in state
    Exited. *)
Theorem enter_then_exit_leaves_one_exited_session :
  forall (env1 env2 : Env) (data1 data2 : AttendanceRequest) (w : World)
         (s : Student) (cls : string),
    recognise face_distance w (image_base64 data1) = Some s ->
    recognise face_distance w (image_base64 data2) = Some s ->
    req_class_name data1 = Some cls ->
    req_class_name data2 = Some cls ->
    req_scan_type data1 <> Some "check_out"%string ->
    req_scan_type data2 = Some "check_out"%string ->
    session_state (db w) (id s) cls (get_thai_date (clock_lookup env1))
      = NoSession ->
    DATE (get_thai_time (clock_write env1))
      = get_thai_date (clock_lookup env1) ->
    get_thai_date (clock_lookup env2) = get_thai_date (clock_lookup env1) ->
    clock_write env1 <= clock_write env2 ->
    exists w1 w2,
      api_check_attendance face_distance env1 data1 w
        = (Returned (reply_of env1 s data1 "เช็คเข้าสำเร็จ!" "check_in"), w1) /\
      api_check_attendance face_distance env2 data2 w1
        = (Returned (reply_of env2 s data2 "เช็คออกสำเร็จ!" "check_out"), w2) /\
      sessions_of (db w2) (id s) cls (get_thai_date (clock_lookup env1))
        = [mkLog (seq_attendance_logs (db w) + 1) (id s) (Some cls)
                 (get_thai_time (clock_write env1))
                 (Some (get_thai_time (clock_write env2)))
                 (Some (capture_path env2 s data2)) "checked_out"] /\
      session_state (db w2) (id s) cls (get_thai_date (clock_lookup env1))
        = Exited /\
      get_thai_time (clock_write env1) <= get_thai_time (clock_write env2).
Proof.
  intros env1 env2 data1 data2 w s cls Hs1 Hs2 Hc1 Hc2 Hst1 Hst2 Hstate
    Hday1 Hday2 Hle.
  set (day := get_thai_date (clock_lookup env1)) in *.
  pose proof (fun r => no_session_no_rows (db w) (id s) cls day r Hstate)
    as Hrows.
  assert (get_active_checkin (db w) (clock_lookup env1) (id s)
            (req_class_name data1) = None) as Hnone1.
  { rewrite Hc1. apply not_entered_no_active. fold day. rewrite Hstate.
    discriminate. }
  pose proof (api_check_in_accepted face_distance env1 data1 w s Hs1 Hst1
                Hnone1) as Hrun1.
  set (w1 := snd (api_check_attendance face_distance env1 data1 w)).
  set (new := mkLog (seq_attendance_logs (db w) + 1) (id s) (Some cls)
                    (get_thai_time (clock_write env1)) None
                    (Some (capture_path env1 s data1)) "checked_in").
  assert (Hw1 : attendance_logs (db w1) = attendance_logs (db w) ++ [new]).
  { unfold w1, new. rewrite Hrun1. cbn [snd db add_attendance_log fst
                                        attendance_logs]. now rewrite Hc1. }
  assert (Hrec : recognise face_distance w1 (image_base64 data2) = Some s).
  { unfold w1. now rewrite recognise_after_check_in. }
  assert (Hold : forall r, In r (attendance_logs (db w)) ->
                           active_checkin_where (id s) (Some cls) day r
                           = false).
  { intros r Hr. unfold active_checkin_where. now rewrite (Hrows r Hr). }
  assert (Hactive : get_active_checkin (db w1) (clock_lookup env2) (id s)
                      (req_class_name data2) = Some new).
  { unfold get_active_checkin. rewrite Hc2, Hday2, Hw1, filter_app.
    fold day. rewrite (filter_nil_of_false _ _ Hold). simpl.
    unfold active_checkin_where. simpl. rewrite Hday1.
    now rewrite !Z.eqb_refl, String.eqb_refl. }
  pose proof (api_check_out_accepted face_distance env2 data2 w1 s new Hrec
                Hst2 Hactive) as Hrun2.
  exists w1. eexists.
  split; [unfold w1; rewrite Hrun1; reflexivity|].
  split; [exact Hrun2|].
  clearbody w1. clear Hrun2. cbn [db].
  assert (Hkey : forall r, In r (attendance_logs (db w)) ->
            forall r', r' = (if log_id r =? log_id new
                             then mkLog (log_id r) (log_student_id r)
                                    (class_name r) (check_in_time r)
                                    (Some (get_thai_time (clock_write env2)))
                                    (Some (capture_path env2 s data2))
                                    "checked_out"
                             else r) ->
            (log_student_id r' =? id s)
            && sql_text_eq (class_name r') (Some cls)
            && (DATE (check_in_time r') =? day) = false).
  { intros r Hr r' ->. rewrite <- (Hrows r Hr).
    now destruct (log_id r =? log_id new). }
  split; [|split].
  - unfold sessions_of. cbn [update_checkout_time attendance_logs].
    rewrite Hw1, map_app, filter_app.
    rewrite filter_nil_of_false.
    + simpl. rewrite Z.eqb_refl. simpl. rewrite Hday1.
      now rewrite !Z.eqb_refl, String.eqb_refl.
    + intros r' Hin. apply in_map_iff in Hin as (r & Heq & Hr).
      now apply (Hkey r Hr).
  - unfold session_state. cbn [update_checkout_time attendance_logs].
    rewrite Hw1, map_app, !existsb_app.
    assert (forall p, existsb
              (fun r => (log_student_id r =? id s)
                        && sql_text_eq (class_name r) (Some cls)
                        && (DATE (check_in_time r) =? day) && p r)
              (map (fun r =>
                      if log_id r =? log_id new
                      then mkLog (log_id r) (log_student_id r)
                             (class_name r) (check_in_time r)
                             (Some (get_thai_time (clock_write env2)))
                             (Some (capture_path env2 s data2))
                             "checked_out"
                      else r) (attendance_logs (db w))) = false) as Hnone.
    { intros p. destruct (existsb _ _) eqn:E; [|reflexivity].
      apply existsb_exists in E as (r' & Hin & Hp).
      apply in_map_iff in Hin as (r & Heq & Hr).
      rewrite (Hkey r Hr r') in Hp; [discriminate | now symmetry]. }
    unfold active_checkin_where, closed_session_b.
    rewrite (Hnone (fun r => is_null (check_out_time r))).
    rewrite (Hnone (fun r => negb (is_null (check_out_time r)))).
    simpl. rewrite Z.eqb_refl. simpl. rewrite Hday1.
    now rewrite !Z.eqb_refl, String.eqb_refl.
  - unfold get_thai_time. lia.
Qed.

(** X18. In every world the server reaches from an empty log table under
    a clock that does not run backwards, the log ids are distinct and
    within the AUTOINCREMENT counter, a row is in status 'checked_in'
    exactly when it has no check-out time and in status 'checked_out'
    otherwise, no check-out time is before its check-in time, and no
    check-in time is later than the clock. *)
Theorem reachable_logs_are_well_formed :
  forall (T : Instant) (w : World),
    reachable face_distance T w ->
    NoDup (map log_id (attendance_logs (db w))) /\
    forall r,
      In r (attendance_logs (db w)) ->
      log_id r <= seq_attendance_logs (db w) /\
      check_in_time r <= get_thai_time T /\
      (check_out_time r = None <-> status r = "checked_in"%string) /\
      (check_out_time r <> None <-> status r = "checked_out"%string) /\
      forall t, check_out_time r = Some t -> check_in_time r <= t.
Proof.
  intros T w Hreach.
  pose proof (reachable_invariant face_distance T w Hreach)
    as [H1 H2 H3 H4 H5].
  split; [exact H3|]. intros r Hin.
  split; [now apply H2|]. split; [now apply H1|].
  specialize (H4 r Hin).
  destruct (check_out_time r) as [t|].
  - destruct H4 as [Hle Hst]. rewrite Hst.
    repeat split; try discriminate; try congruence.
  - rewrite H4. repeat split; try discriminate; try congruence.
Qed.

(** X19. What is stored does not depend on the time zone of the host.  On
    a host with any other UTC offset the same request at the same instants
    is accepted or rejected alike (with the same exception), and the log
    table it leaves is the same row for row, time stamps included, but for
    the names of the captured pictures. *)
Theorem stored_times_do_not_depend_on_host_zone :
  forall (env : Env) (offset : Z) (data : AttendanceRequest) (w : World),
    map without_picture
      (attendance_logs
         (db (snd (api_check_attendance face_distance env data w))))
    = map without_picture
        (attendance_logs
           (db (snd (api_check_attendance face_distance
                       (with_host_utc_offset env offset) data w)))) /\
    match fst (api_check_attendance face_distance env data w),
          fst (api_check_attendance face_distance
                 (with_host_utc_offset env offset) data w) with
    | Raised e, Raised e' => e = e'
    | Returned r, Returned r' =>
        reply_scan_type r = reply_scan_type r' /\
        reply_student r = reply_student r'
    | _, _ => False
    end.
Proof.
  intros env offset data w.
  set (env' := with_host_utc_offset env offset).
  destruct (recognise face_distance w (image_base64 data)) as [s|] eqn:Hs.
  - destruct (get_active_checkin (db w) (clock_lookup env) (id s)
                (req_class_name data)) as [r|] eqn:Ha;
      destruct (check_out_or_not (req_scan_type data)) as [Hst|Hst].
    + rewrite (api_check_out_accepted face_distance env data w s r Hs Hst Ha).
      rewrite (api_check_out_accepted face_distance env' data w s r Hs Hst Ha).
      split; [|now split]. cbn [snd db update_checkout_time attendance_logs].
      rewrite !map_map. apply map_ext. intros x.
      now destruct (log_id x =? log_id r).
    + rewrite (api_check_in_rejected face_distance env data w s r Hs Hst Ha).
      rewrite (api_check_in_rejected face_distance env' data w s r Hs Hst Ha).
      now split.
    + rewrite (api_check_out_rejected face_distance env data w s Hs Hst Ha).
      rewrite (api_check_out_rejected face_distance env' data w s Hs Hst Ha).
      now split.
    + rewrite (api_check_in_accepted face_distance env data w s Hs Hst Ha).
      rewrite (api_check_in_accepted face_distance env' data w s Hs Hst Ha).
      split; [|now split]. cbn [snd db add_attendance_log fst attendance_logs].
      now rewrite !map_app.
  - destruct (api_check_attendance_unrecognised face_distance env data w Hs)
      as [e He].
    assert (api_check_attendance face_distance env' data w = (Raised e, w))
      as He'.
    { rewrite <- He. unfold api_check_attendance, recognise in *.
      destruct (process_image_from_base64 _) as [[image|]|];
        [|reflexivity|reflexivity].
      destruct (Nat.eqb _ 0); [reflexivity|].
      destruct (get_face_encoding image) as [enc|]; [|reflexivity].
      unfold bind, read_db, read_face_data. simpl.
      destruct (find_matching_student _ _ _ _) as [[s|]|];
        [discriminate| |]; reflexivity. }
    rewrite He, He'. now split.
Qed.

End TrackerMore.

(** ** The listings *)

Section ListingFacts.

Import Models.

Lemma insert_check_in_time_desc_perm (v : LogView) (l : list LogView) :
  Permutation (insert_check_in_time_desc v l) (v :: l).
Proof.
  induction l as [|x l IH]; simpl; [reflexivity|].
  destruct (view_check_in_time x <? view_check_in_time v); [reflexivity|].
  rewrite IH. apply perm_swap.
Qed.

Lemma insert_check_in_time_desc_sorted (v : LogView) (l : list LogView) :
  latest_first l -> latest_first (insert_check_in_time_desc v l).
Proof.
  unfold latest_first. induction 1 as [|x l Hl IH Hx]; simpl.
  - repeat constructor.
  - destruct (view_check_in_time x <? view_check_in_time v) eqn:E.
    + apply Z.ltb_lt in E. constructor; [now constructor|].
      constructor; [lia|].
      rewrite Forall_forall in *. intros y Hy. specialize (Hx y Hy). lia.
    + apply Z.ltb_ge in E. constructor; [assumption|].
      rewrite Forall_forall in *. intros y Hy.
      apply (Permutation_in _ (insert_check_in_time_desc_perm v l)) in Hy.
      destruct Hy as [<-|Hy]; [lia | now apply Hx].
Qed.

Lemma order_by_fold (l acc : list LogView) :
  latest_first acc ->
  latest_first
    (fold_left (fun sorted v => insert_check_in_time_desc v sorted) l acc) /\
  Permutation
    (fold_left (fun sorted v => insert_check_in_time_desc v sorted) l acc)
    (l ++ acc).
Proof.
  revert acc. induction l as [|v l IH]; intros acc Hacc; simpl.
  - split; [assumption | reflexivity].
  - destruct (IH (insert_check_in_time_desc v acc)
                 (insert_check_in_time_desc_sorted v acc Hacc)) as [Hs Hp].
    split; [assumption|].
    rewrite Hp, insert_check_in_time_desc_perm.
    apply Permutation_sym, Permutation_middle.
Qed.

Lemma order_by_check_in_time_desc_sorted (rows : list LogView) :
  latest_first (order_by_check_in_time_desc rows).
Proof.
  unfold order_by_check_in_time_desc.
  now destruct (order_by_fold rows []) as [Hs _]; [constructor|].
Qed.

Lemma order_by_check_in_time_desc_In (rows : list LogView) (v : LogView) :
  In v (order_by_check_in_time_desc rows) <-> In v rows.
Proof.
  unfold order_by_check_in_time_desc.
  destruct (order_by_fold rows []) as [_ Hp]; [constructor|].
  rewrite app_nil_r in Hp. split; intros H.
  - now apply Permutation_in with (1 := Hp).
  - now apply Permutation_in with (1 := Permutation_sym Hp).
Qed.

Lemma order_by_check_in_time_desc_length (rows : list LogView) :
  List.length (order_by_check_in_time_desc rows) = List.length rows.
Proof.
  unfold order_by_check_in_time_desc.
  destruct (order_by_fold rows []) as [_ Hp]; [constructor|].
  rewrite app_nil_r in Hp. now apply Permutation_length.
Qed.

Lemma In_firstn {A : Type} (n : nat) (l : list A) (y : A) :
  In y (firstn n l) -> In y l.
Proof.
  revert l. induction n as [|n IH]; intros [|x l]; simpl; try tauto.
  intros [->|H]; [now left | right; now apply IH].
Qed.

Lemma latest_first_firstn (n : nat) (rows : list LogView) :
  latest_first rows -> latest_first (firstn n rows).
Proof.
  unfold latest_first. revert rows.
  induction n as [|n IH]; intros rows H; simpl; [constructor|].
  destruct rows as [|x rows]; [constructor|].
  inversion H as [|? ? Hs Hx]; subst. constructor; [now apply IH|].
  rewrite Forall_forall in *. intros y Hy. apply Hx.
  now apply (In_firstn n rows).
Qed.

Lemma truthy_sql_text_eq (column cls : option string) :
  truthy cls = true ->
  sql_text_eq column cls = true <-> column = cls.
Proof.
  destruct cls as [c|]; [|discriminate]. intros _.
  destruct column as [a|]; simpl; [|split; discriminate].
  rewrite String.eqb_eq. split; congruence.
Qed.

Lemma get_today_attendance_In (d : Database) (now : Instant)
    (cls : option string) (v : LogView) :
  In v (get_today_attendance d now cls) <->
  exists al,
    In al (attendance_logs d) /\
    DATE (check_in_time al) = get_thai_date now /\
    (truthy cls = true -> class_name al = cls) /\
    In v (left_join_students (students d) al).
Proof.
  unfold get_today_attendance.
  destruct (truthy cls) eqn:Ht;
    rewrite order_by_check_in_time_desc_In, in_flat_map; split.
  - intros (al & Hal & Hv). apply filter_In in Hal as [Hin Hal].
    apply andb_true_iff in Hal as [Hday Hcls].
    apply Z.eqb_eq in Hday. apply (truthy_sql_text_eq _ _ Ht) in Hcls.
    exists al. auto.
  - intros (al & Hin & Hday & Hcls & Hv). exists al. split; [|assumption].
    apply filter_In. split; [assumption|].
    apply andb_true_iff. split; [now apply Z.eqb_eq|].
    apply (truthy_sql_text_eq _ _ Ht). auto.
  - intros (al & Hal & Hv). apply filter_In in Hal as [Hin Hday].
    apply Z.eqb_eq in Hday. exists al. repeat split; auto. discriminate.
  - intros (al & Hin & Hday & _ & Hv). exists al. split; [|assumption].
    apply filter_In. split; [assumption | now apply Z.eqb_eq].
Qed.

(** X20. [get_today_attendance] lists, latest check-in first, the joined
    rows of exactly the logs checked in on the Thai day of the clock; when
    a class name is given (a non-empty text), of those of that class
    only. *)
Theorem get_today_attendance_lists_today :
  forall (d : Database) (now : Instant) (cls : option string),
    latest_first (get_today_attendance d now cls) /\
    forall v,
      In v (get_today_attendance d now cls) <->
      exists al,
        In al (attendance_logs d) /\
        DATE (check_in_time al) = get_thai_date now /\
        (truthy cls = true -> class_name al = cls) /\
        In v (left_join_students (students d) al).
Proof.
  intros d now cls. split.
  - unfold get_today_attendance.
    destruct (truthy cls); apply order_by_check_in_time_desc_sorted.
  - intros v. apply get_today_attendance_In.
Qed.

(** X21. For a limit in the 64-bit range, [get_attendance_logs] returns
    the first [limit] rows of the full listing (all of it when the limit is
    negative), latest check-in first, so at most [limit] of them; the full
    listing holds the joined rows of exactly the logs of the given day, of
    all logs when no date is given, and nothing when the text given is no
    date. *)
Theorem get_attendance_logs_limit_and_filter :
  forall (d : Database) (limit : Z) (date_filter : DateFilter),
    - 2 ^ 63 <= limit < 2 ^ 63 ->
    get_attendance_logs d limit date_filter
      = sql_limit limit (get_attendance_logs d (-1) date_filter) /\
    latest_first (get_attendance_logs d limit date_filter) /\
    (0 <= limit ->
     (List.length (get_attendance_logs d limit date_filter)
      <= Z.to_nat limit)%nat) /\
    forall v,
      In v (get_attendance_logs d (-1) date_filter) <->
      exists al,
        In al (attendance_logs d) /\
        match date_filter with
        | NoDateFilter => True
        | DateOf day => DATE (check_in_time al) = day
        | NotADate => False
        end /\
        In v (left_join_students (students d) al).
Proof.
  intros d limit date_filter _.
  assert (Hsorted : forall rows : list LogView,
             latest_first rows -> latest_first (sql_limit limit rows)).
  { intros rows H. unfold sql_limit. destruct (limit <? 0); [assumption|].
    now apply latest_first_firstn. }
  assert (Hlen : forall rows : list LogView,
             0 <= limit ->
             (List.length (sql_limit limit rows) <= Z.to_nat limit)%nat).
  { intros rows H. unfold sql_limit.
    destruct (Z.ltb_spec limit 0); [lia|]. apply firstn_le_length. }
  destruct date_filter as [|day|]; unfold get_attendance_logs;
    change (sql_limit (-1) ?l) with l.
  - split; [reflexivity|].
    split; [apply Hsorted, order_by_check_in_time_desc_sorted|].
    split; [apply Hlen|]. intros v.
    rewrite order_by_check_in_time_desc_In, in_flat_map. split.
    + intros (al & Hal & Hv). exists al. auto.
    + intros (al & Hin & _ & Hv). exists al. auto.
  - split; [reflexivity|].
    split; [apply Hsorted, order_by_check_in_time_desc_sorted|].
    split; [apply Hlen|]. intros v.
    rewrite order_by_check_in_time_desc_In, in_flat_map. split.
    + intros (al & Hal & Hv). apply filter_In in Hal as [Hin Hday].
      apply Z.eqb_eq in Hday. exists al. auto.
    + intros (al & Hin & Hday & Hv). exists al. split; [|assumption].
      apply filter_In. split; [assumption | now apply Z.eqb_eq].
  - split; [reflexivity|]. split; [apply Hsorted; constructor|].
    split; [apply Hlen|]. intros v. split; [intros []|].
    now intros (al & _ & [] & _).
Qed.

Lemma filter_id_find (table : list Student) (k : Z) :
  NoDup (map id table) ->
  filter (fun s => id s =? k) table
  = match find (fun s => id s =? k) table with
    | Some st => [st]
    | None => []
    end.
Proof.
  induction table as [|x l IH]; simpl; [reflexivity|].
  intros Hnd. inversion Hnd as [|? ? Hnot Hnd']; subst.
  destruct (Z.eqb_spec (id x) k) as [E|E]; [|now apply IH].
  rewrite filter_nil_of_false; [reflexivity|].
  intros y Hy. apply Z.eqb_neq. intros Hyk. apply Hnot.
  rewrite E, <- Hyk. now apply in_map.
Qed.

(** X22. With distinct student ids the join puts exactly one row into a
    listing for each log: it carries the log's columns and the number and
    names of the student the log belongs to, or nulls in their place when
    that student is not in the table. *)
Theorem left_join_students_one_row_per_log :
  forall (table : list Student) (al : AttendanceLog),
    NoDup (map id table) ->
    left_join_students table al
    = [mkLogView (log_id al) (class_name al) (check_in_time al)
                 (check_out_time al) (face_image_path al) (status al)
                 (match find (fun s => id s =? log_student_id al) table with
                  | Some st => student_id st
                  | None => None
                  end)
                 (match find (fun s => id s =? log_student_id al) table with
                  | Some st => first_name st
                  | None => None
                  end)
                 (match find (fun s => id s =? log_student_id al) table with
                  | Some st => last_name st
                  | None => None
                  end)].
Proof.
  intros table al Hnd. unfold left_join_students.
  rewrite (filter_id_find table (log_student_id al) Hnd).
  now destruct (find (fun s => id s =? log_student_id al) table).
Qed.

Lemma left_join_students_inhabited (table : list Student)
    (al : AttendanceLog) :
  exists v,
    In v (left_join_students table al) /\
    view_id v = log_id al /\
    view_class_name v = class_name al /\
    view_check_in_time v = check_in_time al /\
    view_check_out_time v = check_out_time al /\
    view_status v = status al.
Proof.
  unfold left_join_students.
  destruct (filter (fun s => id s =? log_student_id al) table) as [|st l].
  - eexists. split; [now left|]. now repeat split.
  - eexists. split; [now left|]. now repeat split.
Qed.

Section ListingAfterCheckIn.

Import Main.

Variable face_distance : Encoding -> Encoding -> float.

(** X24. An accepted check-in shows in today's listing: asked on the Thai
    day of the stamp for the class of the request, [get_today_attendance]
    lists a row with the id of the new log, its Thai check-in time, no
    check-out time and status 'checked_in'. *)
Theorem check_in_shows_in_todays_listing :
  forall (env : Env) (data : AttendanceRequest) (w w' : World)
         (reply : AttendanceReply) (now : Instant),
    api_check_attendance face_distance env data w = (Returned reply, w') ->
    req_scan_type data <> Some "check_out"%string ->
    get_thai_date now = DATE (get_thai_time (clock_write env)) ->
    exists v,
      In v (get_today_attendance (db w') now (req_class_name data)) /\
      view_id v = seq_attendance_logs (db w) + 1 /\
      view_class_name v = req_class_name data /\
      view_check_in_time v = get_thai_time (clock_write env) /\
      view_check_out_time v = None /\
      view_status v = "checked_in"%string.
Proof.
  intros env data w w' reply now Hrun Hst Hday.
  apply api_check_attendance_returned in Hrun
    as (s & Hs & [(_ & Ha & -> & ->) | (r & Hout & _)]); [|contradiction].
  cbn [db].
  set (d' := fst (add_attendance_log (db w) (clock_write env) (id s)
                    (req_class_name data)
                    (Some (capture_path env s data)))).
  destruct (left_join_students_inhabited (students d')
              (checked_in_row (db w) env s data))
    as (v & Hv & Hid & Hcls & Hin & Hout & Hstatus).
  exists v. split; [|now repeat split].
  apply get_today_attendance_In.
  exists (checked_in_row (db w) env s data).
  split; [unfold d'; simpl; apply in_or_app; right; now left|].
  split; [now rewrite Hday|]. split; [reflexivity | exact Hv].
Qed.

End ListingAfterCheckIn.

End ListingFacts.

(** ** The notifier *)

Section NotifierFacts.

Local Open Scope string_scope.

(** X23. [send_attendance_log] answers [True] exactly when a webhook URL
    is configured and the webhook responds 204.  With no URL configured it
    posts nothing; otherwise it posts one embed, orange for a check-out
    and green for anything else, with the class, the student number (or a
    placeholder) and the local time of the host.  The database and the
    encoding files are never touched, and no failure of the call is passed
    on. *)
Theorem send_attendance_log_reports_delivery :
  forall (env : Env) (sid fn ln cls : option string) (scan_type : string)
         (pic : option Path) (w : World),
    exists sent posted,
      DiscordService.send_attendance_log env sid fn ln cls scan_type pic w
      = (Returned sent,
         mkWorld (db w) (face_data w) (events w ++ posted)%list) /\
      (sent = true <->
       webhook_configured env = true /\ post_result env = Responded 204) /\
      (webhook_configured env = false -> posted = []) /\
      (webhook_configured env = true ->
       exists payload,
         posted = [Post payload] /\
         color payload
         = (if String.eqb scan_type "check_out"
            then 16753920 else 5763719)%Z /\
         subject payload = cls /\
         student_id_display payload
         = DiscordService.or_else sid "ไม่ระบุรหัส" /\
         current_time payload = datetime_now env (clock_notify env)).
Proof.
  intros env sid fn ln cls scan_type pic w.
  destruct w as [d f ev].
  unfold DiscordService.send_attendance_log, webhook_configured.
  destruct (_ || _).
  - exists false, []. unfold ret. simpl. rewrite app_nil_r.
    split; [reflexivity|]. split; [split; [discriminate | now intros []]|].
    split; [reflexivity | discriminate].
  - destruct (String.eqb scan_type "check_out");
      destruct (post_result env) as [n|] eqn:Hpost;
      try destruct (Z.eqb_spec n 204);
      do 2 eexists; (split; [reflexivity|]); simpl;
      (split; [split; [try discriminate; intros _; split; congruence
                      | try tauto; intros [_ H]; congruence]|]);
      (split; [discriminate|]); intros _; eexists;
      (split; [reflexivity|]); now repeat split.
Qed.

End NotifierFacts.

(** ** What a request leaves alone *)

Section FrameFacts.

Import FaceRecognitionService Models Main.

Variable face_distance : Encoding -> Encoding -> float.

(** X25. A scan touches the sessions of nobody else.  In a reachable
    world, whatever the request and its outcome, the rows of the log table
    that belong to students other than the one recognised are afterwards
    exactly what they were; when nobody is recognised, so is the whole
    table. *)
Theorem scan_leaves_other_students_sessions :
  forall (T : Instant) (env : Env) (data : AttendanceRequest) (w : World)
         (x : AttendanceLog),
    reachable face_distance T w ->
    (forall s, recognise face_distance w (image_base64 data) = Some s ->
               log_student_id x <> id s) ->
    In x (attendance_logs
            (db (snd (api_check_attendance face_distance env data w))))
    <-> In x (attendance_logs (db w)).
Proof.
  intros T env data w x Hreach Hother.
  pose proof (reachable_invariant face_distance T w Hreach)
    as [_ _ Hids _ _].
  destruct (api_check_attendance_cases face_distance env data w)
    as [[_ [e ->]] | (s & Hs & Hcase)]; [reflexivity|].
  specialize (Hother s Hs).
  destruct (get_active_checkin (db w) (clock_lookup env) (id s)
              (req_class_name data)) as [r|] eqn:Ha;
    destruct (option_string_eqb (req_scan_type data) (Some "check_out"%string));
    rewrite Hcase; cbn [db attendance_logs update_checkout_time
                        add_attendance_log fst]; try reflexivity.
  - (* check-out: only the open row of the recognised student changes *)
    unfold get_active_checkin in Ha.
    apply order_by_limit_1_some in Ha as [Hr _].
    apply filter_In in Hr as [Hr Hwhere].
    unfold active_checkin_where in Hwhere.
    rewrite !andb_true_iff, Z.eqb_eq in Hwhere.
    destruct Hwhere as [[[Hsid _] _] _].
    rewrite in_map_iff. split.
    + intros (y & Hy & Hin).
      destruct (log_id y =? log_id r) eqn:E.
      * subst x. simpl in Hother. apply Z.eqb_eq in E.
        assert (y = r)
          by now apply (log_id_injective (attendance_logs (db w))).
        subst y. congruence.
      * now subst x.
    + intros Hin. exists x. split; [|assumption].
      destruct (Z.eqb_spec (log_id x) (log_id r)) as [E|E]; [|reflexivity].
      assert (x = r) by now apply (log_id_injective (attendance_logs (db w))).
      subst x. congruence.
  - (* check-in: the new row belongs to the recognised student *)
    rewrite in_app_iff. split; [|now left].
    intros [Hin|[<-|[]]]; [assumption|]. now simpl in Hother.
Qed.

End FrameFacts.

(** ** The further statements at work on the sample data *)

Module Checks.

Import FaceRecognitionService Models Main.
Local Open Scope string_scope.
Local Open Scope list_scope.
Local Open Scope Z_scope.

Lemma sample_ids_within_counter :
  forall s, In s (students (db Sample.world)) ->
            id s <= seq_students (db Sample.world).
Proof.
  intros s [<-|[<-|[<-|[]]]]; simpl; discriminate.
Defined.

Lemma sample_ids_distinct : NoDup (map id (students (db Sample.world))).
Proof.
  simpl. repeat constructor; simpl; intuition discriminate.
Defined.

(** X2 on the sample: Alice and Bob are equally near; Alice, listed
    first, is returned. *)
Lemma find_matching_student_first_of_the_nearest_witness :
  exists before after d,
    [Sample.carol; Sample.alice; Sample.bob]
    = before ++ Sample.alice :: after /\
    enrolled_distance Sample.distance Sample.files Sample2.between
      Sample.alice = Some d /\
    forall s' d',
      In s' before ->
      enrolled_distance Sample.distance Sample.files Sample2.between s'
      = Some d' ->
      fle d' FACE_RECOGNITION_TOLERANCE = true ->
      flt d d' = true.
Proof.
  apply (find_matching_student_first_of_the_nearest Sample.distance
           Sample.files Sample2.between
           [Sample.carol; Sample.alice; Sample.bob] Sample.alice).
  reflexivity.
Defined.

(** X3 on the sample: Alice and Bob in either order. *)
Lemma find_matching_student_distance_order_free_witness :
  match find_matching_student Sample.distance Sample.files Sample2.between
          [Sample.alice; Sample.bob],
        find_matching_student Sample.distance Sample.files Sample2.between
          [Sample.bob; Sample.alice] with
  | Value (Some s), Value (Some s') =>
      exists d d',
        enrolled_distance Sample.distance Sample.files Sample2.between s
        = Some d /\
        enrolled_distance Sample.distance Sample.files Sample2.between s'
        = Some d' /\
        fle d d' = true /\ fle d' d = true
  | Value None, Value None => True
  | Exception, Exception => True
  | _, _ => False
  end.
Proof.
  apply (find_matching_student_distance_order_free Sample.distance
           Sample.files Sample2.between [Sample.alice; Sample.bob]
           [Sample.bob; Sample.alice]).
  apply perm_swap.
Defined.

(** X5 on the sample: a fourth student, with a number nobody has. *)
Lemma add_student_then_get_student_by_id_witness :
  (forall s, In s (students (db Sample.world)) -> id s <> 4) /\
  get_student_by_id
    (fst (add_student (db Sample.world) 50 PathTemp (Some "6504") None None))
    4
  = Some (mkStudent 4 (Some "6504") None None PathTemp 50 50) /\
  (forall i, i <> 4 ->
             get_student_by_id
               (fst (add_student (db Sample.world) 50 PathTemp (Some "6504")
                       None None)) i
             = get_student_by_id (db Sample.world) i) /\
  attendance_logs
    (fst (add_student (db Sample.world) 50 PathTemp (Some "6504") None None))
  = attendance_logs (db Sample.world).
Proof.
  apply (add_student_then_get_student_by_id (db Sample.world) 50 PathTemp
           (Some "6504") None None).
  - exact sample_ids_within_counter.
  - reflexivity.
  - intros number [= <-] s [<-|[<-|[<-|[]]]]; simpl; discriminate.
Defined.

(** X7 on the sample: a stranger registers and is recognised. *)
Lemma registered_face_is_recognised_witness :
  exists reply w',
    api_register_face Sample.distance Sample.env_enter Sample2.stranger
      Sample.world = (Returned reply, w') /\
    student_db_id reply
    = id (registered_student (db Sample.world) Sample.env_enter) /\
    students (db w')
    = students (db Sample.world)
      ++ [registered_student (db Sample.world) Sample.env_enter] /\
    load_face_encoding (face_data w')
      (face_encoding_path
         (registered_student (db Sample.world) Sample.env_enter))
    = Value (Some (encoding (Sample.face_of 5))) /\
    recognise Sample.distance w' (Picture [Sample.face_of 5])
    = Some (registered_student (db Sample.world) Sample.env_enter).
Proof.
  apply (registered_face_is_recognised Sample.distance Sample.env_enter
           Sample2.stranger Sample.world (Sample.face_of 5)).
  - reflexivity.
  - reflexivity.
  - reflexivity.
  - exact sample_ids_within_counter.
  - intros s [<-|[<-|[<-|[]]]]; simpl; discriminate.
Defined.

(** X10 on the sample: Bob is deleted; a scan of Alice is still Alice. *)
Lemma deleted_student_is_not_recognised_witness : id Sample.alice <> 2.
Proof.
  apply (deleted_student_is_not_recognised Sample.distance 2 Sample.world
           Sample2.without_bob (Picture [Sample.face_of 0]) Sample.alice).
  - reflexivity.
  - reflexivity.
Defined.

(** X11 on the sample: Bob gets his number and names. *)
Lemma api_update_student_then_get_witness :
  match get_student_by_id (db Sample.world) 2 with
  | None =>
      api_update_student Sample.env_enter 2 Sample2.bobs_update Sample.world
      = (Raised (mkHTTPException 404 "Student not found"), Sample.world)
  | Some s =>
      exists w',
        api_update_student Sample.env_enter 2 Sample2.bobs_update
          Sample.world = (Returned true, w') /\
        get_student_by_id (db w') 2
        = Some (updated_student Sample.env_enter s Sample2.bobs_update) /\
        (forall j, j <> 2 ->
                   get_student_by_id (db w') j
                   = get_student_by_id (db Sample.world) j) /\
        attendance_logs (db w') = attendance_logs (db Sample.world) /\
        face_data w' = face_data Sample.world
  end.
Proof.
  apply (api_update_student_then_get Sample.env_enter 2 Sample2.bobs_update
           Sample.world).
  - split; [discriminate | reflexivity].
  - intros x [<-|[<-|[<-|[]]]] Hid; simpl; discriminate.
Defined.

(** X9 on the sample: Bob is deleted. *)
Lemma api_delete_student_cascades_witness :
  match get_student_by_id (db Sample.world) 2 with
  | None =>
      api_delete_student 2 Sample.world
      = (Raised (mkHTTPException 404 "Student not found"), Sample.world)
  | Some s =>
      exists w',
        api_delete_student 2 Sample.world = (Returned true, w') /\
        get_student_by_id (db w') 2 = None /\
        (forall x, In x (students (db w'))
                   <-> In x (students (db Sample.world)) /\ id x <> 2) /\
        (forall r, In r (attendance_logs (db w'))
                   <-> In r (attendance_logs (db Sample.world))
                       /\ log_student_id r <> 2) /\
        load_face_encoding (face_data w') (face_encoding_path s)
        = Value None /\
        (forall q, q <> face_encoding_path s ->
                   load_face_encoding (face_data w') q
                   = load_face_encoding (face_data Sample.world) q)
  end.
Proof.
  apply (api_delete_student_cascades 2 Sample.world).
  split; [discriminate | reflexivity].
Defined.

(** X16 on the sample: a stranger is scanned. *)
Lemma unrecognised_scan_changes_nothing_witness :
  exists e,
    api_check_attendance Sample.distance Sample.env_enter
      (Sample.scan 5 "check_in") Sample.world = (Raised e, Sample.world) /\
    match image_base64 (Sample.scan 5 "check_in") with
    | Malformed => e = InternalServerError
    | NotAPicture => e = mkHTTPException 400 "Invalid image data"
    | Picture [] => e = NoFaceFound
    | Picture (face :: _) =>
        match find_matching_student Sample.distance
                (face_data Sample.world) (encoding face)
                (get_all_students (db Sample.world)) with
        | Exception => e = InternalServerError
        | _ => e = IdentityNotFound
        end
    end.
Proof.
  apply (unrecognised_scan_changes_nothing Sample.distance Sample.env_enter
           (Sample.scan 5 "check_in") Sample.world).
  reflexivity.
Defined.

(** X21 on the sample: the first hundred logs after Alice's morning. *)
Lemma get_attendance_logs_limit_and_filter_witness :
  get_attendance_logs (db Sample.exited) 100 NoDateFilter
  = sql_limit 100 (get_attendance_logs (db Sample.exited) (-1) NoDateFilter)
  /\
  latest_first (get_attendance_logs (db Sample.exited) 100 NoDateFilter) /\
  (0 <= 100 ->
   (List.length (get_attendance_logs (db Sample.exited) 100 NoDateFilter)
    <= Z.to_nat 100)%nat) /\
  forall v,
    In v (get_attendance_logs (db Sample.exited) (-1) NoDateFilter) <->
    exists al,
      In al (attendance_logs (db Sample.exited)) /\
      True /\
      In v (left_join_students (students (db Sample.exited)) al).
Proof.
  apply (get_attendance_logs_limit_and_filter (db Sample.exited) 100
           NoDateFilter).
  split; [discriminate | reflexivity].
Defined.

(** X12 on the sample: the ids after a registration. *)
Lemma students_ok_preserved_witness :
  students_ok
    (db (serve Sample.distance
           (RegisterFace Sample.env_enter Sample2.stranger) Sample.world)).
Proof.
  apply (students_ok_preserved Sample.distance
           (RegisterFace Sample.env_enter Sample2.stranger) Sample.world).
  split; [exact sample_ids_distinct | exact sample_ids_within_counter].
Defined.

(** X13 on the sample: Alice's first enter of the day. *)
Lemma enter_without_session_opens_one_witness :
  exists w',
    api_check_attendance Sample.distance Sample.env_enter
      (Sample.scan 0 "check_in") Sample.world
    = (Returned (reply_of Sample.env_enter Sample.alice
                   (Sample.scan 0 "check_in") "เช็คเข้าสำเร็จ!" "check_in"),
       w') /\
    attendance_logs (db w')
    = attendance_logs (db Sample.world)
      ++ [mkLog (seq_attendance_logs (db Sample.world) + 1)
                (id Sample.alice) (Some "Math")
                (get_thai_time (clock_write Sample.env_enter)) None
                (Some (capture_path Sample.env_enter Sample.alice
                         (Sample.scan 0 "check_in"))) "checked_in"] /\
    session_state (db w') (id Sample.alice) "Math"
      (DATE (get_thai_time (clock_write Sample.env_enter))) = Entered /\
    students (db w') = students (db Sample.world) /\
    face_data w' = face_data Sample.world.
Proof.
  apply (enter_without_session_opens_one Sample.distance Sample.env_enter
           (Sample.scan 0 "check_in") Sample.world Sample.alice "Math").
  - reflexivity.
  - reflexivity.
  - discriminate.
  - reflexivity.
Defined.

(** X14 on the sample: Alice scanned for no class. *)
Lemma null_class_never_finds_a_session_witness :
  (req_scan_type Sample2.scan_null_class = Some "check_out" ->
   exists w',
     api_check_attendance Sample.distance Sample.env_enter
       Sample2.scan_null_class Sample.world
     = (Raised NoOpenEntry, w') /\
     db w' = db Sample.world) /\
  (req_scan_type Sample2.scan_null_class <> Some "check_out" ->
   exists w',
     api_check_attendance Sample.distance Sample.env_enter
       Sample2.scan_null_class Sample.world
     = (Returned (reply_of Sample.env_enter Sample.alice
                    Sample2.scan_null_class "เช็คเข้าสำเร็จ!" "check_in"),
        w') /\
     attendance_logs (db w')
     = attendance_logs (db Sample.world)
       ++ [checked_in_row (db Sample.world) Sample.env_enter Sample.alice
             Sample2.scan_null_class]).
Proof.
  apply (null_class_never_finds_a_session Sample.distance Sample.env_enter
           Sample2.scan_null_class Sample.world Sample.alice).
  - reflexivity.
  - reflexivity.
Defined.

(** X15 on the sample: Alice, entered at 09:00, asks to enter at 11:00. *)
Lemma rejected_scan_leaves_only_its_picture_witness :
  (DuplicateEntry = DuplicateEntry \/ DuplicateEntry = NoOpenEntry) /\
  snd (api_check_attendance Sample.distance Sample.env_again
         (Sample.scan 0 "check_in") Sample.entered)
  = mkWorld (db Sample.entered) (face_data Sample.entered)
      (events Sample.entered
       ++ [Imwrite (capture_path Sample.env_again Sample.alice
                      (Sample.scan 0 "check_in"))]).
Proof.
  apply (rejected_scan_leaves_only_its_picture Sample.distance
           Sample.env_again (Sample.scan 0 "check_in") Sample.entered
           (snd (api_check_attendance Sample.distance Sample.env_again
                   (Sample.scan 0 "check_in") Sample.entered))
           Sample.alice DuplicateEntry).
  - reflexivity.
  - reflexivity.
Defined.

(** X17 on the sample: Alice enters at 09:00 and leaves at 10:00. *)
Lemma enter_then_exit_leaves_one_exited_session_witness :
  exists w1 w2,
    api_check_attendance Sample.distance Sample.env_enter
      (Sample.scan 0 "check_in") Sample.world
    = (Returned (reply_of Sample.env_enter Sample.alice
                   (Sample.scan 0 "check_in") "เช็คเข้าสำเร็จ!" "check_in"),
       w1) /\
    api_check_attendance Sample.distance Sample.env_exit
      (Sample.scan 0 "check_out") w1
    = (Returned (reply_of Sample.env_exit Sample.alice
                   (Sample.scan 0 "check_out") "เช็คออกสำเร็จ!" "check_out"),
       w2) /\
    sessions_of (db w2) (id Sample.alice) "Math"
      (get_thai_date (clock_lookup Sample.env_enter))
    = [mkLog (seq_attendance_logs (db Sample.world) + 1) (id Sample.alice)
             (Some "Math") (get_thai_time (clock_write Sample.env_enter))
             (Some (get_thai_time (clock_write Sample.env_exit)))
             (Some (capture_path Sample.env_exit Sample.alice
                      (Sample.scan 0 "check_out"))) "checked_out"] /\
    session_state (db w2) (id Sample.alice) "Math"
      (get_thai_date (clock_lookup Sample.env_enter)) = Exited /\
    get_thai_time (clock_write Sample.env_enter)
    <= get_thai_time (clock_write Sample.env_exit).
Proof.
  apply (enter_then_exit_leaves_one_exited_session Sample.distance
           Sample.env_enter Sample.env_exit (Sample.scan 0 "check_in")
           (Sample.scan 0 "check_out") Sample.world Sample.alice "Math").
  - reflexivity.
  - reflexivity.
  - reflexivity.
  - reflexivity.
  - discriminate.
  - reflexivity.
  - reflexivity.
  - reflexivity.
  - reflexivity.
  - discriminate.
Defined.

(** X18 on the sample: the log table after Alice's morning. *)
Lemma reachable_logs_are_well_formed_witness :
  NoDup (map log_id (attendance_logs (db Sample.exited))) /\
  forall r,
    In r (attendance_logs (db Sample.exited)) ->
    log_id r <= seq_attendance_logs (db Sample.exited) /\
    check_in_time r <= get_thai_time (Sample.nine_am + 3600) /\
    (check_out_time r = None <-> status r = "checked_in") /\
    (check_out_time r <> None <-> status r = "checked_out") /\
    forall t, check_out_time r = Some t -> check_in_time r <= t.
Proof.
  apply (reachable_logs_are_well_formed Sample.distance
           (Sample.nine_am + 3600) Sample.exited).
  exact Runs.exited_reachable.
Defined.

(** X22 on the sample: a log of Bob's against the sample students. *)
Lemma left_join_students_one_row_per_log_witness :
  left_join_students (students (db Sample.world))
    (mkLog 1 2 (Some "Math") 100 None None "checked_in")
  = [mkLogView 1 (Some "Math") 100 None None "checked_in"
       (match find (fun s => id s =? 2) (students (db Sample.world)) with
        | Some st => student_id st
        | None => None
        end)
       (match find (fun s => id s =? 2) (students (db Sample.world)) with
        | Some st => first_name st
        | None => None
        end)
       (match find (fun s => id s =? 2) (students (db Sample.world)) with
        | Some st => last_name st
        | None => None
        end)].
Proof.
  apply (left_join_students_one_row_per_log (students (db Sample.world))
           (mkLog 1 2 (Some "Math") 100 None None "checked_in")).
  exact sample_ids_distinct.
Defined.

(** X24 on the sample: Alice's enter at 09:00, listed a minute later. *)
Lemma check_in_shows_in_todays_listing_witness :
  exists v,
    In v (get_today_attendance (db Sample.entered) (Sample.nine_am + 60)
            (req_class_name (Sample.scan 0 "check_in"))) /\
    view_id v = seq_attendance_logs (db Sample.world) + 1 /\
    view_class_name v = req_class_name (Sample.scan 0 "check_in") /\
    view_check_in_time v = get_thai_time (clock_write Sample.env_enter) /\
    view_check_out_time v = None /\
    view_status v = "checked_in".
Proof.
  apply (check_in_shows_in_todays_listing Sample.distance Sample.env_enter
           (Sample.scan 0 "check_in") Sample.world Sample.entered
           (reply_of Sample.env_enter Sample.alice
              (Sample.scan 0 "check_in") "เช็คเข้าสำเร็จ!" "check_in")
           (Sample.nine_am + 60)).
  - reflexivity.
  - discriminate.
  - reflexivity.
Defined.

(** X25 on the sample: a log of Bob's while Alice leaves. *)
Lemma scan_leaves_other_students_sessions_witness :
  In (mkLog 9 2 (Some "Math") 100 None None "checked_in")
     (attendance_logs
        (db (snd (api_check_attendance Sample.distance Sample.env_exit
                    (Sample.scan 0 "check_out") Sample.entered))))
  <-> In (mkLog 9 2 (Some "Math") 100 None None "checked_in")
         (attendance_logs (db Sample.entered)).
Proof.
  apply (scan_leaves_other_students_sessions Sample.distance Sample.nine_am
           Sample.env_exit (Sample.scan 0 "check_out") Sample.entered
           (mkLog 9 2 (Some "Math") 100 None None "checked_in")
           Runs.entered_reachable).
  intros s Hs. vm_compute in Hs. injection Hs as <-. discriminate.
Defined.

End Checks.
